(** * cloudknot.aws: resource lifecycle of Vpc, SecurityGroup and IamRole

    A shallow embedding of [cloudknot/aws/ec2.py] and [cloudknot/aws/iam.py].
    Python methods become functions in a state-and-exception monad over a
    [World]: the remote provider's state, the local configuration registry,
    the chronological list of gateway calls issued so far and the time spent
    sleeping.  An exception keeps the side effects performed before it was
    raised, as in Python. *)

From Stdlib Require Import Ascii String ZArith Lia.
From stdpp Require Import base numbers list strings gmap pretty.

Open Scope string_scope.

(** ** Exceptions *)

(** The exceptions the two modules raise, catch or let through.  A botocore
    [ClientError] is represented by its [e.response['Error']['Code']]; the
    per-code subclasses that boto3 generates ([NoSuchEntityException],
    [EntityAlreadyExistsException]) are the [ClientError]s carrying that code.
    A tenacity [RetryError] stores the outcome of the last attempt.  The
    cloudknot exceptions keep their [resource_id]; formatted messages are not
    modelled.  [OutOfFuel] is not a Python exception: it marks a loop of the
    model that was cut off by its fuel before the Python loop would end. *)
Inductive exn : Type :=
| ValueError (msg : string)
| AttributeError (attr : string)
| KeyError (key : string)
| IndexError
| ClientError (code : string)
| WaiterError
| RetryError (last_attempt : attempt)
| ResourceExistsException (resource_id : string)
| ResourceDoesNotExistException (resource_id : string)
| ResourceClobberedException (resource_id : string)
| CannotDeleteResourceException (resource_id : list string)
| OutOfFuel
with attempt : Type :=
| Failed (e : exn)
| Returned.

Inductive result (A : Type) : Type :=
| Ok (a : A)
| Raise (e : exn).
Arguments Ok {A} a.
Arguments Raise {A} e.

Definition is_ok {A} (r : result A) : bool :=
  match r with Ok _ => true | Raise _ => false end.

(** ** The [ipaddress] module (Python standard library) *)

Module ipaddress.
Local Open Scope Z_scope.

(** An [IPv4Network]: the integer of its network address and its prefix
    length.  The canonical text [str(net)] determines and is determined by
    this pair, so text in canonical form is represented by the pair. *)
Record IPv4Network : Type := mkNet {
  network_address : Z;
  prefixlen : Z
}.

Definition _max_prefixlen : Z := 32.
Definition _ALL_ONES : Z := 2 ^ 32 - 1.

(** [_ip_int_from_prefix]: [_ALL_ONES ^ (_ALL_ONES >> prefixlen)]. *)
Definition netmask (self : IPv4Network) : Z :=
  Z.lxor _ALL_ONES (Z.shiftr _ALL_ONES (prefixlen self)).

(** [hostmask]: [netmask ^ _ALL_ONES]. *)
Definition hostmask (self : IPv4Network) : Z :=
  Z.lxor (netmask self) _ALL_ONES.

(** [broadcast_address]: [network_address | hostmask]. *)
Definition broadcast_address (self : IPv4Network) : Z :=
  Z.lor (network_address self) (hostmask self).

(** [num_addresses]: [broadcast_address - network_address + 1]. *)
Definition num_addresses (self : IPv4Network) : Z :=
  broadcast_address self - network_address self + 1.

(** What the constructor [IPv4Network(text)] guarantees of its result (it
    is strict: host bits set raise [ValueError]). *)
Definition well_formed (self : IPv4Network) : Prop :=
  0 <= prefixlen self <= 32 /\
  0 <= network_address self < 2 ^ 32 /\
  network_address self mod 2 ^ (32 - prefixlen self) = 0.

Definition well_formedb (self : IPv4Network) : bool :=
  (0 <=? prefixlen self) && (prefixlen self <=? 32) &&
  (0 <=? network_address self) && (network_address self <? 2 ^ 32) &&
  (network_address self mod 2 ^ (32 - prefixlen self) =? 0).

(** Python's [range(start, stop, step)] as the list it enumerates. *)
Definition range (start stop step : Z) : result (list Z) :=
  if step =? 0 then Raise (ValueError "range() arg 3 must not be zero")
  else
    let n := if 0 <? step then (stop - start + step - 1) / step
             else (start - stop - step - 1) / (- step) in
    Ok (map (fun i : nat => start + Z.of_nat i * step) (seq 0 (Z.to_nat n))).

(** [IPv4Network.subnets(prefixlen_diff)], the generator consumed by
    [list(...)]. *)
Definition subnets (self : IPv4Network) (prefixlen_diff : Z)
  : result (list IPv4Network) :=
  if prefixlen self =? _max_prefixlen then Ok [self]
  else if prefixlen_diff <? 0
  then Raise (ValueError "prefix length diff must be > 0")
  else
    let new_prefixlen := prefixlen self + prefixlen_diff in
    if _max_prefixlen <? new_prefixlen
    then Raise (ValueError "prefix length diff is invalid for netblock")
    else
      let start := network_address self in
      let end_ := broadcast_address self + 1 in
      let step := Z.shiftr (hostmask self + 1) prefixlen_diff in
      match range start end_ step with
      | Raise e => Raise e
      | Ok addrs => Ok (map (fun new_addr => mkNet new_addr new_prefixlen) addrs)
      end.

(** The addresses of a network: [network_address .. broadcast_address]. *)
Definition contains_address (self : IPv4Network) (a : Z) : Prop :=
  network_address self <= a <= broadcast_address self.

(** [subnet_of]: every address of [a] is an address of [b]. *)
Definition subnet_of (a b : IPv4Network) : Prop :=
  forall x, contains_address a x -> contains_address b x.

(** [overlaps]: the two networks share an address. *)
Definition overlaps (a b : IPv4Network) : Prop :=
  exists x, contains_address a x /\ contains_address b x.

(** The [i]-th block of the partition of [self] into blocks with [k] more
    prefix bits, counted from the network address upwards. *)
Definition partition_block (self : IPv4Network) (k : Z) (i : nat)
  : IPv4Network :=
  mkNet (network_address self + Z.of_nat i * 2 ^ (32 - prefixlen self - k))
        (prefixlen self + k).

(** ** Reading a network from text

    [IPv4Network(text)] as Python 3.11 reads it: ["a.b.c.d"],
    ["a.b.c.d/p"] with a prefix length, or ["a.b.c.d/m.m.m.m"] with a
    netmask or a hostmask. *)

Definition digit_of (c : Ascii.ascii) : option Z :=
  let n := Z.of_nat (Ascii.nat_of_ascii c) in
  if (48 <=? n) && (n <=? 57) then Some (n - 48) else None.

Fixpoint decimal_from (acc : Z) (s : string) : option Z :=
  match s with
  | EmptyString => Some acc
  | String c s' =>
      match digit_of c with
      | Some d => decimal_from (10 * acc + d) s'
      | None => None
      end
  end.

(** [int(s, 10)] of a string for which [s.isascii() and s.isdigit()]
    holds: a string that is not empty and has no other character than
    the digits 0 to 9. *)
Definition decimal (s : string) : option Z :=
  match s with
  | EmptyString => None
  | _ => decimal_from 0 s
  end.

(** [str.split(sep)] for a one-character separator. *)
Fixpoint split_on (sep : Ascii.ascii) (cur : string) (s : string)
  : list string :=
  match s with
  | EmptyString => [String.rev cur]
  | String c s' =>
      if Ascii.eqb c sep then String.rev cur :: split_on sep EmptyString s'
      else split_on sep (String c cur) s'
  end.

(** [octet_str != '0' and octet_str[0] == '0']. *)
Definition leading_zero (octet_str : string) : bool :=
  negb (String.eqb octet_str "0")
  && match octet_str with
     | String c _ => Ascii.eqb c "0"%char
     | EmptyString => false
     end.

(** [_parse_octet]: decimal digits only, at most three of them, no
    leading zero, at most 255. *)
Definition _parse_octet (octet_str : string) : option Z :=
  match decimal octet_str with
  | None => None
  | Some octet_int =>
      if Nat.ltb 3 (String.length octet_str) then None
      else if leading_zero octet_str then None
      else if 255 <? octet_int then None
      else Some octet_int
  end.

(** [_ip_int_from_string]: four octets separated by dots, big endian. *)
Definition _ip_int_from_string (ip_str : string) : option Z :=
  match split_on "."%char EmptyString ip_str with
  | [a; b; c; d] =>
      match _parse_octet a, _parse_octet b, _parse_octet c, _parse_octet d with
      | Some a, Some b, Some c, Some d =>
          Some (((a * 256 + b) * 256 + c) * 256 + d)
      | _, _, _, _ => None
      end
  | _ => None
  end.

(** [sys.int_info.default_max_str_digits]: [int(s)] raises [ValueError] for
    a string of more digits. *)
Definition _max_str_digits : nat := 4300%nat.

(** [_prefix_from_prefix_string]: a prefix length written in decimal
    digits, leading zeros allowed. *)
Definition _prefix_from_prefix_string (prefixlen_str : string) : option Z :=
  match decimal prefixlen_str with
  | None => None
  | Some prefixlen =>
      if Nat.ltb _max_str_digits (String.length prefixlen_str) then None
      else if prefixlen <=? _max_prefixlen then Some prefixlen
      else None
  end.

(** [int.bit_length()]. *)
Definition bit_length (n : Z) : Z :=
  if n =? 0 then 0 else Z.log2 (Z.abs n) + 1.

Definition _count_righthand_zero_bits (number bits : Z) : Z :=
  if number =? 0 then bits
  else Z.min bits (bit_length (Z.land (Z.lnot number) (number - 1))).

(** [_ip_int_from_prefix]: the netmask of a prefix length. *)
Definition _ip_int_from_prefix (prefixlen : Z) : Z :=
  Z.lxor _ALL_ONES (Z.shiftr _ALL_ONES prefixlen).

(** [_prefix_from_ip_int]: the prefix length of a netmask; a pattern that
    mixes zeroes and ones is refused. *)
Definition _prefix_from_ip_int (ip_int : Z) : option Z :=
  let trailing_zeroes := _count_righthand_zero_bits ip_int _max_prefixlen in
  let prefixlen := _max_prefixlen - trailing_zeroes in
  let leading_ones := Z.shiftr ip_int trailing_zeroes in
  let all_ones := Z.shiftl 1 prefixlen - 1 in
  if leading_ones =? all_ones then Some prefixlen else None.

(** [_prefix_from_ip_string]: a netmask in dotted form or, when the
    pattern is none, a hostmask. *)
Definition _prefix_from_ip_string (ip_str : string) : option Z :=
  match _ip_int_from_string ip_str with
  | None => None
  | Some ip_int =>
      match _prefix_from_ip_int ip_int with
      | Some prefixlen => Some prefixlen
      | None => _prefix_from_ip_int (Z.lxor ip_int _ALL_ONES)
      end
  end.

(** [_make_netmask] of the text after the slash: a prefix length first,
    a netmask or hostmask otherwise. *)
Definition _make_netmask (arg : string) : option Z :=
  match _prefix_from_prefix_string arg with
  | Some prefixlen => Some prefixlen
  | None => _prefix_from_ip_string arg
  end.

(** [IPv4Network(text)] with the default [strict=True]; every failure is a
    [ValueError] ([AddressValueError] and [NetmaskValueError] are
    subclasses of it).  Without a slash the prefix length is 32. *)
Definition IPv4Network_of_text (s : string) : result IPv4Network :=
  let bad := Raise (ValueError "does not appear to be an IPv4 network") in
  match split_on "/"%char EmptyString s with
  | [addr] =>
      match _ip_int_from_string addr with
      | Some packed => Ok (mkNet packed _max_prefixlen)
      | None => bad
      end
  | [addr; mask] =>
      match _ip_int_from_string addr, _make_netmask mask with
      | Some packed, Some prefixlen =>
          if Z.land packed (_ip_int_from_prefix prefixlen) =? packed
          then Ok (mkNet packed prefixlen)
          else Raise (ValueError "has host bits set")
      | _, _ => bad
      end
  | _ => bad
  end.

End ipaddress.
Export ipaddress(IPv4Network, mkNet).

(** ** The remote provider (external collaborator)

    The state the EC2, Batch and IAM endpoints answer from.  Resources are
    keyed by their provider-assigned identifier (roles and instance profiles
    by name), tags by their key.  The model is static: the remote changes
    only through the calls issued here. *)

Record Tag : Type := mkTag { Key : string; Value : string }.

Record VpcDesc : Type := mkVpcDesc {
  vpc_CidrBlock : IPv4Network;
  vpc_InstanceTenancy : string;
  vpc_Tags : gmap string string
}.

Record SubnetDesc : Type := mkSubnetDesc {
  subnet_VpcId : string;
  subnet_CidrBlock : IPv4Network;
  subnet_AvailabilityZone : string;
  subnet_Tags : gmap string string
}.

Record IpPermission : Type := mkIpPermission {
  IpProtocol : string;
  FromPort : Z;
  ToPort : Z;
  IpRanges : list string;
  Ipv6Ranges : list string
}.

Record SecurityGroupDesc : Type := mkSecurityGroupDesc {
  sg_GroupName : string;
  sg_VpcId : string;
  sg_Description : string;
  sg_IpPermissions : list IpPermission;
  sg_Tags : gmap string string
}.

Record InstanceDesc : Type := mkInstanceDesc {
  inst_VpcId : string;
  inst_SecurityGroups : list string
}.

Record ComputeEnvironment : Type := mkComputeEnvironment {
  computeEnvironmentName : string;
  computeEnvironmentArn : string;
  serviceRole : string;
  status : string;
  securityGroupIds : list string
}.

Record Statement : Type := mkStatement {
  Effect : string;
  Principal_Service : option string;
  Action : string
}.

(** A role policy document, [{"Statement": [...]}]; its JSON text and the
    parsed document are not told apart. *)
Record PolicyDocument : Type := mkPolicyDocument {
  Statement_ : list Statement
}.

Record PolicyDesc : Type := mkPolicyDesc {
  PolicyName : string;
  PolicyArn : string
}.

Record RoleDesc : Type := mkRoleDesc {
  role_Arn : string;
  role_AssumeRolePolicyDocument : PolicyDocument;
  role_Description : option string;
  role_AttachedPolicies : list PolicyDesc
}.

Record InstanceProfileDesc : Type := mkInstanceProfileDesc {
  ip_Arn : string;
  ip_Roles : list string
}.

Record Remote : Type := mkRemote {
  vpcs : gmap string VpcDesc;
  subnets : gmap string SubnetDesc;
  security_groups : gmap string SecurityGroupDesc;
  instances : gmap string InstanceDesc;
  compute_environments : list ComputeEnvironment;
  availability_zones : list string;
  roles : gmap string RoleDesc;
  policy_pages : list (list PolicyDesc);
  instance_profiles : gmap string InstanceProfileDesc;
  next_id : nat
}.

(** The gateway calls, as they are recorded in the world's call log. *)
Module Call.
Inductive t : Type :=
| describe_vpcs (VpcId : string)
| describe_tags (resource_type key value : string)
| create_tags (Resources : list string) (Tags : list Tag)
| describe_subnets (vpc_id : string)
| create_vpc (CidrBlock : IPv4Network) (InstanceTenancy : string)
| wait_vpc_exists (VpcId : string)
| wait_vpc_available (VpcId : string)
| describe_availability_zones
| create_subnet (AvailabilityZone : string) (CidrBlock : IPv4Network)
  (VpcId : string)
| wait_subnet_available (SubnetIds : list string)
| delete_subnet (SubnetId : string)
| delete_vpc (VpcId : string)
| describe_security_groups_ids (GroupId : string)
| describe_security_groups_name (group_name vpc_id : string)
| describe_security_groups_vpc (vpc_id : string)
| create_security_group (GroupName Description VpcId : string)
| authorize_security_group_ingress (GroupId : string)
  (IpPermissions : list IpPermission)
| describe_instances (vpc_id : string)
| terminate_instances (InstanceIds : list string)
| describe_compute_environments (computeEnvironments : option (list string))
| delete_security_group (GroupId : string)
| get_role (RoleName : string)
| list_attached_role_policies (RoleName : string)
| list_policies (Marker : option nat)
| create_role (RoleName : string) (AssumeRolePolicyDocument : PolicyDocument)
  (Description : string)
| attach_role_policy (PolicyArn RoleName : string)
| create_instance_profile (InstanceProfileName : string)
| wait_instance_profile_exists (InstanceProfileName : string)
| add_role_to_instance_profile (InstanceProfileName RoleName : string)
| list_instance_profiles_for_role (RoleName : string)
| remove_role_from_instance_profile (InstanceProfileName RoleName : string)
| delete_instance_profile (InstanceProfileName : string)
| detach_role_policy (RoleName PolicyArn : string)
| delete_role (RoleName : string).

(** The calls that change the remote, as opposed to reads and waits. *)
Definition is_mutation (c : t) : bool :=
match c with
| create_tags _ _ | create_vpc _ _ | create_subnet _ _ _ | delete_subnet _
| delete_vpc _ | create_security_group _ _ _
| authorize_security_group_ingress _ _ | terminate_instances _
| delete_security_group _ | create_role _ _ _ | attach_role_policy _ _
| create_instance_profile _ | add_role_to_instance_profile _ _
| remove_role_from_instance_profile _ _ | delete_instance_profile _
| detach_role_policy _ _ | delete_role _ => true
| _ => false
end.
End Call.

(** ** The world and the monad *)

Record World : Type := mkWorld {
  remote : Remote;
  registry : gmap (string * string) string;
  calls : list Call.t;
  slept : nat
}.

Definition M (A : Type) : Type := World -> result A * World.

Definition ret {A} (a : A) : M A := fun w => (Ok a, w).

Definition raise {A} (e : exn) : M A := fun w => (Raise e, w).

Definition bind {A B} (m : M A) (k : A -> M B) : M B :=
  fun w =>
    match m w with
    | (Ok a, w') => k a w'
    | (Raise e, w') => (Raise e, w')
    end.

(** [try: m except ... as e: handler e]; a handler that does not match
    re-raises. *)
Definition catch {A} (m : M A) (handler : exn -> M A) : M A :=
  fun w =>
    match m w with
    | (Ok a, w') => (Ok a, w')
    | (Raise e, w') => handler e w'
    end.

(** Runs [m] and hands back its outcome as a value. *)
Definition attempt_of {A} (m : M A) : M (result A) :=
  fun w => let (r, w') := m w in (Ok r, w').

Definition lift {A} (r : result A) : M A := fun w => (r, w).

Notation "x <- c1 ;; c2" := (bind c1 (fun x => c2))
  (at level 100, c1 at next level, right associativity).
Notation "c1 ;; c2" := (bind c1 (fun _ => c2))
  (at level 100, right associativity).

(** A gateway call: logged, then answered from (and applied to) the remote. *)
Definition gateway {A} (c : Call.t) (f : Remote -> result A * Remote) : M A :=
  fun w =>
    let (r, rem) := f (remote w) in
    (r, mkWorld rem (registry w) (calls w ++ [c]) (slept w)).

(** [time.sleep(seconds)], also the waits of a [tenacity] loop. *)
Definition sleep (seconds : nat) : M unit :=
  fun w => (Ok tt, mkWorld (remote w) (registry w) (calls w) (slept w + seconds)).

(** Python truthiness of an optional string argument. *)
Definition truthy (o : option string) : bool :=
  match o with
  | Some s => negb (String.eqb s EmptyString)
  | None => false
  end.

(** The string of an argument that a guard has found truthy. *)
Definition the (o : option string) : string := default EmptyString o.

(** ** [cloudknot.config] *)

Module config.
(** Modelled from the spec: [cloudknot.config] is not among the sources.
    The Local Registry exposes [add(section, id, name)] and
    [remove(section, id)] over sections keyed by resource kind, and
    reflects each call immediately. *)
Definition add_resource (section resource_id name : string) : M unit :=
  fun w => (Ok tt, mkWorld (remote w) (<[(section, resource_id) := name]> (registry w))
                     (calls w) (slept w)).

(** Modelled from the spec: see [add_resource]. *)
Definition remove_resource (section resource_id : string) : M unit :=
  fun w => (Ok tt, mkWorld (remote w) (delete (section, resource_id) (registry w))
                     (calls w) (slept w)).
End config.

(** ** [tenacity] (external library) *)

Module tenacity.
(** [wait_exponential(max=m)]: [2 ** attempt_number] seconds, capped. *)
Definition wait_exponential (max : nat) (previous_attempt_number : nat) : nat :=
  Nat.min (2 ^ previous_attempt_number) max.

(** [stop_after_delay(d)]: stop once [d] seconds have passed since the
    first attempt. *)
Definition stop_after_delay (max_delay : nat) (delay_since_first_attempt : nat)
  : bool :=
  Nat.leb max_delay delay_since_first_attempt.

(** [retry_if_exception_type(cls)]: retry when the attempt raised an
    instance of the class; a returned value is never retried. *)
Definition retry_if_exception_type {A} (cls : exn -> bool) (r : result A)
  : bool :=
  match r with
  | Raise e => cls e
  | Ok _ => false
  end.

(** [retry_if_result(predicate)]: retry when the attempt returned a value
    the predicate accepts; a raised exception is never retried. *)
Definition retry_if_result {A} (predicate : A -> bool) (r : result A) : bool :=
  match r with
  | Ok a => predicate a
  | Raise _ => false
  end.

(** [Retrying(wait=wait_exponential(max=wait_max),
              stop=stop_after_delay(max_delay), retry=retry)]. *)
Record Retrying (A : Type) : Type := mkRetrying {
  wait_max : nat;
  max_delay : nat;
  retry : result A -> bool
}.
Arguments mkRetrying {A} _ _ _.
Arguments wait_max {A} _.
Arguments max_delay {A} _.
Arguments retry {A} _.

Definition last_attempt_of {A} (r : result A) : attempt :=
  match r with
  | Raise e => Failed e
  | Ok _ => Returned
  end.

(** The loop of [Retrying.call].  Gateway calls take no time in the model,
    so the delay since the first attempt is the sum of the waits. *)
Fixpoint call_from {A} (self : Retrying A) (fuel attempt_number delay : nat)
  (fn : M A) : M A :=
  match fuel with
  | O => raise OutOfFuel
  | S fuel' =>
      r <- attempt_of fn ;;
      if retry self r then
        if stop_after_delay (max_delay self) delay
        then raise (RetryError (last_attempt_of r))
        else
          let seconds := wait_exponential (wait_max self) attempt_number in
          sleep seconds ;;
          call_from self fuel' (S attempt_number) (delay + seconds) fn
      else lift r
  end.

(** [retry.call(fn, ...)].  Every wait lasts at least a second when
    [wait_max] is positive, so [max_delay + 1] attempts reach the stop. *)
Definition call {A} (self : Retrying A) (fn : M A) : M A :=
  call_from self (S (max_delay self)) 1 0 fn.

(** [RetryError.reraise()]: the last attempt's exception if it failed,
    the [RetryError] itself otherwise. *)
Definition reraise {A} (last : attempt) : M A :=
  match last with
  | Failed e => raise e
  | Returned => raise (RetryError last)
  end.
End tenacity.

(** ** botocore exception classes *)

Module botocore.
Definition is_ClientError (e : exn) : bool :=
  match e with ClientError _ => true | _ => false end.

Definition is_WaiterError (e : exn) : bool :=
  match e with WaiterError => true | _ => false end.

Definition has_code (code : string) (e : exn) : bool :=
  match e with ClientError c => String.eqb c code | _ => false end.

(** [client.exceptions.<name>]: the base class, a class generated from an
    error code of the service, or [AttributeError]. *)
Definition exceptions (name : string) : result (exn -> bool) :=
  if String.eqb name "ClientError" then Ok is_ClientError
  else if String.eqb name "NoSuchEntityException" then Ok (has_code "NoSuchEntity")
  else if String.eqb name "EntityAlreadyExistsException"
  then Ok (has_code "EntityAlreadyExists")
  else Raise (AttributeError name).
End botocore.

(** ** Updating the remote *)

Definition set_vpcs (f : gmap string VpcDesc -> gmap string VpcDesc) (r : Remote)
  : Remote :=
  mkRemote (f (vpcs r)) (subnets r) (security_groups r) (instances r)
    (compute_environments r) (availability_zones r) (roles r) (policy_pages r)
    (instance_profiles r) (next_id r).

Definition set_subnets (f : gmap string SubnetDesc -> gmap string SubnetDesc)
  (r : Remote) : Remote :=
  mkRemote (vpcs r) (f (subnets r)) (security_groups r) (instances r)
    (compute_environments r) (availability_zones r) (roles r) (policy_pages r)
    (instance_profiles r) (next_id r).

Definition set_security_groups
  (f : gmap string SecurityGroupDesc -> gmap string SecurityGroupDesc)
  (r : Remote) : Remote :=
  mkRemote (vpcs r) (subnets r) (f (security_groups r)) (instances r)
    (compute_environments r) (availability_zones r) (roles r) (policy_pages r)
    (instance_profiles r) (next_id r).

Definition set_instances
  (f : gmap string InstanceDesc -> gmap string InstanceDesc) (r : Remote)
  : Remote :=
  mkRemote (vpcs r) (subnets r) (security_groups r) (f (instances r))
    (compute_environments r) (availability_zones r) (roles r) (policy_pages r)
    (instance_profiles r) (next_id r).

Definition set_roles (f : gmap string RoleDesc -> gmap string RoleDesc)
  (r : Remote) : Remote :=
  mkRemote (vpcs r) (subnets r) (security_groups r) (instances r)
    (compute_environments r) (availability_zones r) (f (roles r)) (policy_pages r)
    (instance_profiles r) (next_id r).

Definition set_instance_profiles
  (f : gmap string InstanceProfileDesc -> gmap string InstanceProfileDesc)
  (r : Remote) : Remote :=
  mkRemote (vpcs r) (subnets r) (security_groups r) (instances r)
    (compute_environments r) (availability_zones r) (roles r) (policy_pages r)
    (f (instance_profiles r)) (next_id r).

Definition bump_next_id (r : Remote) : Remote :=
  mkRemote (vpcs r) (subnets r) (security_groups r) (instances r)
    (compute_environments r) (availability_zones r) (roles r) (policy_pages r)
    (instance_profiles r) (S (next_id r)).

Definition fresh_id (prefix : string) (r : Remote) : string :=
  prefix +:+ pretty (next_id r).

(** The tags of a resource as the list of [{'Key': k, 'Value': v}] of a
    response. *)
Definition tag_list (tags : gmap string string) : list Tag :=
  (fun kv : string * string => mkTag kv.1 kv.2) <$> map_to_list tags.

(** The ['Tags'] entry of a response item; the key is absent when the
    resource has no tag. *)
Definition Tags_entry (tags : gmap string string) : option (list Tag) :=
  match tag_list tags with
  | [] => None
  | l => Some l
  end.

Definition put_tags (new : list Tag) (tags : gmap string string)
  : gmap string string :=
  foldl (fun m t => <[Key t := Value t]> m) tags new.

(** ** The EC2 endpoint *)

Module EC2.
Definition tag_vpc (new : list Tag) (d : VpcDesc) : VpcDesc :=
  mkVpcDesc (vpc_CidrBlock d) (vpc_InstanceTenancy d) (put_tags new (vpc_Tags d)).

Definition tag_subnet (new : list Tag) (d : SubnetDesc) : SubnetDesc :=
  mkSubnetDesc (subnet_VpcId d) (subnet_CidrBlock d) (subnet_AvailabilityZone d)
    (put_tags new (subnet_Tags d)).

Definition tag_security_group (new : list Tag) (d : SecurityGroupDesc)
  : SecurityGroupDesc :=
  mkSecurityGroupDesc (sg_GroupName d) (sg_VpcId d) (sg_Description d)
    (sg_IpPermissions d) (put_tags new (sg_Tags d)).

Definition taggable (r : Remote) (id : string) : bool :=
  bool_decide (is_Some (vpcs r !! id)) || bool_decide (is_Some (subnets r !! id))
  || bool_decide (is_Some (security_groups r !! id)).

(** Tags one resource, wherever the identifier lives. *)
Definition tag_resource (new : list Tag) (id : string) (r : Remote) : Remote :=
  match vpcs r !! id, subnets r !! id with
  | Some _, _ => set_vpcs (alter (tag_vpc new) id) r
  | None, Some _ => set_subnets (alter (tag_subnet new) id) r
  | None, None => set_security_groups (alter (tag_security_group new) id) r
  end.

(** [describe_vpcs(VpcIds=[vpc_id])]: the ['Vpcs'] of the response. *)
Definition describe_vpcs (vpc_id : string) : M (list (string * VpcDesc)) :=
  gateway (Call.describe_vpcs vpc_id) (fun r =>
    match vpcs r !! vpc_id with
    | Some d => (Ok [(vpc_id, d)], r)
    | None => (Raise (ClientError "InvalidVpcID.NotFound"), r)
    end).

(** [describe_tags] filtered on resource type [vpc], key [Name] and the
    given value: the ['ResourceId'] of each item of ['Tags']. *)
Definition describe_tags (value : string) : M (list string) :=
  gateway (Call.describe_tags "vpc" "Name" value) (fun r =>
    (Ok (fst <$> filter (fun kv : string * VpcDesc =>
                           vpc_Tags kv.2 !! "Name" = Some value)
                        (map_to_list (vpcs r))), r)).

Definition create_tags (Resources : list string) (Tags : list Tag) : M unit :=
  gateway (Call.create_tags Resources Tags) (fun r =>
    if forallb (taggable r) Resources then
      (Ok tt, foldr (tag_resource Tags) r Resources)
    else (Raise (ClientError "InvalidID"), r)).

(** [describe_subnets] filtered on [vpc-id]: the ['Subnets']. *)
Definition describe_subnets (vpc_id : string) : M (list (string * SubnetDesc)) :=
  gateway (Call.describe_subnets vpc_id) (fun r =>
    (Ok (filter (fun kv : string * SubnetDesc => subnet_VpcId kv.2 = vpc_id)
           (map_to_list (subnets r))), r)).

(** [create_vpc]: the ['VpcId'] of the new ['Vpc']. *)
Definition create_vpc (CidrBlock : IPv4Network) (InstanceTenancy : string)
  : M string :=
  gateway (Call.create_vpc CidrBlock InstanceTenancy) (fun r =>
    let id := fresh_id "vpc-" r in
    (Ok id,
     bump_next_id (set_vpcs (insert id (mkVpcDesc CidrBlock InstanceTenancy ∅)) r))).

(** The waiters [vpc_exists] and [vpc_available]. *)
Definition wait_vpc_exists (vpc_id : string) : M unit :=
  gateway (Call.wait_vpc_exists vpc_id) (fun r =>
    match vpcs r !! vpc_id with
    | Some _ => (Ok tt, r)
    | None => (Raise WaiterError, r)
    end).

Definition wait_vpc_available (vpc_id : string) : M unit :=
  gateway (Call.wait_vpc_available vpc_id) (fun r =>
    match vpcs r !! vpc_id with
    | Some _ => (Ok tt, r)
    | None => (Raise WaiterError, r)
    end).

(** [describe_availability_zones]: the ['ZoneName'] of each zone. *)
Definition describe_availability_zones : M (list string) :=
  gateway Call.describe_availability_zones (fun r =>
    (Ok (availability_zones r), r)).

(** [create_subnet]: the ['SubnetId'] of the new ['Subnet']. *)
Definition create_subnet (AvailabilityZone : string) (CidrBlock : IPv4Network)
  (VpcId : string) : M string :=
  gateway (Call.create_subnet AvailabilityZone CidrBlock VpcId) (fun r =>
    match vpcs r !! VpcId with
    | Some _ =>
        let id := fresh_id "subnet-" r in
        (Ok id,
         bump_next_id
           (set_subnets (insert id (mkSubnetDesc VpcId CidrBlock AvailabilityZone ∅))
              r))
    | None => (Raise (ClientError "InvalidVpcID.NotFound"), r)
    end).

(** The waiter [subnet_available]. *)
Definition wait_subnet_available (SubnetIds : list string) : M unit :=
  gateway (Call.wait_subnet_available SubnetIds) (fun r =>
    if forallb (fun id => bool_decide (is_Some (subnets r !! id))) SubnetIds
    then (Ok tt, r)
    else (Raise WaiterError, r)).

(** [delete_subnet].  The instances of the model are attached to a
    network, not to a subnet of it: a delete of a subnet is never answered
    with a dependency violation, which the remote keeps for the delete of
    the network. *)
Definition delete_subnet (SubnetId : string) : M unit :=
  gateway (Call.delete_subnet SubnetId) (fun r =>
    match subnets r !! SubnetId with
    | Some _ => (Ok tt, set_subnets (delete SubnetId) r)
    | None => (Raise (ClientError "InvalidSubnetID.NotFound"), r)
    end).

(** A network with subnets, security groups or instances left in it is not
    deleted. *)
Definition vpc_in_use (r : Remote) (vpc_id : string) : bool :=
  existsb (fun kv : string * SubnetDesc => String.eqb (subnet_VpcId kv.2) vpc_id)
    (map_to_list (subnets r))
  || existsb (fun kv : string * SecurityGroupDesc =>
                String.eqb (sg_VpcId kv.2) vpc_id)
       (map_to_list (security_groups r))
  || existsb (fun kv : string * InstanceDesc => String.eqb (inst_VpcId kv.2) vpc_id)
       (map_to_list (instances r)).

Definition delete_vpc (VpcId : string) : M unit :=
  gateway (Call.delete_vpc VpcId) (fun r =>
    match vpcs r !! VpcId with
    | Some _ =>
        if vpc_in_use r VpcId then (Raise (ClientError "DependencyViolation"), r)
        else (Ok tt, set_vpcs (delete VpcId) r)
    | None => (Raise (ClientError "InvalidVpcID.NotFound"), r)
    end).

(** [describe_security_groups(GroupIds=[id])]: the ['SecurityGroups']. *)
Definition describe_security_groups_ids (GroupId : string)
  : M (list (string * SecurityGroupDesc)) :=
  gateway (Call.describe_security_groups_ids GroupId) (fun r =>
    match security_groups r !! GroupId with
    | Some d => (Ok [(GroupId, d)], r)
    | None =>
        if String.prefix "sg-" GroupId
        then (Raise (ClientError "InvalidGroup.NotFound"), r)
        else (Raise (ClientError "InvalidGroupId.Malformed"), r)
    end).

(** [describe_security_groups] filtered on [group-name] and [vpc-id]. *)
Definition describe_security_groups_name (name vpc_id : string)
  : M (list (string * SecurityGroupDesc)) :=
  gateway (Call.describe_security_groups_name name vpc_id) (fun r =>
    (Ok (filter (fun kv : string * SecurityGroupDesc =>
                   sg_GroupName kv.2 = name /\ sg_VpcId kv.2 = vpc_id)
           (map_to_list (security_groups r))), r)).

(** [describe_security_groups] filtered on [vpc-id]. *)
Definition describe_security_groups_vpc (vpc_id : string)
  : M (list (string * SecurityGroupDesc)) :=
  gateway (Call.describe_security_groups_vpc vpc_id) (fun r =>
    (Ok (filter (fun kv : string * SecurityGroupDesc => sg_VpcId kv.2 = vpc_id)
           (map_to_list (security_groups r))), r)).

(** [create_security_group]: the ['GroupId'] of the response. *)
Definition create_security_group (GroupName Description VpcId : string)
  : M string :=
  gateway (Call.create_security_group GroupName Description VpcId) (fun r =>
    match vpcs r !! VpcId with
    | Some _ =>
        if existsb (fun kv : string * SecurityGroupDesc =>
                      String.eqb (sg_GroupName kv.2) GroupName
                      && String.eqb (sg_VpcId kv.2) VpcId)
             (map_to_list (security_groups r))
        then (Raise (ClientError "InvalidGroup.Duplicate"), r)
        else
          let id := fresh_id "sg-" r in
          (Ok id,
           bump_next_id
             (set_security_groups
                (insert id (mkSecurityGroupDesc GroupName VpcId Description [] ∅)) r))
    | None => (Raise (ClientError "InvalidVpcID.NotFound"), r)
    end).

Definition authorize_security_group_ingress (GroupId : string)
  (IpPermissions : list IpPermission) : M unit :=
  gateway (Call.authorize_security_group_ingress GroupId IpPermissions) (fun r =>
    match security_groups r !! GroupId with
    | Some _ =>
        (Ok tt,
         set_security_groups
           (alter (fun d => mkSecurityGroupDesc (sg_GroupName d) (sg_VpcId d)
                              (sg_Description d)
                              (sg_IpPermissions d ++ IpPermissions) (sg_Tags d))
              GroupId) r)
    | None => (Raise (ClientError "InvalidGroup.NotFound"), r)
    end).

(** [describe_instances] filtered on [vpc-id]: the ['Reservations'], each
    a list of ['Instances']. *)
Definition describe_instances (vpc_id : string)
  : M (list (list (string * InstanceDesc))) :=
  gateway (Call.describe_instances vpc_id) (fun r =>
    (Ok ((fun kv => [kv]) <$>
         filter (fun kv : string * InstanceDesc => inst_VpcId kv.2 = vpc_id)
           (map_to_list (instances r))), r)).

Definition terminate_instances (InstanceIds : list string) : M unit :=
  gateway (Call.terminate_instances InstanceIds) (fun r =>
    if forallb (fun id => bool_decide (is_Some (instances r !! id))) InstanceIds
    then (Ok tt, set_instances (fun m => foldr delete m InstanceIds) r)
    else (Raise (ClientError "InvalidInstanceID.NotFound"), r)).

(** A group still used by an instance or a compute environment is not
    deleted. *)
Definition security_group_in_use (r : Remote) (GroupId : string) : bool :=
  existsb (fun kv : string * InstanceDesc =>
             bool_decide (GroupId ∈ inst_SecurityGroups kv.2))
    (map_to_list (instances r))
  || existsb (fun ce => bool_decide (GroupId ∈ securityGroupIds ce))
       (compute_environments r).

Definition delete_security_group (GroupId : string) : M unit :=
  gateway (Call.delete_security_group GroupId) (fun r =>
    match security_groups r !! GroupId with
    | Some _ =>
        if security_group_in_use r GroupId
        then (Raise (ClientError "DependencyViolation"), r)
        else (Ok tt, set_security_groups (delete GroupId) r)
    | None => (Raise (ClientError "InvalidGroup.NotFound"), r)
    end).
End EC2.

(** ** The Batch endpoint *)

Module BATCH.
(** [describe_compute_environments()], or with
    [computeEnvironments=[arn, ...]]: the ['computeEnvironments']. *)
Definition describe_compute_environments (computeEnvironments : option (list string))
  : M (list ComputeEnvironment) :=
  gateway (Call.describe_compute_environments computeEnvironments) (fun r =>
    match computeEnvironments with
    | None => (Ok (compute_environments r), r)
    | Some arns =>
        (Ok (filter (fun ce => computeEnvironmentArn ce ∈ arns)
               (compute_environments r)), r)
    end).
End BATCH.

(** [for x in l: body(x)]. *)
Fixpoint for_each {A} (l : list A) (body : A -> M unit) : M unit :=
  match l with
  | [] => ret tt
  | x :: rest => body x ;; for_each rest body
  end.

(** ** [cloudknot.aws.base_classes] *)

Module base_classes.
Definition is_deleting (res : list ComputeEnvironment) : bool :=
  match res with
  | ce :: _ => String.eqb (status ce) "DELETING"
  | [] => false
  end.

(** Modelled from the spec: [wait_for_compute_environment] is not among
    the sources.  It waits for a compute environment to finish deleting,
    polling its status at bounded exponential backoff; running out of the
    time budget is a timeout failure.  The spec leaves the two caps open;
    the model takes those of the Role's poll for the same condition. *)
Definition wait_for_compute_environment (arn name : string) : M unit :=
  let retry :=
    tenacity.mkRetrying 16 120 (tenacity.retry_if_result is_deleting) in
  tenacity.call retry (BATCH.describe_compute_environments (Some [arn])) ;;
  ret tt.
End base_classes.

(** ** [cloudknot.aws.ec2.Vpc] *)

Module Vpc.
Import ipaddress.
Local Open Scope Z_scope.

(** An instance.  [name] and [clobbered] are the attributes of the base
    class [NamedObject], which sets [clobbered] to [False]; the others are
    the read-only properties declared by the class. *)
Record t : Type := mk {
  name : string;
  clobbered : bool;
  pre_existing : bool;
  ipv4_cidr : IPv4Network;
  instance_tenancy : string;
  vpc_id : string;
  subnet_ids : list string
}.

(** The namedtuple [ResourceExists]: [exists=True] with every field set,
    or [exists=False] with the other fields [None]. *)
Inductive ResourceExists : Type :=
| Exists (name : string) (ipv4_cidr : IPv4Network) (instance_tenancy : string)
    (vpc_id : string) (subnet_ids : list string)
| NotExists.

Definition owner_and_name (name : string) : list Tag :=
  [mkTag "owner" "cloudknot"; mkTag "Name" name].

Definition _exists_already (vpc_id name : option string) : M ResourceExists :=
  vpcs <-
    (if truthy vpc_id then
       catch
         (response <- EC2.describe_vpcs (the vpc_id) ;;
          ret (Some response))
         (fun e =>
            match e with
            | ClientError error_code =>
                if String.eqb error_code "InvalidVpcID.NotFound"
                then ret None
                else raise e
            | _ => raise e
            end)
     else
       response <- EC2.describe_tags (the name) ;;
       match response with
       | ResourceId :: _ =>
           response <- EC2.describe_vpcs ResourceId ;;
           ret (Some response)
       | [] => ret None
       end) ;;
  match vpcs with
  | Some (vpc :: _) =>
      let tags := default [] (Tags_entry (vpc_Tags vpc.2)) in
      let ipv4_cidr := vpc_CidrBlock vpc.2 in
      let vpc_id := vpc.1 in
      let instance_tenancy := vpc_InstanceTenancy vpc.2 in
      name <-
        match filter (fun d => Key d = "Name") tags with
        | name_tag :: _ => ret (Value name_tag)
        | [] =>
            let name := "cloudknot-acquired-pre-existing-vpc" in
            EC2.create_tags [vpc_id] (owner_and_name name) ;;
            ret name
        end ;;
      response <- EC2.describe_subnets vpc_id ;;
      let subnet_ids := fst <$> response in
      ret (Exists name ipv4_cidr instance_tenancy vpc_id subnet_ids)
  | _ => ret NotExists
  end.

Definition _create (name : string) (ipv4_cidr : IPv4Network)
  (instance_tenancy : string) : M string :=
  vpc_id <- EC2.create_vpc ipv4_cidr instance_tenancy ;;
  EC2.wait_vpc_exists vpc_id ;;
  EC2.wait_vpc_available vpc_id ;;
  EC2.create_tags [vpc_id] (owner_and_name name) ;;
  config.add_resource "vpc" vpc_id name ;;
  ret vpc_id.

(** [ceil(log2(n))] for [n = len(zones)]; [log2(0)] is a math domain
    error.  On the integers a 32-bit address space allows, the floating
    point computation yields the exact integer ceiling. *)
Definition ceil_log2 (n : nat) : result Z :=
  match n with
  | O => Raise (ValueError "math domain error")
  | _ => Ok (Z.log2_up (Z.of_nat n))
  end.

(** The list [subnet_ipv4_cidrs] of [_add_subnets]: the check on the
    number of addresses, [prefixlen_diff] and the truncated list of
    subnets. *)
Definition subnet_ipv4_cidrs (cidr : IPv4Network) (nzones : nat)
  : result (list IPv4Network) :=
  if num_addresses cidr <? Z.of_nat nzones
  then Raise (ValueError
    "IPv4 CIDR block does not have enough addresses for each availability zone")
  else
    match ceil_log2 nzones with
    | Raise e => Raise e
    | Ok prefixlen_diff =>
        match subnets cidr prefixlen_diff with
        | Raise e => Raise e
        | Ok l => Ok (take nzones l)
        end
    end.

(** The loop over [zip(zones, subnet_ipv4_cidrs)]. *)
Fixpoint create_subnets (pairs : list (string * IPv4Network)) (vpc_id : string)
  (subnet_ids : list string) : M (list string) :=
  match pairs with
  | [] => ret subnet_ids
  | (zone, subnet_cidr) :: rest =>
      subnet_id <- EC2.create_subnet zone subnet_cidr vpc_id ;;
      create_subnets rest vpc_id (subnet_ids ++ [subnet_id])
  end.

(** The [retry] object of [_add_subnets]. *)
Definition subnet_retry : tenacity.Retrying unit :=
  tenacity.mkRetrying 60 300
    (tenacity.retry_if_exception_type botocore.is_WaiterError).

Definition _add_subnets (name : string) (ipv4_cidr : IPv4Network)
  (vpc_id : string) : M (list string) :=
  zones <- EC2.describe_availability_zones ;;
  let cidr := ipv4_cidr in
  subnet_ipv4_cidrs <- lift (subnet_ipv4_cidrs cidr (length zones)) ;;
  subnet_ids <- create_subnets (zip zones subnet_ipv4_cidrs) vpc_id [] ;;
  tenacity.call subnet_retry (EC2.wait_subnet_available subnet_ids) ;;
  EC2.create_tags subnet_ids [mkTag "owner" "cloudknot"; mkTag "vpc-name" name] ;;
  ret subnet_ids.




Definition default_cidr : IPv4Network := mkNet 167772160 16.

Definition __init__ (vpc_id name ipv4_cidr instance_tenancy : option string)
  : M t :=
  if negb (truthy vpc_id || truthy name)
  then raise (ValueError "name or vpc_id is required.")
  else if truthy vpc_id
          && (truthy name || truthy ipv4_cidr || truthy instance_tenancy)
  then raise (ValueError
    "You must specify either a VPC id for an existing VPC or input parameters for a new VPC. You cannot do both.")
  else
    resource <- _exists_already vpc_id name ;;
    match resource with
    | Exists r_name r_ipv4_cidr r_instance_tenancy r_vpc_id r_subnet_ids =>
        if truthy ipv4_cidr || truthy instance_tenancy
        then raise (ResourceExistsException r_vpc_id)
        else
          config.add_resource "vpc" r_vpc_id r_name ;;
          ret (mk r_name false true r_ipv4_cidr r_instance_tenancy r_vpc_id
                 r_subnet_ids)
    | NotExists =>
        if truthy vpc_id
        then raise (ResourceDoesNotExistException (the vpc_id))
        else
          _ipv4_cidr <-
            (if truthy ipv4_cidr then
               catch (lift (IPv4Network_of_text (the ipv4_cidr)))
                 (fun e =>
                    match e with
                    | ValueError _ =>
                        raise (ValueError
                          "If provided, ipv4_cidr must be a valid IPv4 network range.")
                    | _ => raise e
                    end)
             else ret default_cidr) ;;
          _instance_tenancy <-
            (if truthy instance_tenancy then
               if String.eqb (the instance_tenancy) "default"
                  || String.eqb (the instance_tenancy) "dedicated"
               then ret (the instance_tenancy)
               else raise (ValueError
                 "If provided, instance tenancy must be one of (default, dedicated).")
             else ret "default") ;;
          _vpc_id <- _create (the name) _ipv4_cidr _instance_tenancy ;;
          _subnet_ids <- _add_subnets (the name) _ipv4_cidr _vpc_id ;;
          ret (mk (the name) false false _ipv4_cidr _instance_tenancy _vpc_id
                 _subnet_ids)
    end.

Definition clobber (self : t) : M unit :=
  catch
    (for_each (subnet_ids self) (fun subnet_id => EC2.delete_subnet subnet_id) ;;
     EC2.delete_vpc (vpc_id self) ;;
     config.remove_resource "vpc" (vpc_id self))
    (fun e =>
       match e with
       | ClientError error_code =>
           if String.eqb error_code "DependencyViolation" then
             response <- EC2.describe_security_groups_vpc (vpc_id self) ;;
             let ids := fst <$> response in
             raise (CannotDeleteResourceException ids)
           else raise e
       | _ => raise e
       end).
End Vpc.

(** ** [cloudknot.aws.ec2.SecurityGroup] *)

Module SecurityGroup.
(** The [vpc] argument: [None] (or any falsy value, which the constructor
    treats alike), a [Vpc] instance, or a truthy value that is not an
    instance of [Vpc]. *)
Inductive vpc_arg : Type :=
| VpcNone
| VpcInstance (vpc : Vpc.t)
| NotAVpc.

Definition vpc_truthy (vpc : vpc_arg) : bool :=
  match vpc with
  | VpcNone => false
  | _ => true
  end.

Definition isinstance_Vpc (vpc : vpc_arg) : bool :=
  match vpc with
  | VpcInstance _ => true
  | _ => false
  end.

(** An instance; [vpc] is [None] or the [Vpc] object given at creation. *)
Record t : Type := mk {
  name : string;
  clobbered : bool;
  pre_existing : bool;
  vpc : option Vpc.t;
  vpc_id : string;
  description : string;
  security_group_id : string
}.

(** The namedtuple [ResourceExists]. *)
Inductive ResourceExists : Type :=
| Exists (name vpc_id description security_group_id : string)
| NotExists.

Definition _exists_already (security_group_id name vpc_id : option string)
  : M ResourceExists :=
  response <-
    (if truthy security_group_id then
       catch
         (response <- EC2.describe_security_groups_ids (the security_group_id) ;;
          ret (inr response))
         (fun e =>
            match e with
            | ClientError code =>
                if String.eqb code "InvalidGroup.NotFound"
                   || String.eqb code "InvalidGroupId.Malformed"
                then ret (inl NotExists)
                else raise e
            | _ => raise e
            end)
     else
       response <- EC2.describe_security_groups_name (the name) (the vpc_id) ;;
       ret (inr response)) ;;
  match response with
  | inl returned => ret returned
  | inr sg =>
      match sg with
      | sg0 :: _ =>
          let name := sg_GroupName sg0.2 in
          let vpc_id := sg_VpcId sg0.2 in
          let description := sg_Description sg0.2 in
          let group_id := sg0.1 in
          ret (Exists name vpc_id description group_id)
      | [] => ret NotExists
      end
  end.

Definition ip_permissions : list IpPermission :=
  let ipv4_ranges := ["0.0.0.0/0"] in
  let ipv6_ranges := ["::/0"] in
  [mkIpPermission "TCP" 80 80 ipv4_ranges ipv6_ranges;
   mkIpPermission "TCP" 22 22 ipv4_ranges ipv6_ranges].

(** The [retry] object of [_create], given the exception class. *)
Definition create_retry (cls : exn -> bool) : tenacity.Retrying unit :=
  tenacity.mkRetrying 60 300 (tenacity.retry_if_exception_type cls).

(** [_create]; the class handed to [retry_if_exception_type] is looked up
    as [EC2.exceptions.ClientErro], as the source spells it. *)
Definition _create (name description : string) (vpc : Vpc.t) : M string :=
  group_id <- EC2.create_security_group name description (Vpc.vpc_id vpc) ;;
  cls <- lift (botocore.exceptions "ClientErro") ;;
  let retry := create_retry cls in
  tenacity.call retry
    (EC2.authorize_security_group_ingress group_id ip_permissions) ;;
  tenacity.call retry
    (EC2.create_tags [group_id] [mkTag "owner" "cloudknot"]) ;;
  config.add_resource "security-groups" group_id name ;;
  ret group_id.

Definition __init__ (security_group_id name : option string) (vpc : vpc_arg)
  (description : option string) : M t :=
  if negb (truthy security_group_id || (truthy name && vpc_truthy vpc))
  then raise (ValueError
    "You must specify either a security group id for an existing security group or a name and VPC for a new security group.")
  else if truthy security_group_id
          && (truthy name || vpc_truthy vpc || truthy description)
  then raise (ValueError
    "You must specify either a security group id for an existing security group or input parameters for a new security group. You cannot do both.")
  else if vpc_truthy vpc && negb (isinstance_Vpc vpc)
  then raise (ValueError "If provided, vpc must be an instance of Vpc.")
  else
    let vpc_id :=
      match vpc with
      | VpcInstance v => Some (Vpc.vpc_id v)
      | _ => None
      end in
    resource <- _exists_already security_group_id name vpc_id ;;
    match resource with
    | Exists r_name r_vpc_id r_description r_security_group_id =>
        if truthy name || vpc_truthy vpc
        then raise (ResourceExistsException r_security_group_id)
        else
          config.add_resource "security-groups" r_security_group_id r_name ;;
          ret (mk r_name false true None r_vpc_id r_description
                 r_security_group_id)
    | NotExists =>
        if truthy security_group_id
        then raise (ResourceDoesNotExistException (the security_group_id))
        else
          match vpc with
          | VpcInstance v =>
              let _description :=
                if truthy description then the description
                else "This security group was automatically generated by cloudknot." in
              _security_group_id <- _create (the name) _description v ;;
              ret (mk (the name) false false (Some v) (Vpc.vpc_id v) _description
                     _security_group_id)
          | _ => raise (AttributeError "vpc_id")
          end
    end.

Definition has_security_group (instance : string * InstanceDesc) (sg_id : string)
  : bool :=
  bool_decide (sg_id ∈ inst_SecurityGroups instance.2).

Definition clobber (self : t) : M unit :=
  response <- EC2.describe_instances (vpc_id self) ;;
  let deps :=
    foldl (fun deps r =>
             (deps ++ (fst <$> filter (fun i => has_security_group i
                                                 (security_group_id self) = true) r))%list)
      [] response in
  (match deps with
   | [] => ret tt
   | _ => EC2.terminate_instances deps
   end) ;;
  response <- BATCH.describe_compute_environments None ;;
  let ce_names :=
    computeEnvironmentName <$>
      filter (fun ce => security_group_id self ∈ securityGroupIds ce) response in
  let ce_arns :=
    computeEnvironmentArn <$>
      filter (fun ce => security_group_id self ∈ securityGroupIds ce) response in
  for_each (zip ce_names ce_arns)
    (fun na => base_classes.wait_for_compute_environment na.2 na.1) ;;
  catch (EC2.delete_security_group (security_group_id self))
    (fun e =>
       match e with
       | ClientError error_code =>
           if String.eqb error_code "DependencyViolation" then
             sleep 30 ;;
             EC2.delete_security_group (security_group_id self)
           else raise e
       | _ => raise e
       end) ;;
  config.remove_resource "security-groups" (security_group_id self).
End SecurityGroup.

(** ** The IAM endpoint, [clients['iam']] *)

Module IAM.
Definition NoSuchEntity {A} (r : Remote) : result A * Remote :=
  (Raise (ClientError "NoSuchEntity"), r).

(** [get_role]: the ['Role'] of the response. *)
Definition get_role (RoleName : string) : M RoleDesc :=
  gateway (Call.get_role RoleName) (fun r =>
    match roles r !! RoleName with
    | Some d => (Ok d, r)
    | None => NoSuchEntity r
    end).

(** [list_attached_role_policies]: the ['AttachedPolicies']. *)
Definition list_attached_role_policies (RoleName : string) : M (list PolicyDesc) :=
  gateway (Call.list_attached_role_policies RoleName) (fun r =>
    match roles r !! RoleName with
    | Some d => (Ok (role_AttachedPolicies d), r)
    | None => NoSuchEntity r
    end).

(** A page of [list_policies]; ['Marker'] is present when the listing is
    truncated. *)
Record ListPolicies : Type := mkListPolicies {
  Policies : list PolicyDesc;
  IsTruncated : bool;
  Marker : option nat
}.

Definition list_policies (Marker : option nat) : M ListPolicies :=
  gateway (Call.list_policies Marker) (fun r =>
    let i := default 0 Marker in
    let more := Nat.ltb (S i) (length (policy_pages r)) in
    (Ok (mkListPolicies (default [] (policy_pages r !! i)) more
           (if more then Some (S i) else None)), r)).

Definition role_arn_of (RoleName : string) : string :=
  "arn:aws:iam::role/" +:+ RoleName.

(** [create_role]: the ['Arn'] of the new ['Role']. *)
Definition create_role (RoleName : string) (AssumeRolePolicyDocument : PolicyDocument)
  (Description : string) : M string :=
  gateway (Call.create_role RoleName AssumeRolePolicyDocument Description) (fun r =>
    match roles r !! RoleName with
    | Some _ => (Raise (ClientError "EntityAlreadyExists"), r)
    | None =>
        let arn := role_arn_of RoleName in
        (Ok arn,
         set_roles (insert RoleName
           (mkRoleDesc arn AssumeRolePolicyDocument (Some Description) [])) r)
    end).

Definition find_policy (r : Remote) (arn : string) : option PolicyDesc :=
  head (filter (fun p => PolicyArn p = arn) (concat (policy_pages r))).

Definition attach_role_policy (PolicyArn RoleName : string) : M unit :=
  gateway (Call.attach_role_policy PolicyArn RoleName) (fun r =>
    match roles r !! RoleName, find_policy r PolicyArn with
    | Some d, Some p =>
        (Ok tt,
         set_roles (insert RoleName
           (mkRoleDesc (role_Arn d) (role_AssumeRolePolicyDocument d)
              (role_Description d) (role_AttachedPolicies d ++ [p]))) r)
    | _, _ => NoSuchEntity r
    end).

Definition create_instance_profile (InstanceProfileName : string) : M unit :=
  gateway (Call.create_instance_profile InstanceProfileName) (fun r =>
    match instance_profiles r !! InstanceProfileName with
    | Some _ => (Raise (ClientError "EntityAlreadyExists"), r)
    | None =>
        (Ok tt,
         set_instance_profiles (insert InstanceProfileName
           (mkInstanceProfileDesc
              ("arn:aws:iam::instance-profile/" +:+ InstanceProfileName) [])) r)
    end).

(** The waiter [instance_profile_exists]. *)
Definition wait_instance_profile_exists (InstanceProfileName : string) : M unit :=
  gateway (Call.wait_instance_profile_exists InstanceProfileName) (fun r =>
    match instance_profiles r !! InstanceProfileName with
    | Some _ => (Ok tt, r)
    | None => (Raise WaiterError, r)
    end).

Definition add_role_to_instance_profile (InstanceProfileName RoleName : string)
  : M unit :=
  gateway (Call.add_role_to_instance_profile InstanceProfileName RoleName) (fun r =>
    match instance_profiles r !! InstanceProfileName, roles r !! RoleName with
    | Some p, Some _ =>
        match ip_Roles p with
        | [] =>
            (Ok tt,
             set_instance_profiles (insert InstanceProfileName
               (mkInstanceProfileDesc (ip_Arn p) [RoleName])) r)
        | _ => (Raise (ClientError "LimitExceeded"), r)
        end
    | _, _ => NoSuchEntity r
    end).

(** [list_instance_profiles_for_role]: the ['InstanceProfiles'], each with
    its ['InstanceProfileName']. *)
Definition list_instance_profiles_for_role (RoleName : string)
  : M (list (string * InstanceProfileDesc)) :=
  gateway (Call.list_instance_profiles_for_role RoleName) (fun r =>
    match roles r !! RoleName with
    | Some _ =>
        (Ok (filter (fun kv : string * InstanceProfileDesc => RoleName ∈ ip_Roles kv.2)
               (map_to_list (instance_profiles r))), r)
    | None => NoSuchEntity r
    end).

Definition remove_role_from_instance_profile (InstanceProfileName RoleName : string)
  : M unit :=
  gateway (Call.remove_role_from_instance_profile InstanceProfileName RoleName)
    (fun r =>
       match instance_profiles r !! InstanceProfileName with
       | Some p =>
           if bool_decide (RoleName ∈ ip_Roles p) then
             (Ok tt,
              set_instance_profiles (insert InstanceProfileName
                (mkInstanceProfileDesc (ip_Arn p)
                   (filter (fun n => n ≠ RoleName) (ip_Roles p)))) r)
           else NoSuchEntity r
       | None => NoSuchEntity r
       end).

Definition delete_instance_profile (InstanceProfileName : string) : M unit :=
  gateway (Call.delete_instance_profile InstanceProfileName) (fun r =>
    match instance_profiles r !! InstanceProfileName with
    | Some p =>
        match ip_Roles p with
        | [] => (Ok tt, set_instance_profiles (delete InstanceProfileName) r)
        | _ => (Raise (ClientError "DeleteConflict"), r)
        end
    | None => NoSuchEntity r
    end).

Definition detach_role_policy (RoleName PolicyArn_ : string) : M unit :=
  gateway (Call.detach_role_policy RoleName PolicyArn_) (fun r =>
    match roles r !! RoleName with
    | Some d =>
        if existsb (fun p => String.eqb (PolicyArn p) PolicyArn_)
             (role_AttachedPolicies d)
        then
          (Ok tt,
           set_roles (insert RoleName
             (mkRoleDesc (role_Arn d) (role_AssumeRolePolicyDocument d)
                (role_Description d)
                (filter (fun p => PolicyArn p ≠ PolicyArn_)
                   (role_AttachedPolicies d)))) r)
        else NoSuchEntity r
    | None => NoSuchEntity r
    end).

(** A role with policies attached or inside an instance profile is not
    deleted. *)
Definition delete_role (RoleName : string) : M unit :=
  gateway (Call.delete_role RoleName) (fun r =>
    match roles r !! RoleName with
    | Some d =>
        match role_AttachedPolicies d with
        | [] =>
            if existsb (fun kv : string * InstanceProfileDesc =>
                          bool_decide (RoleName ∈ ip_Roles kv.2))
                 (map_to_list (instance_profiles r))
            then (Raise (ClientError "DeleteConflict"), r)
            else (Ok tt, set_roles (delete RoleName) r)
        | _ => (Raise (ClientError "DeleteConflict"), r)
        end
    | None => NoSuchEntity r
    end).
End IAM.

(** ** [cloudknot.aws.iam.IamRole] *)

Module IamRole.
(** An element of a [policies] sequence: a string, or anything else. *)
Inductive py_item : Type :=
| PyStr (s : string)
| PyOther.

(** The [policies] argument: a string, a sequence, or a value that cannot
    be iterated (with its truthiness). *)
Inductive policies_arg : Type :=
| PoliciesStr (s : string)
| PoliciesSeq (items : list py_item)
| PoliciesNotIterable (is_truthy : bool).

Definition policies_truthy (policies : policies_arg) : bool :=
  match policies with
  | PoliciesStr s => negb (String.eqb s EmptyString)
  | PoliciesSeq [] => false
  | PoliciesSeq _ => true
  | PoliciesNotIterable b => b
  end.

(** The [add_instance_profile] argument: a [bool], or any other value
    (with its truthiness). *)
Inductive flag_arg : Type :=
| FlagBool (b : bool)
| FlagOther (is_truthy : bool).

Definition flag_truthy (flag : flag_arg) : bool :=
  match flag with
  | FlagBool b => b
  | FlagOther b => b
  end.

(** An instance.  [name], [clobbered] and [arn] are attributes of the base
    classes ([NamedObject], [ObjectWithArn]); [section_name] is the
    [_section_name] the constructor stores. *)
Record t : Type := mk {
  name : string;
  clobbered : bool;
  pre_existing : bool;
  description : string;
  service : string;
  policies : list string;
  role_policy_document : PolicyDocument;
  arn : string;
  section_name : string
}.

(** The namedtuple [RoleExists]. *)
Inductive RoleExists : Type :=
| Exists (description : string) (role_policy_document : PolicyDocument)
    (policies : list string) (arn : string)
| NotExists.

Definition _allowed_services : list string :=
  ["batch"; "ec2"; "ecs-tasks"; "lambda"; "spotfleet"].

(** Modelled from the spec: [check_profile] belongs to the base class,
    which is not among the sources, and the spec gives it no effect on the
    lifecycle. *)
Definition check_profile : M unit := ret tt.

Definition NoSuchEntityException : exn -> bool :=
  botocore.has_code "NoSuchEntity".

Definition EntityAlreadyExistsException : exn -> bool :=
  botocore.has_code "EntityAlreadyExists".

(** The [retry] object of [_exists_already]. *)
Definition lookup_retry : tenacity.Retrying RoleDesc :=
  tenacity.mkRetrying 4 5
    (tenacity.retry_if_exception_type NoSuchEntityException).

(** The [retry] object of [_create]. *)
Definition attach_retry : tenacity.Retrying unit :=
  tenacity.mkRetrying 4 5
    (tenacity.retry_if_exception_type NoSuchEntityException).

(** The [retry] object of [clobber]. *)
Definition deleting_retry : tenacity.Retrying (list ComputeEnvironment) :=
  tenacity.mkRetrying 16 120
    (tenacity.retry_if_result base_classes.is_deleting).

Definition _exists_already (name : string) : M RoleExists :=
  catch
    (let retry := lookup_retry in
     response <- tenacity.call retry (IAM.get_role name) ;;
     let arn := role_Arn response in
     let role_policy := role_AssumeRolePolicyDocument response in
     let description := default EmptyString (role_Description response) in
     attached_policies <- IAM.list_attached_role_policies name ;;
     let policies := PolicyName <$> attached_policies in
     ret (Exists description role_policy policies arn))
    (fun e =>
       match e with
       | RetryError last_attempt =>
           catch (tenacity.reraise last_attempt)
             (fun e' =>
                if NoSuchEntityException e' then ret NotExists else raise e')
       | _ => raise e
       end).


(** ['Marker'] of a response; the key is absent on the last page. *)
Definition Marker_of (response : IAM.ListPolicies) : M nat :=
  match IAM.Marker response with
  | Some m => ret m
  | None => raise (KeyError "Marker")
  end.

(** The loop [while response['IsTruncated']] of the constructor; the fuel
    is the number of pages the listing can still deliver. *)
Fixpoint more_policies (fuel : nat) (response : IAM.ListPolicies)
  (aws_policies : list string) : M (list string) :=
  if IAM.IsTruncated response then
    match fuel with
    | O => raise OutOfFuel
    | S fuel' =>
        marker <- Marker_of response ;;
        response <- IAM.list_policies (Some marker) ;;
        more_policies fuel' response
          (aws_policies ++ (PolicyName <$> IAM.Policies response))
    end
  else ret aws_policies.

Definition all_aws_policies : M (list string) :=
  response <- IAM.list_policies None ;;
  let aws_policies := PolicyName <$> IAM.Policies response in
  fun w => more_policies (length (policy_pages (remote w))) response aws_policies w.

(** The loop [while not len(policy_filter)] that looks a policy up page
    by page. *)
Fixpoint policy_filter_from (fuel : nat) (policy : string)
  (policy_response : IAM.ListPolicies) : M PolicyDesc :=
  match filter (fun p => PolicyName p = policy) (IAM.Policies policy_response) with
  | p :: _ => ret p
  | [] =>
      match fuel with
      | O => raise OutOfFuel
      | S fuel' =>
          marker <- Marker_of policy_response ;;
          policy_response <- IAM.list_policies (Some marker) ;;
          policy_filter_from fuel' policy policy_response
      end
  end.

(** The [policy_arn] of a policy name, as [_create] and [clobber] find it. *)
Definition policy_arn_of (policy : string) : M string :=
  policy_response <- IAM.list_policies None ;;
  p <- (fun w => policy_filter_from (length (policy_pages (remote w))) policy
                   policy_response w) ;;
  ret (PolicyArn p).

(** Python's [set < set]: a subset that is not equal. *)
Definition proper_subset (a b : gset string) : bool :=
  bool_decide (a ⊆ b) && negb (bool_decide (a = b)).


Section WithSectionName.
(** [self._get_section_name], a method of the base class, which is not
    among the sources: taken as a parameter. *)
Variable _get_section_name : string -> string.

(** [tuple(set(l))] for a sequence [l] of strings: the order in which the
    interpreter iterates the set built from [l].  It follows the hashes of
    the strings, which change with the hash seed from one interpreter run
    to the next: taken as a parameter. *)
Variable tuple_of_set : list string -> list string.

Definition _create (name description : string) (role_policy_document : PolicyDocument)
  (policies : list string) (add_instance_profile : bool) : M string :=
  role_arn <- IAM.create_role name role_policy_document description ;;
  for_each policies (fun policy =>
    policy_arn <- policy_arn_of policy ;;
    let retry := attach_retry in
    tenacity.call retry (IAM.attach_role_policy policy_arn name)) ;;
  (if add_instance_profile then
     catch
       (IAM.create_instance_profile name ;;
        IAM.wait_instance_profile_exists name ;;
        IAM.add_role_to_instance_profile name name)
       (fun e =>
          if EntityAlreadyExistsException e
          then IAM.add_role_to_instance_profile name name
          else raise e)
   else ret tt) ;;
  let _section_name := _get_section_name "roles" in
  config.add_resource _section_name name role_arn ;;
  ret role_arn.


(** [__init__]; the set [input_policies] is held as the sequence it is
    built from: its elements are those of the sequence, and
    [tuple(input_policies)] is [tuple_of_set] of it. *)
Definition __init__ (name : string) (description service : option string)
  (policies : policies_arg) (add_instance_profile : flag_arg) : M t :=
  role <- _exists_already name ;;
  match role with
  | Exists r_description r_role_policy_document r_policies r_arn =>
      if truthy description || policies_truthy policies
         || flag_truthy add_instance_profile || truthy service
      then raise (ResourceExistsException name)
      else
        rpd_statement <-
          match Statement_ r_role_policy_document with
          | s :: _ => ret s
          | [] => raise IndexError
          end ;;
        _service <-
          match Principal_Service rpd_statement with
          | Some s => ret s
          | None => raise (KeyError "Service")
          end ;;
        let _section_name := _get_section_name "roles" in
        config.add_resource _section_name name r_arn ;;
        ret (mk name false true r_description _service r_policies
               r_role_policy_document r_arn _section_name)
  | NotExists =>
      if negb (truthy description || truthy service || policies_truthy policies)
      then raise (ResourceDoesNotExistException name)
      else
        let _description :=
          if truthy description then the description
          else "This role was generated by cloudknot" in
        let service := if truthy service then the service else "ecs-tasks" in
        _service <-
          (if bool_decide (service ∈ _allowed_services)
           then ret (service +:+ ".amazonaws.com")
           else raise (ValueError "service must be in the allowed services")) ;;
        let role_policy :=
          mkPolicyDocument [mkStatement "Allow" (Some _service) "sts:AssumeRole"] in
        input_policies <-
          match policies with
          | PoliciesStr s => ret [s]
          | PoliciesSeq items =>
              if forallb (fun x => match x with PyStr _ => true | PyOther => false end)
                   items
              then ret (omap (fun x => match x with
                                       | PyStr s => Some s
                                       | PyOther => None
                                       end) items)
              else raise (ValueError
                     "policies must be a string or a sequence of strings.")
          | PoliciesNotIterable _ =>
              raise (ValueError "policies must be a string or a sequence of strings")
          end ;;
        aws_policies <- all_aws_policies ;;
        if negb (proper_subset (list_to_set input_policies) (list_to_set aws_policies))
        then raise (ValueError "Could not find the policies on AWS.")
        else
          let _policies := tuple_of_set input_policies in
          match add_instance_profile with
          | FlagOther _ => raise (ValueError "add_instance_profile is a boolean input")
          | FlagBool add_instance_profile =>
              _arn <- _create name _description role_policy _policies
                        add_instance_profile ;;
              ret (mk name false false _description _service _policies role_policy
                     _arn (_get_section_name "roles"))
          end
  end.
End WithSectionName.

(** The property [instance_profile_arn]. *)
Definition instance_profile_arn (self : t) : M (option string) :=
  if clobbered self then raise (ResourceClobberedException (arn self))
  else
    check_profile ;;
    response <- IAM.list_instance_profiles_for_role (name self) ;;
    match response with
    | p :: _ => ret (Some (ip_Arn p.2))
    | [] => ret None
    end.

Definition set_clobbered (self : t) : t :=
  mk (name self) true (pre_existing self) (description self) (service self)
    (policies self) (role_policy_document self) (arn self) (section_name self).

(** [clobber]; the result is [self] as the call leaves it.  The
    [resource_id] of the not-deletable error is given by the ARNs of the
    compute environments it lists. *)
Definition clobber (self : t) : M t :=
  if clobbered self then ret self
  else
    check_profile ;;
    (if String.eqb (service self) "batch.amazonaws.com" then
       response <- BATCH.describe_compute_environments None ;;
       let dependent_ces :=
         filter (fun c => serviceRole c = arn self) response in
       let conflicting_ces :=
         filter (fun c => status c ∉ ["DELETING"; "DELETED"]) dependent_ces in
       match conflicting_ces with
       | _ :: _ =>
           raise (CannotDeleteResourceException
                    (computeEnvironmentArn <$> conflicting_ces))
       | [] =>
           let retry := deleting_retry in
           for_each dependent_ces (fun ce =>
             catch
               (tenacity.call retry
                  (BATCH.describe_compute_environments
                     (Some [computeEnvironmentArn ce])) ;;
                ret tt)
               (fun e =>
                  match e with
                  | RetryError _ =>
                      raise (CannotDeleteResourceException
                               [computeEnvironmentArn ce])
                  | _ => raise e
                  end))
       end
     else ret tt) ;;
    profile_arn <- instance_profile_arn self ;;
    (if truthy profile_arn then
       response <- IAM.list_instance_profiles_for_role (name self) ;;
       match response with
       | p :: _ =>
           let instance_profile_name := p.1 in
           IAM.remove_role_from_instance_profile instance_profile_name (name self) ;;
           IAM.delete_instance_profile instance_profile_name
       | [] => raise IndexError
       end
     else ret tt) ;;
    for_each (policies self) (fun policy =>
      policy_arn <- policy_arn_of policy ;;
      IAM.detach_role_policy (name self) policy_arn) ;;
    IAM.delete_role (name self) ;;
    config.remove_resource (section_name self) (name self) ;;
    ret (set_clobbered self).


End IamRole.

(** ** A sample world

    One network [vpc-a] named [net-a] with a subnet and a security group, a
    role [role-a] with one policy attached, and a policy catalog of two
    pages, in a region with three availability zones. *)

Module Sample.
(** An interpreter run that iterates a set in the order of the sequence it
    was built from, at the last occurrence of each string. *)
Definition tuple_of_set (l : list string) : list string := remove_dups l.

Definition remote0 : Remote :=
  mkRemote
    {[ "vpc-a" := mkVpcDesc (mkNet 167772160 16) "default" {[ "Name" := "net-a" ]} ]}
    {[ "subnet-a" := mkSubnetDesc "vpc-a" (mkNet 167772160 17) "zone-1" ∅ ]}
    {[ "sg-a" := mkSecurityGroupDesc "group-a" "vpc-a" "a group" [] ∅ ]}
    ∅ [] ["zone-1"; "zone-2"; "zone-3"]
    {[ "role-a" :=
         mkRoleDesc "arn:aws:iam::role/role-a"
           (mkPolicyDocument
              [mkStatement "Allow" (Some "ec2.amazonaws.com") "sts:AssumeRole"])
           None [mkPolicyDesc "P" "arn:P"] ]}
    [[mkPolicyDesc "P" "arn:P"]; [mkPolicyDesc "Q" "arn:Q"]] ∅ 0.

Definition world0 : World := mkWorld remote0 ∅ [] 0.

(** The same remote without the security group. *)
Definition remote1 : Remote :=
  set_security_groups (fun _ => ∅) remote0.

Definition world1 : World := mkWorld remote1 ∅ [] 0.

(** The network [vpc-a], adopted by its identifier. *)
Definition vpc_a : Vpc.t :=
  Vpc.mk "net-a" false true (mkNet 167772160 16) "default" "vpc-a" ["subnet-a"].

(** The role [role-a], adopted by its name. *)
Definition role_a : IamRole.t :=
  IamRole.mk "role-a" false true EmptyString "ec2.amazonaws.com" ["P"]
    (mkPolicyDocument
       [mkStatement "Allow" (Some "ec2.amazonaws.com") "sts:AssumeRole"])
    "arn:aws:iam::role/role-a" "roles".

(** A batch service role with a compute environment that is being
    deleted. *)
Definition role_batch : IamRole.t :=
  IamRole.mk "role-batch" false true EmptyString "batch.amazonaws.com" []
    (mkPolicyDocument
       [mkStatement "Allow" (Some "batch.amazonaws.com") "sts:AssumeRole"])
    "arn:aws:iam::role/role-batch" "roles".


(** The security group [sg-a], adopted by its identifier. *)
Definition sg_a : SecurityGroup.t :=
  SecurityGroup.mk "group-a" false true None "vpc-a" "a group" "sg-a".

Definition after_sg_a : World :=
  snd (SecurityGroup.__init__ (Some "sg-a") None SecurityGroup.VpcNone None world0).
End Sample.

(** ** Predicates on computations *)

(** Every run of [m] relates the world it starts in to the world it ends
    in by [I], whether it returns or raises. *)
Definition preserves (I : World -> World -> Prop) {A} (m : M A) : Prop :=
  forall w, I w (snd (m w)).

(** Every exception [m] raises satisfies [P]. *)
Definition raises_in (P : exn -> Prop) {A} (m : M A) : Prop :=
  forall w e w', m w = (Raise e, w') -> P e.

(** The outcome of [m] and the remote it leaves depend on the remote alone,
    not on the registry, the call log or the time slept. *)
Definition remote_only {A} (m : M A) : Prop :=
  forall w1 w2,
    remote w1 = remote w2 ->
    fst (m w1) = fst (m w2) /\ remote (snd (m w1)) = remote (snd (m w2)).

Definition same_registry (w w' : World) : Prop := registry w' = registry w.

Definition same_remote (w w' : World) : Prop := remote w' = remote w.

(** Any exception but [ResourceExistsException], also as the last attempt
    kept inside a [RetryError]. *)
Fixpoint not_conflict (e : exn) : Prop :=
  match e with
  | ResourceExistsException _ => False
  | RetryError last => not_conflict_attempt last
  | _ => True
  end
with not_conflict_attempt (a : attempt) : Prop :=
  match a with
  | Failed e => not_conflict e
  | Returned => True
  end.

(** The subnets a call log asked the remote to create, oldest first: zone,
    block and network of each [create_subnet]. *)
Definition created_subnets (log : list Call.t)
  : list (string * IPv4Network * string) :=
  omap (fun c =>
          match c with
          | Call.create_subnet zone block vpc_id => Some (zone, block, vpc_id)
          | _ => None
          end) log.

(** The subnets of a network, as [describe_subnets] lists them. *)
Definition subnets_of (w : World) (vpc_id : string) : list string :=
  fst <$> filter (fun kv : string * SubnetDesc => subnet_VpcId kv.2 = vpc_id)
            (map_to_list (subnets (remote w))).

(** The world [_create] leaves: the new network, tagged, and its registry
    entry. *)
Definition created_vpc (name : string) (cidr : IPv4Network) (tenancy : string)
  (w : World) : World :=
  let id := fresh_id "vpc-" (remote w) in
  mkWorld
    (set_vpcs (alter (EC2.tag_vpc (Vpc.owner_and_name name)) id)
       (bump_next_id (set_vpcs (insert id (mkVpcDesc cidr tenancy ∅)) (remote w))))
    (<[("vpc", id) := name]> (registry w))
    (calls w ++ [Call.create_vpc cidr tenancy; Call.wait_vpc_exists id;
                 Call.wait_vpc_available id;
                 Call.create_tags [id] (Vpc.owner_and_name name)])
    (slept w).

(** Any exception but [ValueError]. *)
Definition not_ValueError (e : exn) : Prop :=
  match e with
  | ValueError _ => False
  | _ => True
  end.

(** The instances of a network that use a group, as [clobber] collects
    them from [describe_instances]. *)
Definition dependent_instances (w : World) (vpc_id sg_id : string) : list string :=
  fst <$> filter (fun i => SecurityGroup.has_security_group i sg_id = true)
            (filter (fun kv : string * InstanceDesc => inst_VpcId kv.2 = vpc_id)
               (map_to_list (instances (remote w)))).

(** The answer of [list_policies] for the page of index [i]. *)
Definition page_of (pages : list (list PolicyDesc)) (i : nat) : IAM.ListPolicies :=
  IAM.mkListPolicies (default [] (pages !! i)) (Nat.ltb (S i) (length pages))
    (if Nat.ltb (S i) (length pages) then Some (S i) else None).

(** The calls that list the pages [i], [i + 1], ... of [n] pages, after
    the first. *)
Definition next_pages (i n : nat) : list Call.t :=
  (fun j => Call.list_policies (Some j)) <$> seq i (n - i).

(** ** More sample worlds *)

Module Cases.
(** A remote with one network that carries no tag. *)
Definition untagged : World :=
  mkWorld
    (mkRemote {[ "vpc-u" := mkVpcDesc (mkNet 167772160 24) "dedicated" ∅ ]}
       ∅ ∅ ∅ [] ["zone-1"] ∅ [] ∅ 0)
    ∅ [] 0.

(** The network [vpc-a] with the group [sg-a], an instance that uses the
    group and one that does not. *)
Definition with_instances : World :=
  mkWorld
    (mkRemote
       {[ "vpc-a" := mkVpcDesc (mkNet 167772160 16) "default" {[ "Name" := "net-a" ]} ]}
       ∅
       {[ "sg-a" := mkSecurityGroupDesc "group-a" "vpc-a" "a group" [] ∅ ]}
       (<[ "i-1" := mkInstanceDesc "vpc-a" ["sg-a"] ]>
          {[ "i-2" := mkInstanceDesc "vpc-a" [] ]})
       [] ["zone-1"] ∅ [] ∅ 0)
    ∅ [] 0.

(** The same group, used by an instance that is not in its network. *)
Definition with_foreign_user : World :=
  mkWorld
    (mkRemote
       {[ "vpc-a" := mkVpcDesc (mkNet 167772160 16) "default" {[ "Name" := "net-a" ]} ]}
       ∅
       {[ "sg-a" := mkSecurityGroupDesc "group-a" "vpc-a" "a group" [] ∅ ]}
       {[ "i-3" := mkInstanceDesc "vpc-z" ["sg-a"] ]}
       [] ["zone-1"] ∅ [] ∅ 0)
    ∅ [] 0.

(** The batch service role of [Sample.role_batch] with a compute
    environment in use. *)
Definition with_compute_environment : World :=
  mkWorld
    (mkRemote ∅ ∅ ∅ ∅
       [mkComputeEnvironment "ce-a" "arn:ce-a" "arn:aws:iam::role/role-batch"
          "VALID" []]
       ["zone-1"]
       {[ "role-batch" :=
            mkRoleDesc "arn:aws:iam::role/role-batch"
              (IamRole.role_policy_document Sample.role_batch) None [] ]}
       [[mkPolicyDesc "P" "arn:P"]] ∅ 0)
    ∅ [] 0.

(** A role held by an instance profile, and the instance that adopted
    it. *)
Definition with_instance_profile : World :=
  mkWorld
    (mkRemote ∅ ∅ ∅ ∅ [] ["zone-1"]
       {[ "role-p" :=
            mkRoleDesc "arn:aws:iam::role/role-p"
              (mkPolicyDocument
                 [mkStatement "Allow" (Some "ec2.amazonaws.com") "sts:AssumeRole"])
              None [] ]}
       [[mkPolicyDesc "P" "arn:P"]]
       {[ "profile-p" :=
            mkInstanceProfileDesc "arn:aws:iam::instance-profile/profile-p"
              ["role-p"] ]}
       0)
    ∅ [] 0.

Definition role_p : IamRole.t :=
  IamRole.mk "role-p" false true EmptyString "ec2.amazonaws.com" []
    (mkPolicyDocument
       [mkStatement "Allow" (Some "ec2.amazonaws.com") "sts:AssumeRole"])
    "arn:aws:iam::role/role-p" "roles".
End Cases.

(** * Properties *)

(** ** Running binds and handlers *)

Lemma bind_Ok {A B} (m : M A) (k : A -> M B) w b w' :
  bind m k w = (Ok b, w') ->
  exists a w1, m w = (Ok a, w1) /\ k a w1 = (Ok b, w').
Proof.
  unfold bind. destruct (m w) as [[a|e] w1]; intros H; [eauto | discriminate].
Qed.

Lemma bind_Raise {A B} (m : M A) (k : A -> M B) w e w' :
  bind m k w = (Raise e, w') ->
  m w = (Raise e, w') \/ exists a w1, m w = (Ok a, w1) /\ k a w1 = (Raise e, w').
Proof.
  unfold bind. destruct (m w) as [[a|e0] w1]; intros H; [eauto | left; congruence].
Qed.

Lemma bind_step {A B} (m : M A) (k : A -> M B) w a w1 :
  m w = (Ok a, w1) -> bind m k w = k a w1.
Proof. unfold bind. intros ->. reflexivity. Qed.

Lemma bind_fail {A B} (m : M A) (k : A -> M B) w e w1 :
  m w = (Raise e, w1) -> bind m k w = (Raise e, w1).
Proof. unfold bind. intros ->. reflexivity. Qed.

Lemma catch_Ok_body {A} (m : M A) (h : exn -> M A) w a w' :
  (forall e w1 a1 w2, h e w1 <> (Ok a1, w2)) ->
  catch m h w = (Ok a, w') -> m w = (Ok a, w').
Proof.
  unfold catch. intros Hh. destruct (m w) as [[a0|e] w1]; intros H; [exact H |].
  exfalso. eapply Hh. exact H.
Qed.

Lemma catch_step {A} (m : M A) (h : exn -> M A) w a w1 :
  m w = (Ok a, w1) -> catch m h w = (Ok a, w1).
Proof. unfold catch. intros ->. reflexivity. Qed.

Lemma catch_fail {A} (m : M A) (h : exn -> M A) w e w1 :
  m w = (Raise e, w1) -> catch m h w = h e w1.
Proof. unfold catch. intros ->. reflexivity. Qed.

(** Splits a hypothesis [bind m k w = (Ok b, w')] into its two runs. *)
Ltac inv_bind H :=
  let a := fresh "a" in
  let w1 := fresh "w" in
  let H1 := fresh "Hrun" in
  apply bind_Ok in H; destruct H as (a & w1 & H1 & H).

(** ** SecurityGroup: what the resolver returns for an identifier *)

Lemma SecurityGroup_exists_by_id id name vpc_id w r w' :
  truthy (Some id) = true ->
  SecurityGroup._exists_already (Some id) name vpc_id w = (Ok r, w') ->
  remote w' = remote w /\ registry w' = registry w /\
  match r with
  | SecurityGroup.Exists r_name r_vpc_id r_description r_id =>
      exists d, security_groups (remote w) !! id = Some d /\
                r_name = sg_GroupName d /\ r_vpc_id = sg_VpcId d /\
                r_description = sg_Description d /\ r_id = id
  | SecurityGroup.NotExists => security_groups (remote w) !! id = None
  end.
Proof.
  intros Ht. unfold SecurityGroup._exists_already. rewrite Ht.
  unfold bind at 1, catch, bind, EC2.describe_security_groups_ids, gateway, ret,
    raise, the; simpl.
  destruct (security_groups (remote w) !! id) as [d|] eqn:Hd; simpl.
  - intros [= <- <-]. simpl. repeat split. exists d. repeat split.
  - destruct (String.prefix "sg-" id); simpl; intros [= <- <-]; simpl;
      repeat split.
Qed.

(** C10: a SecurityGroup adopted by an explicit [security_group_id] has
    [vpc] equal to [None] and [vpc_id] equal to the network identifier the
    remote records for the group; an instance whose [vpc] is not [None] was
    freshly created ([pre_existing] is [False]). *)
Theorem SecurityGroup_adopted_has_no_vpc_object :
  forall security_group_id name vpc description w sg w',
    SecurityGroup.__init__ security_group_id name vpc description w = (Ok sg, w') ->
    (truthy security_group_id = true ->
     SecurityGroup.vpc sg = None /\
     SecurityGroup.pre_existing sg = true /\
     exists d,
       security_groups (remote w) !! the security_group_id = Some d /\
       SecurityGroup.security_group_id sg = the security_group_id /\
       SecurityGroup.vpc_id sg = sg_VpcId d) /\
    (SecurityGroup.vpc sg <> None -> SecurityGroup.pre_existing sg = false).
Proof.
  intros sgid name vpc description w sg w' H.
  unfold SecurityGroup.__init__ in H.
  destruct (negb _); [discriminate |].
  destruct (truthy sgid && _) eqn:Hover; [discriminate |].
  destruct (SecurityGroup.vpc_truthy vpc && _); [discriminate |].
  inv_bind H. destruct a as [r_name r_vpc_id r_description r_id|].
  - destruct (truthy name || SecurityGroup.vpc_truthy vpc); [discriminate |].
    inv_bind H. injection H as <- <-. simpl. split; [| congruence].
    intros Ht. destruct sgid as [id|]; [| discriminate].
    apply (SecurityGroup_exists_by_id id) in Hrun; [| exact Ht].
    destruct Hrun as (_ & _ & d & Hd & -> & -> & -> & ->).
    repeat split. exists d. repeat split. exact Hd.
  - destruct (truthy sgid) eqn:Ht; [discriminate |].
    destruct vpc as [|v|]; try discriminate.
    inv_bind H. injection H as <- <-. simpl. split; [discriminate | reflexivity].
Qed.

Lemma SecurityGroup_adopted_has_no_vpc_object_witness :
  SecurityGroup.__init__ (Some "sg-a") None SecurityGroup.VpcNone None Sample.world0
  = (Ok Sample.sg_a, Sample.after_sg_a) /\
  SecurityGroup.vpc Sample.sg_a = None /\
  SecurityGroup.vpc_id Sample.sg_a = "vpc-a".
Proof.
  assert (H : SecurityGroup.__init__ (Some "sg-a") None SecurityGroup.VpcNone None
                Sample.world0 = (Ok Sample.sg_a, Sample.after_sg_a))
    by (vm_compute; reflexivity).
  split; [exact H |].
  destruct (SecurityGroup_adopted_has_no_vpc_object _ _ _ _ _ _ _ H) as [Hid _].
  destruct (Hid eq_refl) as (Hvpc & _ & d & Hd & _ & Hvid).
  split; [exact Hvpc |].
  rewrite Hvid. vm_compute in Hd. injection Hd as <-. reflexivity.
Defined.

(** ** Invariants kept by every run *)

Section Preserves.
Variable I : World -> World -> Prop.
Hypothesis I_refl : forall w, I w w.
Hypothesis I_trans : forall w1 w2 w3, I w1 w2 -> I w2 w3 -> I w1 w3.

Lemma preserves_ret {A} (a : A) : preserves I (ret a).
Proof. intros w. apply I_refl. Qed.

Lemma preserves_raise {A} (e : exn) : preserves I (raise (A := A) e).
Proof. intros w. apply I_refl. Qed.

Lemma preserves_lift {A} (r : result A) : preserves I (lift r).
Proof. intros w. apply I_refl. Qed.

Lemma preserves_bind {A B} (m : M A) (k : A -> M B) :
  preserves I m -> (forall a, preserves I (k a)) -> preserves I (bind m k).
Proof.
  intros Hm Hk w. unfold bind. specialize (Hm w).
  destruct (m w) as [[a|e] w1]; simpl in *; [| exact Hm].
  eapply I_trans; [exact Hm | apply Hk].
Qed.

Lemma preserves_catch {A} (m : M A) (h : exn -> M A) :
  preserves I m -> (forall e, preserves I (h e)) -> preserves I (catch m h).
Proof.
  intros Hm Hh w. unfold catch. specialize (Hm w).
  destruct (m w) as [[a|e] w1]; simpl in *; [exact Hm |].
  eapply I_trans; [exact Hm | apply Hh].
Qed.

Lemma preserves_attempt_of {A} (m : M A) :
  preserves I m -> preserves I (attempt_of m).
Proof.
  intros Hm w. unfold attempt_of. specialize (Hm w).
  destruct (m w) as [r w1]. exact Hm.
Qed.

Lemma preserves_with_world {A B} (g : World -> B) (f : B -> M A) :
  (forall b, preserves I (f b)) -> preserves I (fun w => f (g w) w).
Proof. intros Hf w. apply Hf. Qed.

Lemma preserves_for_each {A} (l : list A) (body : A -> M unit) :
  (forall x, preserves I (body x)) -> preserves I (for_each l body).
Proof.
  intros Hb. induction l as [|x l IH]; simpl.
  - apply preserves_ret.
  - apply preserves_bind; [apply Hb | intros _; exact IH].
Qed.

Lemma preserves_call_from {A} (self : tenacity.Retrying A) fuel n delay (fn : M A) :
  preserves I (sleep (tenacity.wait_exponential (tenacity.wait_max self) n)) ->
  (forall k, preserves I (sleep k)) ->
  preserves I fn -> preserves I (tenacity.call_from self fuel n delay fn).
Proof.
  intros _ Hs Hfn. revert n delay.
  induction fuel as [|fuel IH]; intros n delay; simpl.
  - apply preserves_raise.
  - apply preserves_bind; [apply preserves_attempt_of; exact Hfn |].
    intros r. destruct (tenacity.retry self r); [| apply preserves_lift].
    destruct (tenacity.stop_after_delay _ _); [apply preserves_raise |].
    apply preserves_bind; [apply Hs | intros _; apply IH].
Qed.

Lemma preserves_call {A} (self : tenacity.Retrying A) (fn : M A) :
  (forall k, preserves I (sleep k)) ->
  preserves I fn -> preserves I (tenacity.call self fn).
Proof. intros Hs Hfn. apply preserves_call_from; auto. Qed.
End Preserves.

(** ** Exceptions a run can raise *)

Section RaisesIn.
Variable P : exn -> Prop.

Lemma raises_in_ret {A} (a : A) : raises_in P (ret a).
Proof. intros w e w'. discriminate. Qed.

Lemma raises_in_raise {A} (e : exn) : P e -> raises_in P (raise (A := A) e).
Proof. intros He w e' w' [= <- _]. exact He. Qed.

Lemma raises_in_lift {A} (r : result A) :
  (forall e, r = Raise e -> P e) -> raises_in P (lift r).
Proof. intros Hr w e w' [= -> _]. apply Hr. reflexivity. Qed.

Lemma raises_in_bind {A B} (m : M A) (k : A -> M B) :
  raises_in P m -> (forall a, raises_in P (k a)) -> raises_in P (bind m k).
Proof.
  intros Hm Hk w e w' H. apply bind_Raise in H as [H | (a & w1 & _ & H)].
  - eapply Hm; exact H.
  - eapply Hk; exact H.
Qed.

Lemma raises_in_catch {A} (m : M A) (h : exn -> M A) :
  raises_in P m -> (forall e, P e -> raises_in P (h e)) ->
  raises_in P (catch m h).
Proof.
  intros Hm Hh w e w'. unfold catch.
  destruct (m w) as [[a|e0] w1] eqn:Hrun; [discriminate |].
  intros H. eapply Hh; [| exact H]. eapply Hm; exact Hrun.
Qed.

Lemma raises_in_gateway {A} (c : Call.t) (f : Remote -> result A * Remote) :
  (forall r e r', f r = (Raise e, r') -> P e) -> raises_in P (gateway c f).
Proof.
  intros Hf w e w'. unfold gateway.
  destruct (f (remote w)) as [r rem] eqn:Hrun. intros [= -> _].
  eapply Hf; exact Hrun.
Qed.

Lemma raises_in_sleep k : raises_in P (sleep k).
Proof. intros w e w'. discriminate. Qed.

Lemma raises_in_add_resource s i n : raises_in P (config.add_resource s i n).
Proof. intros w e w'. discriminate. Qed.

Lemma raises_in_remove_resource s i : raises_in P (config.remove_resource s i).
Proof. intros w e w'. discriminate. Qed.

Lemma raises_in_with_world {A B} (g : World -> B) (f : B -> M A) :
  (forall b, raises_in P (f b)) -> raises_in P (fun w => f (g w) w).
Proof. intros Hf w e w' H. eapply Hf; exact H. Qed.

Lemma raises_in_for_each {A} (l : list A) (body : A -> M unit) :
  (forall x, raises_in P (body x)) -> raises_in P (for_each l body).
Proof.
  intros Hb. induction l as [|x l IH]; simpl.
  - apply raises_in_ret.
  - apply raises_in_bind; [apply Hb | intros _; exact IH].
Qed.

Lemma call_from_unfold {A} (self : tenacity.Retrying A) fuel n delay (fn : M A) w :
  tenacity.call_from self (S fuel) n delay fn w =
  let (r, w1) := fn w in
  if tenacity.retry self r then
    if tenacity.stop_after_delay (tenacity.max_delay self) delay
    then (Raise (RetryError (tenacity.last_attempt_of r)), w1)
    else
      let seconds := tenacity.wait_exponential (tenacity.wait_max self) n in
      tenacity.call_from self fuel (S n) (delay + seconds) fn
        (mkWorld (remote w1) (registry w1) (calls w1) (slept w1 + seconds))
  else (r, w1).
Proof.
  simpl. unfold bind at 1, attempt_of. destruct (fn w) as [r w1].
  destruct (tenacity.retry self r); [| reflexivity].
  destruct (tenacity.stop_after_delay _ _); reflexivity.
Qed.

Lemma raises_in_call_from {A} (self : tenacity.Retrying A) fuel n delay (fn : M A) :
  (forall e, P e -> P (RetryError (Failed e))) -> P (RetryError Returned) ->
  P OutOfFuel ->
  raises_in P fn -> raises_in P (tenacity.call_from self fuel n delay fn).
Proof.
  intros Hfailed Hreturned Hfuel Hfn. revert n delay.
  induction fuel as [|fuel IH]; intros n delay w e w'.
  - simpl. intros [= <- _]. exact Hfuel.
  - rewrite call_from_unfold. destruct (fn w) as [r w1] eqn:Hrun.
    destruct (tenacity.retry self r).
    + destruct (tenacity.stop_after_delay _ _).
      * intros [= <- _]. destruct r as [a|e0]; simpl; [exact Hreturned |].
        apply Hfailed. eapply Hfn. exact Hrun.
      * apply IH.
    + intros [= -> ->]. eapply Hfn. exact Hrun.
Qed.

Lemma raises_in_call {A} (self : tenacity.Retrying A) (fn : M A) :
  (forall e, P e -> P (RetryError (Failed e))) -> P (RetryError Returned) ->
  P OutOfFuel ->
  raises_in P fn -> raises_in P (tenacity.call self fn).
Proof. intros. apply raises_in_call_from; assumption. Qed.
End RaisesIn.

(** ** The registry changes only through [cloudknot.config] *)

Lemma same_registry_refl w : same_registry w w.
Proof. reflexivity. Qed.

Lemma same_registry_trans w1 w2 w3 :
  same_registry w1 w2 -> same_registry w2 w3 -> same_registry w1 w3.
Proof. unfold same_registry. congruence. Qed.

Lemma keeps_registry_gateway {A} (c : Call.t) (f : Remote -> result A * Remote) :
  preserves same_registry (gateway c f).
Proof. intros w. unfold gateway. destruct (f (remote w)). reflexivity. Qed.

Lemma keeps_registry_sleep k : preserves same_registry (sleep k).
Proof. intros w. reflexivity. Qed.

Ltac head_of t :=
  lazymatch t with
  | ?f _ => head_of f
  | _ => t
  end.

(** Proves [preserves same_registry m] along the structure of [m]. *)
Ltac keeps_registry :=
  repeat (intros;
    match goal with
    | |- preserves _ (ret _) => apply preserves_ret, same_registry_refl
    | |- preserves _ (raise _) => apply preserves_raise, same_registry_refl
    | |- preserves _ (lift _) => apply preserves_lift, same_registry_refl
    | |- preserves _ (bind _ _) => apply (preserves_bind _ same_registry_trans)
    | |- preserves _ (catch _ _) => apply (preserves_catch _ same_registry_trans)
    | |- preserves _ (gateway _ _) => apply keeps_registry_gateway
    | |- preserves _ (sleep _) => apply keeps_registry_sleep
    | |- preserves _ (tenacity.call _ _) =>
        apply (preserves_call _ same_registry_refl same_registry_trans);
        [apply keeps_registry_sleep |]
    | |- preserves _ (for_each _ _) =>
        apply (preserves_for_each _ same_registry_refl same_registry_trans)
    | |- preserves _ (if ?b then _ else _) => destruct b
    | |- preserves _ (match ?x with _ => _ end) => destruct x
    | |- preserves _ ?m => let h := head_of m in progress unfold h
    end).

Lemma Vpc_exists_already_keeps_registry vpc_id name :
  preserves same_registry (Vpc._exists_already vpc_id name).
Proof. keeps_registry. Qed.

Lemma SecurityGroup_exists_already_keeps_registry security_group_id name vpc_id :
  preserves same_registry
    (SecurityGroup._exists_already security_group_id name vpc_id).
Proof. keeps_registry. Qed.

Lemma IamRole_exists_already_keeps_registry name :
  preserves same_registry (IamRole._exists_already name).
Proof. keeps_registry. Qed.

(** ** No gateway call raises a resource conflict *)

(** The answer of a gateway call never is a [ResourceExistsException]. *)
Ltac gateway_no_conflict :=
  intros ? ? ?; unfold IAM.NoSuchEntity; cbv beta;
  repeat case_match; intros [= <- ?]; exact I.

(** Proves [raises_in not_conflict m] along the structure of [m]. *)
Ltac no_conflict :=
  repeat (intros;
    match goal with
    | |- raises_in _ (ret _) => apply raises_in_ret
    | |- raises_in _ (raise _) =>
        apply raises_in_raise; subst; first [exact I | assumption]
    | |- raises_in _ (lift _) =>
        apply raises_in_lift; intros ? ?; subst; first [exact I | assumption]
    | |- raises_in _ (bind _ _) => apply raises_in_bind
    | |- raises_in _ (catch _ _) => apply raises_in_catch
    | |- raises_in _ (gateway _ _) => apply raises_in_gateway; gateway_no_conflict
    | |- raises_in _ (sleep _) => apply raises_in_sleep
    | |- raises_in _ (config.add_resource _ _ _) => apply raises_in_add_resource
    | |- raises_in _ (config.remove_resource _ _) => apply raises_in_remove_resource
    | |- raises_in _ (tenacity.call _ _) =>
        apply raises_in_call; [intros ? ?; assumption | exact I | exact I |]
    | |- raises_in _ (for_each _ _) => apply raises_in_for_each
    | |- raises_in _ (fun w => _ (length (policy_pages (remote w))) _ _ w) =>
        apply (raises_in_with_world _ (fun w => length (policy_pages (remote w))))
    | |- raises_in _ (if ?b then _ else _) => destruct b
    | |- raises_in _ (match ?x with _ => _ end) => destruct x eqn:?
    | |- raises_in _ ?m => let h := head_of m in progress unfold h
    end).

Lemma Vpc_exists_already_no_conflict vpc_id name :
  raises_in not_conflict (Vpc._exists_already vpc_id name).
Proof. no_conflict. Qed.

Lemma create_subnets_no_conflict pairs vpc_id subnet_ids :
  raises_in not_conflict (Vpc.create_subnets pairs vpc_id subnet_ids).
Proof.
  revert subnet_ids. induction pairs as [|[zone cidr] rest IH]; intros acc; simpl.
  - apply raises_in_ret.
  - apply raises_in_bind; [no_conflict | intros id; apply IH].
Qed.

Lemma subnet_ipv4_cidrs_no_conflict cidr n e :
  Vpc.subnet_ipv4_cidrs cidr n = Raise e -> not_conflict e.
Proof.
  unfold Vpc.subnet_ipv4_cidrs, Vpc.ceil_log2, ipaddress.subnets, ipaddress.range.
  repeat case_match; intros [= <-]; try exact I; simplify_eq; exact I.
Qed.

Lemma Vpc_add_subnets_no_conflict name cidr vpc_id :
  raises_in not_conflict (Vpc._add_subnets name cidr vpc_id).
Proof.
  unfold Vpc._add_subnets.
  apply raises_in_bind; [no_conflict |]. intros zones.
  apply raises_in_bind.
  { apply raises_in_lift. apply subnet_ipv4_cidrs_no_conflict. }
  intros cidrs. apply raises_in_bind; [apply create_subnets_no_conflict |].
  no_conflict.
Qed.

Lemma Vpc_create_no_conflict name cidr tenancy :
  raises_in not_conflict (Vpc._create name cidr tenancy).
Proof. no_conflict. Qed.

Lemma SecurityGroup_exists_already_no_conflict security_group_id name vpc_id :
  raises_in not_conflict
    (SecurityGroup._exists_already security_group_id name vpc_id).
Proof. no_conflict. Qed.

Lemma SecurityGroup_create_no_conflict name description vpc :
  raises_in not_conflict (SecurityGroup._create name description vpc).
Proof.
  unfold SecurityGroup._create.
  apply raises_in_bind; [no_conflict |]. intros group_id.
  apply raises_in_bind; [| no_conflict].
  apply raises_in_lift. intros e [= <-]. exact I.
Qed.

Lemma IamRole_exists_already_no_conflict name :
  raises_in not_conflict (IamRole._exists_already name).
Proof. no_conflict. Qed.

Lemma more_policies_no_conflict fuel response aws_policies :
  raises_in not_conflict (IamRole.more_policies fuel response aws_policies).
Proof.
  revert response aws_policies.
  induction fuel as [|fuel IH]; intros response aws_policies; simpl.
  - destruct (IAM.IsTruncated response); no_conflict.
  - destruct (IAM.IsTruncated response); [| no_conflict].
    apply raises_in_bind; [no_conflict |]. intros marker.
    apply raises_in_bind; [no_conflict |]. intros response'. apply IH.
Qed.

Lemma policy_filter_from_no_conflict fuel policy response :
  raises_in not_conflict (IamRole.policy_filter_from fuel policy response).
Proof.
  revert response. induction fuel as [|fuel IH]; intros response; simpl.
  - destruct (filter _ _); no_conflict.
  - destruct (filter _ _); [| no_conflict].
    apply raises_in_bind; [no_conflict |]. intros marker.
    apply raises_in_bind; [no_conflict |]. intros response'. apply IH.
Qed.

Lemma policy_arn_of_no_conflict policy :
  raises_in not_conflict (IamRole.policy_arn_of policy).
Proof.
  unfold IamRole.policy_arn_of.
  apply raises_in_bind; [no_conflict |]. intros response.
  apply raises_in_bind; [| no_conflict].
  apply (raises_in_with_world _ (fun w => length (policy_pages (remote w)))
           (fun n => IamRole.policy_filter_from n policy response)).
  intros n. apply policy_filter_from_no_conflict.
Qed.

Lemma all_aws_policies_no_conflict :
  raises_in not_conflict IamRole.all_aws_policies.
Proof.
  unfold IamRole.all_aws_policies.
  apply raises_in_bind; [no_conflict |]. intros response.
  apply (raises_in_with_world _ (fun w => length (policy_pages (remote w)))
           (fun n => IamRole.more_policies n response
                       (PolicyName <$> IAM.Policies response))).
  intros n. apply more_policies_no_conflict.
Qed.

Lemma IamRole_create_no_conflict gsn name description doc policies flag :
  raises_in not_conflict (IamRole._create gsn name description doc policies flag).
Proof.
  unfold IamRole._create.
  apply raises_in_bind; [no_conflict |]. intros role_arn.
  apply raises_in_bind.
  { apply raises_in_for_each. intros policy.
    apply raises_in_bind; [apply policy_arn_of_no_conflict | no_conflict]. }
  intros _. no_conflict.
Qed.

(** C9: a construction that fails with the resource-conflict error (the
    resolver found the resource and the caller gave creation parameters)
    leaves the Local Registry as it was, for Vpc, SecurityGroup and
    IamRole. *)
Theorem conflict_leaves_registry_unchanged :
  (forall vpc_id name ipv4_cidr instance_tenancy w resource_id w',
     Vpc.__init__ vpc_id name ipv4_cidr instance_tenancy w
     = (Raise (ResourceExistsException resource_id), w') ->
     registry w' = registry w) /\
  (forall security_group_id name vpc description w resource_id w',
     SecurityGroup.__init__ security_group_id name vpc description w
     = (Raise (ResourceExistsException resource_id), w') ->
     registry w' = registry w) /\
  (forall _get_section_name tuple_of_set name description service policies
          add_instance_profile w resource_id w',
     IamRole.__init__ _get_section_name tuple_of_set name description service policies
       add_instance_profile w
     = (Raise (ResourceExistsException resource_id), w') ->
     registry w' = registry w).
Proof.
  split; [| split].
  - intros vpc_id name cidr tenancy w rid w' H. unfold Vpc.__init__ in H.
    destruct (negb _); [discriminate |].
    destruct (truthy vpc_id && _); [discriminate |].
    apply bind_Raise in H as [H | (r & w1 & Hrun & H)].
    { apply Vpc_exists_already_no_conflict in H. destruct H. }
    pose proof (Vpc_exists_already_keeps_registry vpc_id name w) as Hreg.
    rewrite Hrun in Hreg. simpl in Hreg.
    destruct r as [r_name r_cidr r_tenancy r_id r_subnets|].
    + destruct (truthy cidr || truthy tenancy).
      * injection H as _ <-. exact Hreg.
      * apply bind_Raise in H as [H | (? & ? & _ & H)]; discriminate.
    + destruct (truthy vpc_id); [discriminate |]. exfalso.
      revert H. generalize w1. clear. intros w1 H.
      assert (Hno : raises_in not_conflict
                (_ipv4_cidr <-
                   (if truthy cidr then
                      catch (lift (ipaddress.IPv4Network_of_text (the cidr)))
                        (fun e =>
                           match e with
                           | ValueError _ =>
                               raise (ValueError
                                 "If provided, ipv4_cidr must be a valid IPv4 network range.")
                           | _ => raise e
                           end)
                    else ret Vpc.default_cidr) ;;
                 _instance_tenancy <-
                   (if truthy tenancy then
                      if String.eqb (the tenancy) "default"
                         || String.eqb (the tenancy) "dedicated"
                      then ret (the tenancy)
                      else raise (ValueError
                        "If provided, instance tenancy must be one of (default, dedicated).")
                    else ret "default") ;;
                 _vpc_id <- Vpc._create (the name) _ipv4_cidr _instance_tenancy ;;
                 _subnet_ids <- Vpc._add_subnets (the name) _ipv4_cidr _vpc_id ;;
                 ret (Vpc.mk (the name) false false _ipv4_cidr _instance_tenancy
                        _vpc_id _subnet_ids))).
      { apply raises_in_bind.
        - destruct (truthy cidr); [| no_conflict].
          apply raises_in_catch.
          + apply raises_in_lift. unfold ipaddress.IPv4Network_of_text.
            intros e He. repeat case_match; simplify_eq; exact I.
          + no_conflict.
        - intros c. apply raises_in_bind; [no_conflict |]. intros t.
          apply raises_in_bind; [apply Vpc_create_no_conflict |]. intros i.
          apply raises_in_bind; [apply Vpc_add_subnets_no_conflict | no_conflict]. }
      exact (Hno _ _ _ H).
  - intros sgid name vpc description w rid w' H.
    unfold SecurityGroup.__init__ in H.
    destruct (negb _); [discriminate |].
    destruct (truthy sgid && _); [discriminate |].
    destruct (SecurityGroup.vpc_truthy vpc && _); [discriminate |].
    apply bind_Raise in H as [H | (r & w1 & Hrun & H)].
    { apply SecurityGroup_exists_already_no_conflict in H. destruct H. }
    match type of Hrun with
    | ?m w = _ =>
        pose proof (SecurityGroup_exists_already_keeps_registry sgid name
                      match vpc with
                      | SecurityGroup.VpcInstance v => Some (Vpc.vpc_id v)
                      | _ => None
                      end w) as Hreg
    end.
    rewrite Hrun in Hreg. simpl in Hreg.
    destruct r as [r_name r_vpc_id r_description r_id|].
    + destruct (truthy name || SecurityGroup.vpc_truthy vpc).
      * injection H as _ <-. exact Hreg.
      * apply bind_Raise in H as [H | (? & ? & _ & H)]; discriminate.
    + destruct (truthy sgid); [discriminate |].
      destruct vpc as [|v|]; try discriminate.
      apply bind_Raise in H as [H | (? & ? & _ & H)]; [| discriminate].
      apply SecurityGroup_create_no_conflict in H. destruct H.
  - intros gsn tos name description service policies flag w rid w' H.
    unfold IamRole.__init__ in H.
    apply bind_Raise in H as [H | (r & w1 & Hrun & H)].
    { apply IamRole_exists_already_no_conflict in H. destruct H. }
    pose proof (IamRole_exists_already_keeps_registry name w) as Hreg.
    rewrite Hrun in Hreg. simpl in Hreg.
    destruct r as [r_description r_doc r_policies r_arn|].
    + destruct (truthy description || _ || _ || _).
      * injection H as _ <-. exact Hreg.
      * exfalso. revert H.
        match goal with
        | |- ?m w1 = _ -> _ =>
            assert (Hno : raises_in not_conflict m) by no_conflict
        end.
        intros H. exact (Hno _ _ _ H).
    + destruct (negb _); [discriminate |]. exfalso. revert H.
      match goal with
      | |- ?m w1 = _ -> _ => assert (Hno : raises_in not_conflict m)
      end.
      { apply raises_in_bind; [no_conflict |]. intros svc.
        apply raises_in_bind; [no_conflict |]. intros input.
        apply raises_in_bind; [apply all_aws_policies_no_conflict |]. intros aws.
        destruct (negb _); [no_conflict |].
        destruct flag as [b|b]; [| no_conflict].
        apply raises_in_bind; [apply IamRole_create_no_conflict | no_conflict]. }
      intros H. exact (Hno _ _ _ H).
Qed.

Lemma conflict_leaves_registry_unchanged_witness :
  fst (Vpc.__init__ None (Some "net-a") (Some "10.0.0.0/16") None Sample.world0)
  = Raise (ResourceExistsException "vpc-a") /\
  registry (snd (Vpc.__init__ None (Some "net-a") (Some "10.0.0.0/16") None
                   Sample.world0))
  = registry Sample.world0.
Proof.
  assert (H : fst (Vpc.__init__ None (Some "net-a") (Some "10.0.0.0/16") None
                     Sample.world0)
              = Raise (ResourceExistsException "vpc-a"))
    by (vm_compute; reflexivity).
  split; [exact H |].
  destruct conflict_leaves_registry_unchanged as (Hvpc & _ & _).
  apply (Hvpc None (Some "net-a") (Some "10.0.0.0/16") None Sample.world0 "vpc-a").
  rewrite <- H. apply surjective_pairing.
Defined.

(** ** Identifier and creation parameters given together *)

Lemma call_first_attempt {A} (self : tenacity.Retrying A) (fn : M A) w r w1 :
  fn w = (r, w1) -> tenacity.retry self r = false ->
  tenacity.call self fn w = (r, w1).
Proof.
  intros Hrun Hretry. unfold tenacity.call. rewrite call_from_unfold, Hrun, Hretry.
  reflexivity.
Qed.

Lemma IamRole_exists_already_found name w d :
  roles (remote w) !! name = Some d ->
  IamRole._exists_already name w =
  (Ok (IamRole.Exists (default EmptyString (role_Description d))
         (role_AssumeRolePolicyDocument d)
         (PolicyName <$> role_AttachedPolicies d) (role_Arn d)),
   mkWorld (remote w) (registry w)
     (calls w ++ [Call.get_role name; Call.list_attached_role_policies name])
     (slept w)).
Proof.
  intros Hd. unfold IamRole._exists_already.
  erewrite catch_step; [reflexivity |].
  erewrite bind_step.
  2:{ apply call_first_attempt with (r := Ok d); [| reflexivity].
      unfold IAM.get_role, gateway. rewrite Hd. reflexivity. }
  unfold bind, IAM.list_attached_role_policies, gateway, ret. simpl.
  rewrite Hd. simpl. rewrite <- app_assoc. reflexivity.
Qed.




(** An IamRole is identified by its name; given with a creation parameter
    for a role the remote does not have, the construction succeeds and
    creates the role. *)
Lemma role_name_with_creation_parameters_creates :
  roles (remote Sample.world0) !! "role-b" = None /\
  is_ok (fst (IamRole.__init__ id Sample.tuple_of_set "role-b" None (Some "ec2")
      (IamRole.PoliciesSeq [])
                (IamRole.FlagBool false) Sample.world0)) = true /\
  roles (remote (snd (IamRole.__init__ id Sample.tuple_of_set "role-b" None (Some "ec2")
                        (IamRole.PoliciesSeq []) (IamRole.FlagBool false)
                        Sample.world0))) !! "role-b"
  = Some (mkRoleDesc "arn:aws:iam::role/role-b"
            (mkPolicyDocument
               [mkStatement "Allow" (Some "ec2.amazonaws.com") "sts:AssumeRole"])
            (Some "This role was generated by cloudknot") []).
Proof. vm_compute. repeat split. Qed.

(** ** Policy validation of a new role *)

(** C3, at the failing input: every requested policy name ([P] and [Q]) is
    in the remote catalog, which has no other policy; the constructor
    refuses them with the not-found [ValueError], after the lookups and the
    paginated listing and before any create-role call.  The test is a
    proper-subset test where the comment above it says subset. *)
Theorem whole_catalog_requested_is_refused :
  forall tuple_of_set : list string -> list string,
  let requested := IamRole.PoliciesSeq [IamRole.PyStr "P"; IamRole.PyStr "Q"] in
  let run :=
    IamRole.__init__ id tuple_of_set "role-b" None (Some "ec2") requested
      (IamRole.FlagBool false) Sample.world0 in
  concat (policy_pages (remote Sample.world0))
  = [mkPolicyDesc "P" "arn:P"; mkPolicyDesc "Q" "arn:Q"] /\
  fst run = Raise (ValueError "Could not find the policies on AWS.") /\
  calls (snd run)
  = [Call.get_role "role-b"; Call.get_role "role-b"; Call.get_role "role-b";
     Call.list_policies None; Call.list_policies (Some 1)] /\
  remote (snd run) = remote Sample.world0.
Proof. intros tuple_of_set. vm_compute. repeat split. Qed.

(** When the request is all of the catalog but one policy, the same
    construction passes the validation and creates the role. *)
Lemma part_of_catalog_requested_is_created :
  let run :=
    IamRole.__init__ id Sample.tuple_of_set "role-b" None (Some "ec2")
      (IamRole.PoliciesSeq [IamRole.PyStr "Q"]) (IamRole.FlagBool false)
      Sample.world0 in
  is_ok (fst run) = true /\
  (role_AttachedPolicies <$> roles (remote (snd run)) !! "role-b")
  = Some [mkPolicyDesc "Q" "arn:Q"].
Proof. vm_compute. repeat split. Qed.

(** ** After a successful destroy *)

Lemma IamRole_clobber_sets_clobbered self w self' w' :
  IamRole.clobber self w = (Ok self', w') -> IamRole.clobbered self' = true.
Proof.
  unfold IamRole.clobber. destruct (IamRole.clobbered self) eqn:Hc.
  - intros [= <- _]. exact Hc.
  - intros H. do 7 inv_bind H. injection H as <- _. reflexivity.
Qed.

Lemma IamRole_clobber_again_is_no_op self w :
  IamRole.clobbered self = true -> IamRole.clobber self w = (Ok self, w).
Proof. intros Hc. unfold IamRole.clobber. rewrite Hc. reflexivity. Qed.

Lemma IamRole_clobbered_property_raises self w :
  IamRole.clobbered self = true ->
  IamRole.instance_profile_arn self w
  = (Raise (ResourceClobberedException (IamRole.arn self)), w).
Proof. intros Hc. unfold IamRole.instance_profile_arn. rewrite Hc. reflexivity. Qed.

(** C4, at the failing inputs: the network [vpc-a] and the security group
    [sg-a] are adopted and destroyed; each destroy succeeds, the instance's
    [clobbered] attribute is still [False], and a second destroy is not a
    no-op: it issues gateway calls again and ends in the remote's not-found
    error. *)
Theorem Vpc_and_SecurityGroup_destroy_twice :
  let v := Vpc.__init__ (Some "vpc-a") None None None Sample.world1 in
  let v1 := Vpc.clobber Sample.vpc_a (snd v) in
  let v2 := Vpc.clobber Sample.vpc_a (snd v1) in
  let s := SecurityGroup.__init__ (Some "sg-a") None SecurityGroup.VpcNone None
             Sample.world0 in
  let s1 := SecurityGroup.clobber Sample.sg_a (snd s) in
  let s2 := SecurityGroup.clobber Sample.sg_a (snd s1) in
  (fst v = Ok Sample.vpc_a /\ fst v1 = Ok tt /\
   Vpc.clobbered Sample.vpc_a = false /\
   fst v2 = Raise (ClientError "InvalidSubnetID.NotFound") /\
   calls (snd v2) = (calls (snd v1) ++ [Call.delete_subnet "subnet-a"])%list) /\
  (fst s = Ok Sample.sg_a /\ fst s1 = Ok tt /\
   SecurityGroup.clobbered Sample.sg_a = false /\
   fst s2 = Raise (ClientError "InvalidGroup.NotFound") /\
   calls (snd s2)
   = (calls (snd s1)
      ++ [Call.describe_instances "vpc-a"; Call.describe_compute_environments None;
          Call.delete_security_group "sg-a"])%list).
Proof. vm_compute. repeat split. Qed.

(** ** The retry loops *)

Lemma wait_exponential_positive max n :
  0 < max -> 0 < tenacity.wait_exponential max n.
Proof.
  intros Hmax. unfold tenacity.wait_exponential.
  assert (0 < 2 ^ n) by (apply Nat.neq_0_lt_0, Nat.pow_nonzero; discriminate).
  lia.
Qed.

(** With enough fuel for the time budget, a loop ends with the outcome of
    an attempt that is not to be retried, or with the [RetryError] of a
    last attempt that was. *)
Lemma call_from_outcome {A} (self : tenacity.Retrying A) (fn : M A) fuel :
  0 < tenacity.wait_max self ->
  forall n delay w r w',
    tenacity.max_delay self < S fuel + delay ->
    tenacity.call_from self (S fuel) n delay fn w = (r, w') ->
    (tenacity.retry self r = false /\ exists w0, fn w0 = (r, w')) \/
    (exists r0 w0,
       fn w0 = (r0, w') /\ tenacity.retry self r0 = true /\
       r = Raise (RetryError (tenacity.last_attempt_of r0))).
Proof.
  intros Hmax. induction fuel as [|fuel IH]; intros n delay w r w' Hfuel;
    rewrite call_from_unfold; destruct (fn w) as [r0 w1] eqn:Hrun;
    destruct (tenacity.retry self r0) eqn:Hretry.
  - unfold tenacity.stop_after_delay.
    destruct (Nat.leb_spec (tenacity.max_delay self) delay) as [_|Hlt]; [| lia].
    intros [= <- <-]. right. exists r0, w. auto.
  - intros [= <- <-]. left. split; [exact Hretry | eauto].
  - unfold tenacity.stop_after_delay.
    destruct (Nat.leb_spec (tenacity.max_delay self) delay) as [_|Hlt].
    + intros [= <- <-]. right. exists r0, w. auto.
    + apply IH.
      pose proof (wait_exponential_positive (tenacity.wait_max self) n Hmax). lia.
  - intros [= <- <-]. left. split; [exact Hretry | eauto].
Qed.

Lemma call_outcome {A} (self : tenacity.Retrying A) (fn : M A) w r w' :
  0 < tenacity.wait_max self ->
  tenacity.call self fn w = (r, w') ->
  (tenacity.retry self r = false /\ exists w0, fn w0 = (r, w')) \/
  (exists r0 w0,
     fn w0 = (r0, w') /\ tenacity.retry self r0 = true /\
     r = Raise (RetryError (tenacity.last_attempt_of r0))).
Proof.
  intros Hmax. unfold tenacity.call. apply call_from_outcome; [exact Hmax | lia].
Qed.



Lemma is_WaiterError_spec e : botocore.is_WaiterError e = true <-> e = WaiterError.
Proof. destruct e; simpl; split; congruence. Qed.

Lemma has_code_spec code e :
  botocore.has_code code e = true <-> e = ClientError code.
Proof.
  destruct e; simpl; split; try congruence.
  - intros H. apply String.eqb_eq in H. congruence.
  - intros [= ->]. apply String.eqb_refl.
Qed.

Lemma retry_if_exception_type_spec {A} (cls : exn -> bool) (r : result A) :
  tenacity.retry_if_exception_type cls r = true <-> exists e, r = Raise e /\ cls e = true.
Proof.
  destruct r as [a|e]; simpl; split.
  - discriminate.
  - intros (e & [=] & _).
  - eauto.
  - intros (e' & [= <-] & H). exact H.
Qed.

Lemma call_from_retried {A} (self : tenacity.Retrying A) fuel n delay (fn : M A)
  w r w1 :
  fn w = (r, w1) -> tenacity.retry self r = true ->
  tenacity.stop_after_delay (tenacity.max_delay self) delay = false ->
  tenacity.call_from self (S fuel) n delay fn w
  = tenacity.call_from self fuel (S n)
      (delay + tenacity.wait_exponential (tenacity.wait_max self) n) fn
      (mkWorld (remote w1) (registry w1) (calls w1)
         (slept w1 + tenacity.wait_exponential (tenacity.wait_max self) n)).
Proof. intros Hrun Hretry Hstop. rewrite call_from_unfold, Hrun, Hretry, Hstop. reflexivity. Qed.

Lemma call_from_stopped {A} (self : tenacity.Retrying A) fuel n delay (fn : M A)
  w r w1 :
  fn w = (r, w1) -> tenacity.retry self r = true ->
  tenacity.stop_after_delay (tenacity.max_delay self) delay = true ->
  tenacity.call_from self (S fuel) n delay fn w
  = (Raise (RetryError (tenacity.last_attempt_of r)), w1).
Proof. intros Hrun Hretry Hstop. rewrite call_from_unfold, Hrun, Hretry, Hstop. reflexivity. Qed.

(** The role lookup of a role the remote does not have: three attempts,
    six seconds of waiting for a budget of five, and the answer is
    [exists=False]. *)
Lemma IamRole_exists_already_absent name w :
  roles (remote w) !! name = None ->
  IamRole._exists_already name w
  = (Ok IamRole.NotExists,
     mkWorld (remote w) (registry w)
       (calls w ++ [Call.get_role name; Call.get_role name; Call.get_role name])
       (slept w + 6)).
Proof.
  intros Hnone. unfold IamRole._exists_already.
  assert (Hget : forall w1, remote w1 = remote w ->
            IAM.get_role name w1
            = (Raise (ClientError "NoSuchEntity"),
               mkWorld (remote w1) (registry w1) (calls w1 ++ [Call.get_role name])
                 (slept w1))).
  { intros w1 Hrem. unfold IAM.get_role, gateway, IAM.NoSuchEntity.
    rewrite Hrem, Hnone. rewrite <- Hrem. reflexivity. }
  erewrite catch_fail.
  2:{ apply bind_fail. unfold tenacity.call.
      change (S (tenacity.max_delay IamRole.lookup_retry)) with 6.
      erewrite call_from_retried; [| apply Hget; reflexivity | reflexivity..].
      erewrite call_from_retried; [| apply Hget; reflexivity | reflexivity..].
      erewrite call_from_stopped; [| apply Hget; reflexivity | reflexivity..].
      reflexivity. }
  cbn. rewrite <- !app_assoc. cbn. do 2 f_equal. lia.
Qed.









(** The creation of a security group stops at the lookup of the exception
    class for its retry loop: [EC2.exceptions] has no [ClientErro]. *)
Lemma SecurityGroup_create_stops_at_the_exception_class name description vpc w :
  fst (SecurityGroup._create name description vpc w)
  = Raise (AttributeError "ClientErro") \/
  exists code, fst (SecurityGroup._create name description vpc w)
               = Raise (ClientError code).
Proof.
  unfold SecurityGroup._create, bind, EC2.create_security_group, gateway.
  repeat case_match; simplify_eq; simpl; eauto.
  match goal with H : lift _ _ = _ |- _ => injection H as <- _ end. auto.
Qed.

(** ** Adoption and destruction in the registry *)

Lemma add_resource_run section id name w :
  config.add_resource section id name w
  = (Ok tt, mkWorld (remote w) (<[(section, id) := name]> (registry w)) (calls w)
              (slept w)).
Proof. reflexivity. Qed.

Lemma remove_resource_Ok section id w u w' :
  config.remove_resource section id w = (Ok u, w') ->
  registry w' !! (section, id) = None.
Proof. intros [= _ <-]. simpl. apply lookup_delete_eq. Qed.

Lemma Vpc_exists_by_id id name w r_name r_cidr r_tenancy r_id r_subnets w' :
  truthy (Some id) = true ->
  Vpc._exists_already (Some id) name w
  = (Ok (Vpc.Exists r_name r_cidr r_tenancy r_id r_subnets), w') ->
  r_id = id.
Proof.
  intros Ht. unfold Vpc._exists_already. rewrite Ht. intros H.
  inv_bind H. destruct a as [[|vpc l]|]; try discriminate.
  do 2 inv_bind H. injection H as _ _ _ <- _.
  unfold catch, bind, EC2.describe_vpcs, gateway, the in Hrun. simpl in Hrun.
  destruct (vpcs (remote w) !! id); simpl in Hrun.
  - injection Hrun as <- _ _. reflexivity.
  - discriminate.
Qed.

Lemma Vpc_clobber_Ok self w u w' :
  Vpc.clobber self w = (Ok u, w') ->
  exists w1 w2,
    for_each (Vpc.subnet_ids self) (fun subnet_id => EC2.delete_subnet subnet_id) w
    = (Ok tt, w1) /\
    EC2.delete_vpc (Vpc.vpc_id self) w1 = (Ok tt, w2) /\
    config.remove_resource "vpc" (Vpc.vpc_id self) w2 = (Ok u, w').
Proof.
  unfold Vpc.clobber, catch.
  match goal with
  | |- context [match ?body w with _ => _ end] =>
      destruct (body w) as [[u0|e] w0] eqn:Hbody
  end.
  - intros [= <- <-]. inv_bind Hbody. destruct a. inv_bind Hbody. destruct a.
    eauto.
  - destruct e; try discriminate.
    destruct (String.eqb code "DependencyViolation"); [| discriminate].
    intros H. inv_bind H. discriminate.
Qed.

(** C8: a resource adopted at construction and then destroyed has no entry
    left in the Local Registry under its identifier (a Role: under its
    name); the entry was written at the adoption and is removed by the
    successful destroy. *)
Theorem adopt_then_destroy_leaves_no_entry :
  (forall vpc_id name ipv4_cidr instance_tenancy w v w1 w2,
     Vpc.__init__ vpc_id name ipv4_cidr instance_tenancy w = (Ok v, w1) ->
     Vpc.pre_existing v = true ->
     Vpc.clobber v w1 = (Ok tt, w2) ->
     (truthy vpc_id = true -> Vpc.vpc_id v = the vpc_id) /\
     registry w1 !! ("vpc", Vpc.vpc_id v) = Some (Vpc.name v) /\
     registry w2 !! ("vpc", Vpc.vpc_id v) = None) /\
  (forall security_group_id name vpc description w sg w1 w2,
     SecurityGroup.__init__ security_group_id name vpc description w = (Ok sg, w1) ->
     SecurityGroup.pre_existing sg = true ->
     SecurityGroup.clobber sg w1 = (Ok tt, w2) ->
     SecurityGroup.security_group_id sg = the security_group_id /\
     registry w1 !! ("security-groups", SecurityGroup.security_group_id sg)
     = Some (SecurityGroup.name sg) /\
     registry w2 !! ("security-groups", SecurityGroup.security_group_id sg) = None) /\
  (forall _get_section_name tuple_of_set name description service policies
      add_instance_profile
          w role w1 role' w2,
     IamRole.__init__ _get_section_name tuple_of_set name description service policies
       add_instance_profile w = (Ok role, w1) ->
     IamRole.pre_existing role = true ->
     IamRole.clobber role w1 = (Ok role', w2) ->
     IamRole.name role = name /\
     registry w1 !! (_get_section_name "roles", name) = Some (IamRole.arn role) /\
     registry w2 !! (_get_section_name "roles", name) = None).
Proof.
  split; [| split].
  - intros vpc_id name cidr tenancy w v w1 w2 Hinit Hpre Hclobber.
    unfold Vpc.__init__ in Hinit.
    destruct (negb _); [discriminate |].
    destruct (truthy vpc_id && _); [discriminate |].
    inv_bind Hinit. destruct a as [r_name r_cidr r_tenancy r_id r_subnets|].
    + destruct (truthy cidr || truthy tenancy); [discriminate |].
      rewrite (bind_step _ _ _ _ _ (add_resource_run _ _ _ _)) in Hinit.
      injection Hinit as <- <-. simpl. split; [| split].
      * intros Ht. destruct vpc_id as [id|]; [| discriminate].
        eapply Vpc_exists_by_id; eauto.
      * apply lookup_insert_eq.
      * apply Vpc_clobber_Ok in Hclobber as (wa & wb & _ & _ & Hrm).
        apply remove_resource_Ok in Hrm. exact Hrm.
    + destruct (truthy vpc_id); [discriminate |].
      do 4 inv_bind Hinit. injection Hinit as <- _. discriminate.
  - intros sgid name vpc description w sg w1 w2 Hinit Hpre Hclobber.
    unfold SecurityGroup.__init__ in Hinit.
    destruct (negb _) eqn:Hneed; [discriminate |].
    destruct (truthy sgid && _) eqn:Hover; [discriminate |].
    destruct (SecurityGroup.vpc_truthy vpc && _); [discriminate |].
    inv_bind Hinit. destruct a as [r_name r_vpc_id r_description r_id|].
    + destruct (truthy name || SecurityGroup.vpc_truthy vpc) eqn:Hnv;
        [discriminate |].
      rewrite (bind_step _ _ _ _ _ (add_resource_run _ _ _ _)) in Hinit.
      injection Hinit as <- <-. simpl. split; [| split].
      * destruct (truthy sgid) eqn:Ht.
        -- destruct sgid as [id|]; [| discriminate].
           apply (SecurityGroup_exists_by_id id) in Hrun; [| exact Ht].
           destruct Hrun as (_ & _ & d & _ & _ & _ & _ & ->). reflexivity.
        -- apply orb_false_iff in Hnv as [Hn Hv]. rewrite Hn in Hneed.
           discriminate.
      * apply lookup_insert_eq.
      * unfold SecurityGroup.clobber in Hclobber. do 5 inv_bind Hclobber.
        apply remove_resource_Ok in Hclobber. exact Hclobber.
    + destruct (truthy sgid); [discriminate |].
      destruct vpc as [|vv|]; try discriminate.
      inv_bind Hinit. injection Hinit as <- _. discriminate.
  - intros gsn tos name description service policies flag w role w1 role' w2
      Hinit Hpre Hclobber.
    unfold IamRole.__init__ in Hinit. inv_bind Hinit.
    destruct a as [r_description r_doc r_policies r_arn|].
    + destruct (truthy description || _ || _ || _); [discriminate |].
      do 2 inv_bind Hinit.
      rewrite (bind_step _ _ _ _ _ (add_resource_run _ _ _ _)) in Hinit.
      injection Hinit as <- <-. simpl. split; [reflexivity |]. split.
      * apply lookup_insert_eq.
      * unfold IamRole.clobber in Hclobber. simpl in Hclobber.
        do 7 inv_bind Hclobber. injection Hclobber as _ <-.
        match goal with
        | H : config.remove_resource _ _ _ = _ |- _ =>
            apply remove_resource_Ok in H; exact H
        end.
    + destruct (negb _); [discriminate |].
      do 3 inv_bind Hinit. destruct (negb _); [discriminate |].
      destruct flag; [| discriminate].
      inv_bind Hinit. injection Hinit as <- _. discriminate.
Qed.

Lemma adopt_then_destroy_leaves_no_entry_witness :
  let adopted := Vpc.__init__ (Some "vpc-a") None None None Sample.world1 in
  let destroyed := Vpc.clobber Sample.vpc_a (snd adopted) in
  fst adopted = Ok Sample.vpc_a /\
  fst destroyed = Ok tt /\
  registry (snd adopted) !! ("vpc", "vpc-a") = Some "net-a" /\
  registry (snd destroyed) !! ("vpc", "vpc-a") = None.
Proof.
  intros adopted destroyed.
  assert (Ha : adopted = (Ok Sample.vpc_a, snd adopted))
    by (vm_compute; reflexivity).
  assert (Hd : destroyed = (Ok tt, snd destroyed))
    by (vm_compute; reflexivity).
  destruct adopt_then_destroy_leaves_no_entry as (Hvpc & _ & _).
  destruct (Hvpc (Some "vpc-a") None None None Sample.world1 Sample.vpc_a
              (snd adopted) (snd destroyed) Ha eq_refl Hd) as (_ & Hin & Hout).
  split; [rewrite Ha; reflexivity |].
  split; [rewrite Hd; reflexivity |].
  split; [exact Hin | exact Hout].
Defined.

(** ** Runs that depend on the remote alone *)

Lemma remote_only_ret {A} (a : A) : remote_only (ret a).
Proof. intros w1 w2 H. auto. Qed.

Lemma remote_only_raise {A} (e : exn) : remote_only (raise (A := A) e).
Proof. intros w1 w2 H. auto. Qed.

Lemma remote_only_lift {A} (r : result A) : remote_only (lift r).
Proof. intros w1 w2 H. auto. Qed.

Lemma remote_only_bind {A B} (m : M A) (k : A -> M B) :
  remote_only m -> (forall a, remote_only (k a)) -> remote_only (bind m k).
Proof.
  intros Hm Hk w1 w2 H. unfold bind. destruct (Hm w1 w2 H) as [Hr Hw].
  destruct (m w1) as [r1 x1], (m w2) as [r2 x2]. simpl in Hr, Hw. subst r2.
  destruct r1 as [a|e]; [apply Hk; exact Hw | auto].
Qed.

Lemma remote_only_catch {A} (m : M A) (h : exn -> M A) :
  remote_only m -> (forall e, remote_only (h e)) -> remote_only (catch m h).
Proof.
  intros Hm Hh w1 w2 H. unfold catch. destruct (Hm w1 w2 H) as [Hr Hw].
  destruct (m w1) as [r1 x1], (m w2) as [r2 x2]. simpl in Hr, Hw. subst r2.
  destruct r1 as [a|e]; [auto | apply Hh; exact Hw].
Qed.

Lemma remote_only_attempt_of {A} (m : M A) :
  remote_only m -> remote_only (attempt_of m).
Proof.
  intros Hm w1 w2 H. unfold attempt_of. destruct (Hm w1 w2 H) as [Hr Hw].
  destruct (m w1) as [r1 x1], (m w2) as [r2 x2]. simpl in *. subst. auto.
Qed.

Lemma remote_only_gateway {A} (c : Call.t) (f : Remote -> result A * Remote) :
  remote_only (gateway c f).
Proof.
  intros w1 w2 H. unfold gateway. rewrite H. destruct (f (remote w2)). auto.
Qed.

Lemma remote_only_sleep k : remote_only (sleep k).
Proof. intros w1 w2 H. auto. Qed.

Lemma remote_only_add_resource s i n : remote_only (config.add_resource s i n).
Proof. intros w1 w2 H. auto. Qed.

Lemma remote_only_with_remote {A B} (g : Remote -> B) (f : B -> M A) :
  (forall b, remote_only (f b)) -> remote_only (fun w => f (g (remote w)) w).
Proof. intros Hf w1 w2 H. rewrite H. apply Hf. exact H. Qed.

Lemma remote_only_for_each {A} (l : list A) (body : A -> M unit) :
  (forall x, remote_only (body x)) -> remote_only (for_each l body).
Proof.
  intros Hb. induction l as [|x l IH]; simpl.
  - apply remote_only_ret.
  - apply remote_only_bind; [apply Hb | intros _; exact IH].
Qed.

Lemma remote_only_call_from {A} (self : tenacity.Retrying A) fuel n delay
  (fn : M A) :
  remote_only fn -> remote_only (tenacity.call_from self fuel n delay fn).
Proof.
  intros Hfn. revert n delay.
  induction fuel as [|fuel IH]; intros n delay; simpl.
  - apply remote_only_raise.
  - apply remote_only_bind; [apply remote_only_attempt_of; exact Hfn |].
    intros r. destruct (tenacity.retry self r); [| apply remote_only_lift].
    destruct (tenacity.stop_after_delay _ _); [apply remote_only_raise |].
    apply remote_only_bind; [apply remote_only_sleep | intros _; apply IH].
Qed.

Lemma remote_only_call {A} (self : tenacity.Retrying A) (fn : M A) :
  remote_only fn -> remote_only (tenacity.call self fn).
Proof. apply remote_only_call_from. Qed.

(** Proves [remote_only m] along the structure of [m]. *)
Ltac remote_only_tac :=
  repeat (intros;
    match goal with
    | |- remote_only (ret _) => apply remote_only_ret
    | |- remote_only (raise _) => apply remote_only_raise
    | |- remote_only (lift _) => apply remote_only_lift
    | |- remote_only (bind _ _) => apply remote_only_bind
    | |- remote_only (catch _ _) => apply remote_only_catch
    | |- remote_only (gateway _ _) => apply remote_only_gateway
    | |- remote_only (sleep _) => apply remote_only_sleep
    | |- remote_only (config.add_resource _ _ _) => apply remote_only_add_resource
    | |- remote_only (tenacity.call _ _) => apply remote_only_call
    | |- remote_only (for_each _ _) => apply remote_only_for_each
    | |- remote_only (if ?b then _ else _) => destruct b
    | |- remote_only (match ?x with _ => _ end) => destruct x
    | |- remote_only ?m => let h := head_of m in progress unfold h
    end).

Lemma Vpc_exists_already_remote_only vpc_id name :
  remote_only (Vpc._exists_already vpc_id name).
Proof. remote_only_tac. Qed.

Lemma SecurityGroup_exists_already_remote_only security_group_id name vpc_id :
  remote_only (SecurityGroup._exists_already security_group_id name vpc_id).
Proof. remote_only_tac. Qed.

Lemma IamRole_exists_already_remote_only name :
  remote_only (IamRole._exists_already name).
Proof. remote_only_tac. Qed.

(** ** Lookups that leave the remote as it is *)

Lemma same_remote_refl w : same_remote w w.
Proof. reflexivity. Qed.

Lemma same_remote_trans w1 w2 w3 :
  same_remote w1 w2 -> same_remote w2 w3 -> same_remote w1 w3.
Proof. unfold same_remote. congruence. Qed.

Lemma keeps_remote_gateway {A} (c : Call.t) (f : Remote -> result A * Remote) :
  (forall r, snd (f r) = r) -> preserves same_remote (gateway c f).
Proof.
  intros Hf w. unfold gateway. specialize (Hf (remote w)).
  destruct (f (remote w)). exact Hf.
Qed.

Lemma keeps_remote_sleep k : preserves same_remote (sleep k).
Proof. intros w. reflexivity. Qed.

(** Proves [preserves same_remote m] for an [m] that only reads. *)
Ltac keeps_remote :=
  repeat (intros;
    match goal with
    | |- preserves _ (ret _) => apply preserves_ret, same_remote_refl
    | |- preserves _ (raise _) => apply preserves_raise, same_remote_refl
    | |- preserves _ (lift _) => apply preserves_lift, same_remote_refl
    | |- preserves _ (bind _ _) => apply (preserves_bind _ same_remote_trans)
    | |- preserves _ (catch _ _) => apply (preserves_catch _ same_remote_trans)
    | |- preserves _ (gateway _ _) =>
        apply keeps_remote_gateway; intros ?; unfold IAM.NoSuchEntity;
        repeat case_match; reflexivity
    | |- preserves _ (sleep _) => apply keeps_remote_sleep
    | |- preserves _ (tenacity.call _ _) =>
        apply (preserves_call _ same_remote_refl same_remote_trans);
        [apply keeps_remote_sleep |]
    | |- preserves _ (if ?b then _ else _) => destruct b
    | |- preserves _ (match ?x with _ => _ end) => destruct x
    | |- preserves _ ?m => let h := head_of m in progress unfold h
    end).

Lemma SecurityGroup_exists_already_keeps_remote security_group_id name vpc_id :
  preserves same_remote
    (SecurityGroup._exists_already security_group_id name vpc_id).
Proof. keeps_remote. Qed.

Lemma IamRole_exists_already_keeps_remote name :
  preserves same_remote (IamRole._exists_already name).
Proof. keeps_remote. Qed.

(** A lookup that reads only gives the same answer when it is run again,
    whatever happened to the registry, the call log and the clock. *)
Lemma read_only_lookup_again {A} (m : M A) w r w' w'' :
  remote_only m -> preserves same_remote m ->
  m w = (r, w') -> remote w'' = remote w' ->
  exists w''', m w'' = (r, w''') /\ remote w''' = remote w'.
Proof.
  intros Hro Hkeep Hrun Hrem.
  pose proof (Hkeep w) as Hsame. rewrite Hrun in Hsame. simpl in Hsame.
  unfold same_remote in Hsame.
  destruct (Hro w'' w) as [Hr Hw]; [congruence |].
  rewrite Hrun in Hr, Hw. simpl in Hr, Hw.
  exists (snd (m w'')). split; [| congruence].
  rewrite <- Hr. apply surjective_pairing.
Qed.

(** ** Tags of a resource *)

Lemma Tags_entry_default tags : default [] (Tags_entry tags) = tag_list tags.
Proof. unfold Tags_entry. destruct (tag_list tags); reflexivity. Qed.

Lemma elem_of_tag_list tags t :
  t ∈ tag_list tags <-> tags !! Key t = Some (Value t).
Proof.
  unfold tag_list. rewrite list_elem_of_fmap. split.
  - intros ([k v] & -> & H). simpl. apply elem_of_map_to_list. exact H.
  - intros H. exists (Key t, Value t). split; [destruct t; reflexivity |].
    apply elem_of_map_to_list. exact H.
Qed.

Lemma name_tag_found tags k v :
  tags !! k = Some v ->
  exists l, filter (fun d => Key d = k) (tag_list tags) = mkTag k v :: l.
Proof.
  intros Hk.
  assert (Hin : mkTag k v ∈ filter (fun d => Key d = k) (tag_list tags)).
  { apply list_elem_of_filter. split; [reflexivity |].
    apply elem_of_tag_list. exact Hk. }
  destruct (filter (fun d => Key d = k) (tag_list tags)) as [|t l] eqn:Hf.
  - inversion Hin.
  - exists l. f_equal.
    assert (Ht : t ∈ filter (fun d => Key d = k) (tag_list tags))
      by (rewrite Hf; apply elem_of_cons; auto).
    apply list_elem_of_filter in Ht as [Hkey Ht].
    apply elem_of_tag_list in Ht. rewrite Hkey, Hk in Ht.
    destruct t as [k' v']. simpl in *. congruence.
Qed.

Lemma name_tag_missing tags k :
  tags !! k = None -> filter (fun d => Key d = k) (tag_list tags) = [].
Proof.
  intros Hk. destruct (filter (fun d => Key d = k) (tag_list tags)) as [|t l] eqn:Hf;
    [reflexivity |].
  assert (Ht : t ∈ filter (fun d => Key d = k) (tag_list tags))
    by (rewrite Hf; apply elem_of_cons; auto).
  apply list_elem_of_filter in Ht as [Hkey Ht].
  apply elem_of_tag_list in Ht. congruence.
Qed.

Lemma name_tag_filter_nil tags k :
  filter (fun d => Key d = k) (tag_list tags) = [] -> tags !! k = None.
Proof.
  intros Hf. destruct (tags !! k) as [v|] eqn:Hk; [| reflexivity].
  destruct (name_tag_found tags k v Hk) as [l Hl]. congruence.
Qed.

Lemma put_owner_and_name name tags :
  put_tags (Vpc.owner_and_name name) tags !! "Name" = Some name.
Proof. unfold put_tags, Vpc.owner_and_name. simpl. apply lookup_insert_eq. Qed.

(** ** Vpc: the resolver gives the same answer when asked again *)

Lemma describe_vpcs_run id w :
  EC2.describe_vpcs id w
  = (match vpcs (remote w) !! id with
     | Some d => Ok [(id, d)]
     | None => Raise (ClientError "InvalidVpcID.NotFound")
     end,
     mkWorld (remote w) (registry w) (calls w ++ [Call.describe_vpcs id]) (slept w)).
Proof.
  unfold EC2.describe_vpcs, gateway. destruct (vpcs (remote w) !! id); reflexivity.
Qed.

(** What the first half of [Vpc._exists_already] finds. *)
Lemma Vpc_lookup_found vpc_id name w vpc l w0 :
  (if truthy vpc_id then
     catch
       (response <- EC2.describe_vpcs (the vpc_id) ;;
        ret (Some response))
       (fun e =>
          match e with
          | ClientError error_code =>
              if String.eqb error_code "InvalidVpcID.NotFound"
              then ret None
              else raise e
          | _ => raise e
          end)
   else
     response <- EC2.describe_tags (the name) ;;
     match response with
     | ResourceId :: _ =>
         response <- EC2.describe_vpcs ResourceId ;;
         ret (Some response)
     | [] => ret None
     end) w = (Ok (Some (vpc :: l)), w0) ->
  remote w0 = remote w /\
  vpcs (remote w) !! vpc.1 = Some vpc.2 /\
  (if truthy vpc_id then vpc.1 = the vpc_id
   else vpc_Tags vpc.2 !! "Name" = Some (the name)).
Proof.
  destruct (truthy vpc_id).
  - unfold catch, bind. rewrite describe_vpcs_run.
    destruct (vpcs (remote w) !! the vpc_id) as [d|] eqn:Hd; simpl.
    + intros H. simplify_eq. simpl. auto.
    + discriminate.
  - intros H. inv_bind H.
    unfold EC2.describe_tags, gateway in Hrun. injection Hrun as <- <-.
    destruct (fst <$> filter _ _) as [|rid rest] eqn:Hl; [discriminate |].
    inv_bind H. unfold ret in H. simplify_eq. rewrite describe_vpcs_run in Hrun.
    simpl in Hrun.
    assert (Hin : rid ∈ rid :: rest) by (apply elem_of_cons; auto).
    rewrite <- Hl in Hin. apply list_elem_of_fmap in Hin as ([k d] & -> & Hin).
    apply list_elem_of_filter in Hin as [Htag Hin]. simpl in Htag.
    apply elem_of_map_to_list in Hin. simpl in Hrun. rewrite Hin in Hrun.
    simplify_eq. simpl. auto.
Qed.

Lemma create_tags_vpc_run id tags w d :
  vpcs (remote w) !! id = Some d ->
  EC2.create_tags [id] tags w
  = (Ok tt,
     mkWorld (set_vpcs (alter (EC2.tag_vpc tags) id) (remote w)) (registry w)
       (calls w ++ [Call.create_tags [id] tags]) (slept w)).
Proof.
  intros Hd. unfold EC2.create_tags, gateway. simpl.
  unfold EC2.taggable, EC2.tag_resource. rewrite Hd.
  rewrite bool_decide_eq_true_2 by eauto. reflexivity.
Qed.

Lemma describe_subnets_run vpc_id w :
  EC2.describe_subnets vpc_id w
  = (Ok (filter (fun kv : string * SubnetDesc => subnet_VpcId kv.2 = vpc_id)
           (map_to_list (subnets (remote w)))),
     mkWorld (remote w) (registry w) (calls w ++ [Call.describe_subnets vpc_id])
       (slept w)).
Proof. reflexivity. Qed.

Lemma Vpc_exists_already_again vpc_id name w r_name r_cidr r_tenancy r_id r_subnets
  w' w'' :
  Vpc._exists_already vpc_id name w
  = (Ok (Vpc.Exists r_name r_cidr r_tenancy r_id r_subnets), w') ->
  remote w'' = remote w' ->
  exists w''',
    Vpc._exists_already vpc_id name w''
    = (Ok (Vpc.Exists r_name r_cidr r_tenancy r_id r_subnets), w''').
Proof.
  intros H Hrem. pose proof H as Hfirst. unfold Vpc._exists_already in H.
  inv_bind H. destruct a as [[|vpc l]|]; try discriminate.
  apply Vpc_lookup_found in Hrun as (Hrem0 & Hlook & Hkind).
  rewrite Tags_entry_default in H.
  destruct (vpc_Tags vpc.2 !! "Name") as [v|] eqn:Htag.
  - destruct (name_tag_found _ _ _ Htag) as [l' Hf]. rewrite Hf in H.
    rewrite (bind_step _ _ _ _ _ (eq_refl : ret _ w0 = (Ok _, w0))) in H.
    rewrite (bind_step _ _ _ _ _ (describe_subnets_run _ _)) in H.
    unfold ret in H. simplify_eq. simpl in Hrem.
    destruct (Vpc_exists_already_remote_only vpc_id name w'' w) as [Hr _];
      [congruence |].
    rewrite Hfirst in Hr. simpl in Hr.
    exists (snd (Vpc._exists_already vpc_id name w'')). rewrite <- Hr.
    apply surjective_pairing.
  - rewrite (name_tag_missing _ _ Htag) in H.
    destruct (truthy vpc_id) eqn:Ht; [| congruence].
    assert (Hlook0 : vpcs (remote w0) !! vpc.1 = Some vpc.2) by congruence.
    rewrite (bind_step _ _ _ "cloudknot-acquired-pre-existing-vpc"
               (mkWorld (set_vpcs (alter (EC2.tag_vpc
                  (Vpc.owner_and_name "cloudknot-acquired-pre-existing-vpc")) vpc.1)
                  (remote w0)) (registry w0)
                  (calls w0 ++ [Call.create_tags [vpc.1]
                     (Vpc.owner_and_name "cloudknot-acquired-pre-existing-vpc")])
                  (slept w0))) in H.
    2:{ erewrite bind_step; [reflexivity |].
        apply create_tags_vpc_run with (d := vpc.2). exact Hlook0. }
    rewrite (bind_step _ _ _ _ _ (describe_subnets_run _ _)) in H.
    unfold ret in H. simplify_eq. simpl in Hrem.
    unfold Vpc._exists_already. rewrite Ht.
    assert (Hnew : vpcs (remote w'') !! vpc.1
                   = Some (EC2.tag_vpc
                             (Vpc.owner_and_name "cloudknot-acquired-pre-existing-vpc")
                             vpc.2)).
    { rewrite Hrem. simpl. rewrite lookup_alter_eq, Hlook0. reflexivity. }
    erewrite bind_step.
    2:{ apply catch_step. erewrite bind_step; [reflexivity |].
        rewrite describe_vpcs_run. rewrite Hkind in Hnew. rewrite Hnew.
        reflexivity. }
    cbv beta iota. rewrite Tags_entry_default. cbn [fst snd EC2.tag_vpc vpc_Tags].
    destruct (name_tag_found _ _ _
                (put_owner_and_name "cloudknot-acquired-pre-existing-vpc"
                   (vpc_Tags vpc.2))) as [l' Hf].
    rewrite Hf. cbn [Value].
    rewrite (bind_step _ _ _ _ _ (eq_refl : ret _ _ = (Ok _, _))).
    rewrite (bind_step _ _ _ _ _ (describe_subnets_run _ _)).
    unfold ret. cbn [remote]. rewrite Hrem. cbn [remote subnets set_vpcs].
    rewrite <- Hkind. simpl. eexists. reflexivity.
Qed.

(** The one entry of a map that satisfies a predicate is what the filter
    of its listing holds. *)
Lemma filter_map_to_list_unique {A} (m : gmap string A) (P : string * A -> Prop)
  `{!forall x, Decision (P x)} k v :
  m !! k = Some v -> P (k, v) ->
  (forall k' v', m !! k' = Some v' -> P (k', v') -> k' = k) ->
  filter P (map_to_list m) = [(k, v)].
Proof.
  intros Hk HP Huniq.
  assert (Hnd : NoDup (filter P (map_to_list m)))
    by (apply NoDup_filter, NoDup_map_to_list).
  assert (Hin : (k, v) ∈ filter P (map_to_list m)).
  { apply list_elem_of_filter. split; [exact HP |].
    apply elem_of_map_to_list. exact Hk. }
  assert (Hall : forall x, x ∈ filter P (map_to_list m) -> x = (k, v)).
  { intros [k' v'] Hx. apply list_elem_of_filter in Hx as [HP' Hx].
    apply elem_of_map_to_list in Hx.
    assert (k' = k) as -> by (eapply Huniq; eassumption).
    congruence. }
  destruct (filter P (map_to_list m)) as [|x l]; [inversion Hin |].
  assert (x = (k, v)) as -> by (apply Hall; left).
  destruct l as [|y l]; [reflexivity |].
  assert (y = (k, v)) as -> by (apply Hall; right; left).
  apply NoDup_cons in Hnd as [Hnotin _]. exfalso. apply Hnotin. left.
Qed.

Lemma Vpc_exists_already_by_id id name d n w :
  truthy (Some id) = true ->
  vpcs (remote w) !! id = Some d ->
  vpc_Tags d !! "Name" = Some n ->
  Vpc._exists_already (Some id) name w
  = (Ok (Vpc.Exists n (vpc_CidrBlock d) (vpc_InstanceTenancy d) id (subnets_of w id)),
     mkWorld (remote w) (registry w)
       (calls w ++ [Call.describe_vpcs id; Call.describe_subnets id]) (slept w)).
Proof.
  intros Hid Hd Hn. unfold Vpc._exists_already. rewrite Hid.
  erewrite bind_step.
  2:{ apply catch_step. erewrite bind_step; [reflexivity |].
      rewrite describe_vpcs_run. simpl the. rewrite Hd. reflexivity. }
  cbv beta iota. rewrite Tags_entry_default. cbn [fst snd].
  destruct (name_tag_found _ _ _ Hn) as [l Hf]. rewrite Hf. cbn [Value].
  rewrite (bind_step _ _ _ _ _ (eq_refl : ret _ _ = (Ok _, _))).
  rewrite (bind_step _ _ _ _ _ (describe_subnets_run _ _)).
  unfold ret. cbn [remote registry calls slept]. rewrite <- app_assoc. reflexivity.
Qed.

Lemma Vpc_exists_already_by_name id d n w :
  truthy (Some n) = true ->
  vpcs (remote w) !! id = Some d ->
  vpc_Tags d !! "Name" = Some n ->
  (forall id' d', vpcs (remote w) !! id' = Some d' ->
                  vpc_Tags d' !! "Name" = Some n -> id' = id) ->
  Vpc._exists_already None (Some n) w
  = (Ok (Vpc.Exists n (vpc_CidrBlock d) (vpc_InstanceTenancy d) id (subnets_of w id)),
     mkWorld (remote w) (registry w)
       (calls w ++ [Call.describe_tags "vpc" "Name" n; Call.describe_vpcs id;
                    Call.describe_subnets id]) (slept w)).
Proof.
  intros Hname Hd Hn Huniq. unfold Vpc._exists_already. cbn [truthy].
  erewrite bind_step.
  2:{ erewrite bind_step.
      2:{ unfold EC2.describe_tags, gateway. simpl the.
          rewrite (filter_map_to_list_unique _ _ id d Hd Hn Huniq). reflexivity. }
      cbn [fmap list_fmap fst]. erewrite bind_step; [reflexivity |].
      rewrite describe_vpcs_run. cbn [remote]. rewrite Hd. reflexivity. }
  cbv beta iota. rewrite Tags_entry_default. cbn [fst snd].
  destruct (name_tag_found _ _ _ Hn) as [l Hf]. rewrite Hf. cbn [Value].
  rewrite (bind_step _ _ _ _ _ (eq_refl : ret _ _ = (Ok _, _))).
  rewrite (bind_step _ _ _ _ _ (describe_subnets_run _ _)).
  unfold ret. cbn [remote registry calls slept]. rewrite <- !app_assoc. reflexivity.
Qed.

(** Once a construction has adopted a resource, the same construction run
    again right after returns the same instance, for Vpc, SecurityGroup
    and IamRole. *)
Lemma adopted_instance_is_found_again :
  (forall vpc_id name ipv4_cidr instance_tenancy w v w1,
     Vpc.__init__ vpc_id name ipv4_cidr instance_tenancy w = (Ok v, w1) ->
     Vpc.pre_existing v = true ->
     exists w2, Vpc.__init__ vpc_id name ipv4_cidr instance_tenancy w1 = (Ok v, w2)) /\
  (forall security_group_id name vpc description w sg w1,
     SecurityGroup.__init__ security_group_id name vpc description w = (Ok sg, w1) ->
     SecurityGroup.pre_existing sg = true ->
     exists w2,
       SecurityGroup.__init__ security_group_id name vpc description w1
       = (Ok sg, w2)) /\
  (forall _get_section_name tuple_of_set name description service policies
      add_instance_profile
          w role w1,
     IamRole.__init__ _get_section_name tuple_of_set name description service policies
       add_instance_profile w = (Ok role, w1) ->
     IamRole.pre_existing role = true ->
     exists w2,
       IamRole.__init__ _get_section_name tuple_of_set name description service policies
         add_instance_profile w1 = (Ok role, w2)).
Proof.
  split; [| split].
  - intros vpc_id name cidr tenancy w v w1 H Hpre. unfold Vpc.__init__ in *.
    destruct (negb _); [discriminate |].
    destruct (truthy vpc_id && _); [discriminate |].
    inv_bind H. destruct a as [r_name r_cidr r_tenancy r_id r_subnets|].
    + destruct (truthy cidr || truthy tenancy) eqn:Hany; [discriminate |].
      rewrite (bind_step _ _ _ _ _ (add_resource_run _ _ _ _)) in H.
      unfold ret in H. simplify_eq.
      edestruct Vpc_exists_already_again as [w3 Hagain]; [exact Hrun | |].
      2:{ erewrite bind_step; [| exact Hagain]. cbv beta iota. try rewrite Hany.
          rewrite (bind_step _ _ _ _ _ (add_resource_run _ _ _ _)).
          eexists. reflexivity. }
      reflexivity.
    + destruct (truthy vpc_id); [discriminate |].
      do 4 inv_bind H. unfold ret in H. simplify_eq.
  - intros sgid name vpc description w sg w1 H Hpre.
    unfold SecurityGroup.__init__ in *.
    destruct (negb _); [discriminate |].
    destruct (truthy sgid && _); [discriminate |].
    destruct (SecurityGroup.vpc_truthy vpc && _); [discriminate |].
    inv_bind H. destruct a as [r_name r_vpc_id r_description r_id|].
    + destruct (truthy name || SecurityGroup.vpc_truthy vpc) eqn:Hany;
        [discriminate |].
      rewrite (bind_step _ _ _ _ _ (add_resource_run _ _ _ _)) in H.
      unfold ret in H. simplify_eq.
      edestruct (read_only_lookup_again
                   (SecurityGroup._exists_already sgid name
                      match vpc with
                      | SecurityGroup.VpcInstance v => Some (Vpc.vpc_id v)
                      | _ => None
                      end)) as (w3 & Hagain & _);
        [apply SecurityGroup_exists_already_remote_only
        | apply SecurityGroup_exists_already_keeps_remote
        | exact Hrun | | ].
      2:{ erewrite bind_step; [| exact Hagain]. cbv beta iota. try rewrite Hany.
          rewrite (bind_step _ _ _ _ _ (add_resource_run _ _ _ _)).
          eexists. reflexivity. }
      reflexivity.
    + destruct (truthy sgid); [discriminate |].
      destruct vpc as [|vv|]; try discriminate.
      inv_bind H. unfold ret in H. simplify_eq.
  - intros gsn tos name description service policies flag w role w1 H Hpre.
    unfold IamRole.__init__ in *. inv_bind H.
    destruct a as [r_description r_doc r_policies r_arn|].
    + destruct (truthy description || _ || _ || _) eqn:Hany; [discriminate |].
      do 2 inv_bind H.
      destruct (Statement_ r_doc) as [|s rest] eqn:Hdoc; [discriminate |].
      unfold ret in Hrun0. simplify_eq.
      destruct (Principal_Service a) as [svc|] eqn:Hsvc; [| discriminate].
      unfold ret in Hrun1. simplify_eq.
      rewrite (bind_step _ _ _ _ _ (add_resource_run _ _ _ _)) in H.
      unfold ret in H. simplify_eq.
      edestruct (read_only_lookup_again (IamRole._exists_already name))
        as (wz & Hagain & Hremz);
        [apply IamRole_exists_already_remote_only
        | apply IamRole_exists_already_keeps_remote
        | exact Hrun | | ].
      2:{ erewrite bind_step; [| exact Hagain]. cbv beta iota. try rewrite Hany.
          rewrite Hdoc. unfold bind at 1. unfold ret at 1. rewrite Hsvc.
          unfold bind, ret, config.add_resource. simpl. eexists. reflexivity. }
      reflexivity.
    + destruct (negb _); [discriminate |].
      do 3 inv_bind H. destruct (negb _); [discriminate |].
      destruct flag; [| discriminate].
      inv_bind H. unfold ret in H. simplify_eq.
Qed.

(** ** Constructing twice *)

(** The network a lookup by name finds: one that carries the name. *)
Lemma Vpc_exists_already_some_name id d n w :
  truthy (Some n) = true ->
  vpcs (remote w) !! id = Some d ->
  vpc_Tags d !! "Name" = Some n ->
  exists id' d',
    vpcs (remote w) !! id' = Some d' /\ vpc_Tags d' !! "Name" = Some n /\
    Vpc._exists_already None (Some n) w
    = (Ok (Vpc.Exists n (vpc_CidrBlock d') (vpc_InstanceTenancy d') id'
             (subnets_of w id')),
       mkWorld (remote w) (registry w)
         (calls w ++ [Call.describe_tags "vpc" "Name" n; Call.describe_vpcs id';
                      Call.describe_subnets id']) (slept w)).
Proof.
  intros Hname Hd Hn.
  set (found := filter (fun kv : string * VpcDesc => vpc_Tags kv.2 !! "Name" = Some n)
                  (map_to_list (vpcs (remote w)))).
  assert (Hin : (id, d) ∈ found).
  { apply list_elem_of_filter. split; [exact Hn |]. apply elem_of_map_to_list. exact Hd. }
  destruct found as [|[id' d'] rest] eqn:Hfound; [inversion Hin |].
  assert (Hfirst : (id', d') ∈ found) by (rewrite Hfound; left).
  apply list_elem_of_filter in Hfirst as [Hn' Hd']. apply elem_of_map_to_list in Hd'.
  simpl in Hn'. exists id', d'. split; [exact Hd' |]. split; [exact Hn' |].
  unfold Vpc._exists_already. cbn [truthy].
  erewrite bind_step.
  2:{ erewrite bind_step.
      2:{ unfold EC2.describe_tags, gateway. simpl the. fold found. rewrite Hfound.
          reflexivity. }
      cbn [fmap list_fmap fst]. erewrite bind_step; [reflexivity |].
      rewrite describe_vpcs_run. cbn [remote]. rewrite Hd'. reflexivity. }
  cbv beta iota. rewrite Tags_entry_default. cbn [fst snd].
  destruct (name_tag_found _ _ _ Hn') as [l Hf]. rewrite Hf. cbn [Value].
  rewrite (bind_step _ _ _ _ _ (eq_refl : ret _ _ = (Ok _, _))).
  rewrite (bind_step _ _ _ _ _ (describe_subnets_run _ _)).
  unfold ret. cbn [remote registry calls slept]. rewrite <- !app_assoc. reflexivity.
Qed.

(** The first construction from the identifier of a network that exists. *)
Lemma Vpc_adoption_by_id id w d :
  truthy (Some id) = true ->
  vpcs (remote w) !! id = Some d ->
  exists w1,
    Vpc.__init__ (Some id) None None None w
    = (Ok (Vpc.mk (default "cloudknot-acquired-pre-existing-vpc"
                     (vpc_Tags d !! "Name"))
             false true (vpc_CidrBlock d) (vpc_InstanceTenancy d) id
             (subnets_of w id)), w1) /\
    registry w1
    = <[("vpc", id) := default "cloudknot-acquired-pre-existing-vpc"
                         (vpc_Tags d !! "Name")]> (registry w).
Proof.
  intros Hid Hd. unfold Vpc.__init__. rewrite Hid. cbn [truthy negb orb andb].
  destruct (vpc_Tags d !! "Name") as [n|] eqn:Hn.
  - rewrite (bind_step _ _ _ _ _ (Vpc_exists_already_by_id id None d n w Hid Hd Hn)).
    eexists. split; reflexivity.
  - unfold Vpc._exists_already. rewrite Hid.
    erewrite bind_step.
    2:{ erewrite bind_step.
        2:{ apply catch_step. erewrite bind_step; [reflexivity |].
            rewrite describe_vpcs_run. simpl the. rewrite Hd. reflexivity. }
        cbv beta iota. rewrite Tags_entry_default. cbn [fst snd].
        rewrite (name_tag_missing _ _ Hn).
        erewrite bind_step.
        2:{ erewrite bind_step; [reflexivity |].
            apply create_tags_vpc_run with (d := d). exact Hd. }
        rewrite (bind_step _ _ _ _ _ (describe_subnets_run _ _)). reflexivity. }
    cbn [truthy orb]. eexists. split; reflexivity.
Qed.

(** The first construction from the identifier of a security group that
    exists. *)
Lemma SecurityGroup_adoption_by_id id w d :
  truthy (Some id) = true ->
  security_groups (remote w) !! id = Some d ->
  SecurityGroup.__init__ (Some id) None SecurityGroup.VpcNone None w
  = (Ok (SecurityGroup.mk (sg_GroupName d) false true None (sg_VpcId d)
           (sg_Description d) id),
     mkWorld (remote w)
       (<[("security-groups", id) := sg_GroupName d]> (registry w))
       (calls w ++ [Call.describe_security_groups_ids id]) (slept w)).
Proof.
  intros Hid Hd. unfold SecurityGroup.__init__. rewrite Hid.
  cbn [truthy negb orb andb SecurityGroup.vpc_truthy SecurityGroup.isinstance_Vpc].
  unfold SecurityGroup._exists_already. rewrite Hid.
  unfold bind, catch, EC2.describe_security_groups_ids, gateway. simpl the.
  rewrite Hd. reflexivity.
Qed.

(** The first construction from the name of a role that exists and whose
    trust policy names a service. *)
Lemma IamRole_adoption_by_name gsn tos name w d s rest svc :
  roles (remote w) !! name = Some d ->
  Statement_ (role_AssumeRolePolicyDocument d) = s :: rest ->
  Principal_Service s = Some svc ->
  IamRole.__init__ gsn tos name None None (IamRole.PoliciesSeq [])
    (IamRole.FlagBool false) w
  = (Ok (IamRole.mk name false true (default EmptyString (role_Description d)) svc
           (PolicyName <$> role_AttachedPolicies d)
           (role_AssumeRolePolicyDocument d) (role_Arn d) (gsn "roles")),
     mkWorld (remote w) (<[(gsn "roles", name) := role_Arn d]> (registry w))
       (calls w ++ [Call.get_role name; Call.list_attached_role_policies name])
       (slept w)).
Proof.
  intros Hd Hdoc Hsvc. unfold IamRole.__init__.
  rewrite (bind_step _ _ _ _ _ (IamRole_exists_already_found name w d Hd)).
  cbn [truthy IamRole.policies_truthy IamRole.flag_truthy orb].
  rewrite Hdoc. rewrite (bind_step _ _ _ _ _ (eq_refl : ret s _ = (Ok s, _))).
  rewrite Hsvc. reflexivity.
Qed.

(** C1: for a network, a security group or a role that the remote has, a
    controller constructed from identification parameters only (the
    identifier or the name of a network, the identifier of a security
    group, the name of a role whose trust policy names a service) and
    constructed a second time right after succeeds both times, and the two
    constructions return the same instance: the attributes the remote
    records for the resource, with [pre_existing] set; the registry holds
    the entry of the resource after the first construction. *)
Theorem adoption_is_idempotent :
  (forall id w d,
     truthy (Some id) = true ->
     vpcs (remote w) !! id = Some d ->
     let v :=
       Vpc.mk (default "cloudknot-acquired-pre-existing-vpc" (vpc_Tags d !! "Name"))
         false true (vpc_CidrBlock d) (vpc_InstanceTenancy d) id (subnets_of w id) in
     exists w1 w2,
       Vpc.__init__ (Some id) None None None w = (Ok v, w1) /\
       Vpc.__init__ (Some id) None None None w1 = (Ok v, w2) /\
       registry w1 !! ("vpc", id) = Some (Vpc.name v)) /\
  (forall name w id d,
     truthy (Some name) = true ->
     vpcs (remote w) !! id = Some d ->
     vpc_Tags d !! "Name" = Some name ->
     exists id' d' w1 w2,
       vpcs (remote w) !! id' = Some d' /\
       vpc_Tags d' !! "Name" = Some name /\
       let v :=
         Vpc.mk name false true (vpc_CidrBlock d') (vpc_InstanceTenancy d') id'
           (subnets_of w id') in
       Vpc.__init__ None (Some name) None None w = (Ok v, w1) /\
       Vpc.__init__ None (Some name) None None w1 = (Ok v, w2) /\
       registry w1 !! ("vpc", id') = Some name) /\
  (forall id w d,
     truthy (Some id) = true ->
     security_groups (remote w) !! id = Some d ->
     let sg :=
       SecurityGroup.mk (sg_GroupName d) false true None (sg_VpcId d)
         (sg_Description d) id in
     exists w1 w2,
       SecurityGroup.__init__ (Some id) None SecurityGroup.VpcNone None w
       = (Ok sg, w1) /\
       SecurityGroup.__init__ (Some id) None SecurityGroup.VpcNone None w1
       = (Ok sg, w2) /\
       registry w1 !! ("security-groups", id) = Some (sg_GroupName d)) /\
  (forall _get_section_name tuple_of_set name w d s rest service,
     roles (remote w) !! name = Some d ->
     Statement_ (role_AssumeRolePolicyDocument d) = s :: rest ->
     Principal_Service s = Some service ->
     let role :=
       IamRole.mk name false true (default EmptyString (role_Description d)) service
         (PolicyName <$> role_AttachedPolicies d) (role_AssumeRolePolicyDocument d)
         (role_Arn d) (_get_section_name "roles") in
     exists w1 w2,
       IamRole.__init__ _get_section_name tuple_of_set name None None
         (IamRole.PoliciesSeq []) (IamRole.FlagBool false) w = (Ok role, w1) /\
       IamRole.__init__ _get_section_name tuple_of_set name None None
         (IamRole.PoliciesSeq []) (IamRole.FlagBool false) w1 = (Ok role, w2) /\
       registry w1 !! (_get_section_name "roles", name) = Some (role_Arn d)).
Proof.
  destruct adopted_instance_is_found_again as (Hvpc & Hsg & Hrole).
  split; [| split; [| split]].
  - intros id w d Hid Hd v.
    destruct (Vpc_adoption_by_id id w d Hid Hd) as (w1 & Hfirst & Hreg).
    destruct (Hvpc _ _ _ _ _ _ _ Hfirst eq_refl) as [w2 Hsecond].
    exists w1, w2. split; [exact Hfirst |]. split; [exact Hsecond |].
    rewrite Hreg. apply lookup_insert_eq.
  - intros name w id d Hname Hd Hn.
    destruct (Vpc_exists_already_some_name id d name w Hname Hd Hn)
      as (id' & d' & Hd' & Hn' & Hlookup).
    assert (Hfirst : exists w1,
              Vpc.__init__ None (Some name) None None w
              = (Ok (Vpc.mk name false true (vpc_CidrBlock d') (vpc_InstanceTenancy d')
                       id' (subnets_of w id')), w1)
              /\ registry w1 = <[("vpc", id') := name]> (registry w)).
    { unfold Vpc.__init__. rewrite Hname. cbn [truthy negb orb andb].
      rewrite (bind_step _ _ _ _ _ Hlookup). eexists. split; reflexivity. }
    destruct Hfirst as (w1 & Hfirst & Hreg).
    destruct (Hvpc _ _ _ _ _ _ _ Hfirst eq_refl) as [w2 Hsecond].
    exists id', d', w1, w2. split; [exact Hd' |]. split; [exact Hn' |].
    cbv zeta. split; [exact Hfirst |]. split; [exact Hsecond |].
    rewrite Hreg. apply lookup_insert_eq.
  - intros id w d Hid Hd sg.
    pose proof (SecurityGroup_adoption_by_id id w d Hid Hd) as Hfirst.
    destruct (Hsg _ _ _ _ _ _ _ Hfirst eq_refl) as [w2 Hsecond].
    eexists _, w2. split; [exact Hfirst |]. split; [exact Hsecond |].
    apply lookup_insert_eq.
  - intros gsn tos name w d s rest svc Hd Hdoc Hsvc role.
    pose proof (IamRole_adoption_by_name gsn tos name w d s rest svc Hd Hdoc Hsvc)
      as Hfirst.
    destruct (Hrole _ _ _ _ _ _ _ _ _ _ Hfirst eq_refl) as [w2 Hsecond].
    eexists _, w2. split; [exact Hfirst |]. split; [exact Hsecond |].
    apply lookup_insert_eq.
Qed.

Lemma adoption_is_idempotent_witness :
  (exists w1 w2,
     Vpc.__init__ (Some "vpc-a") None None None Sample.world0
     = (Ok Sample.vpc_a, w1) /\
     Vpc.__init__ (Some "vpc-a") None None None w1 = (Ok Sample.vpc_a, w2)) /\
  (exists w1 w2,
     Vpc.__init__ (Some "vpc-u") None None None Cases.untagged
     = (Ok (Vpc.mk "cloudknot-acquired-pre-existing-vpc" false true
              (mkNet 167772160 24) "dedicated" "vpc-u" []), w1) /\
     Vpc.__init__ (Some "vpc-u") None None None w1
     = (Ok (Vpc.mk "cloudknot-acquired-pre-existing-vpc" false true
              (mkNet 167772160 24) "dedicated" "vpc-u" []), w2)) /\
  (exists w1 w2,
     Vpc.__init__ None (Some "net-a") None None Sample.world0
     = (Ok Sample.vpc_a, w1) /\
     Vpc.__init__ None (Some "net-a") None None w1 = (Ok Sample.vpc_a, w2)) /\
  (exists w1 w2,
     SecurityGroup.__init__ (Some "sg-a") None SecurityGroup.VpcNone None
       Sample.world0 = (Ok Sample.sg_a, w1) /\
     SecurityGroup.__init__ (Some "sg-a") None SecurityGroup.VpcNone None w1
     = (Ok Sample.sg_a, w2)) /\
  (exists w1 w2,
     IamRole.__init__ id Sample.tuple_of_set "role-a" None None
       (IamRole.PoliciesSeq []) (IamRole.FlagBool false) Sample.world0
     = (Ok Sample.role_a, w1) /\
     IamRole.__init__ id Sample.tuple_of_set "role-a" None None
       (IamRole.PoliciesSeq []) (IamRole.FlagBool false) w1
     = (Ok Sample.role_a, w2)).
Proof.
  destruct adoption_is_idempotent as (Hvpc & Hname & Hsg & Hrole).
  set (d := mkVpcDesc (mkNet 167772160 16) "default" {[ "Name" := "net-a" ]}).
  assert (Hd : vpcs (remote Sample.world0) !! "vpc-a" = Some d)
    by (vm_compute; reflexivity).
  split; [| split; [| split; [| split]]].
  - destruct (Hvpc "vpc-a" Sample.world0 d eq_refl Hd) as (w1 & w2 & H1 & H2 & _).
    exists w1, w2. split; [exact H1 | exact H2].
  - destruct (Hvpc "vpc-u" Cases.untagged
                (mkVpcDesc (mkNet 167772160 24) "dedicated" ∅) eq_refl)
      as (w1 & w2 & H1 & H2 & _).
    { vm_compute. reflexivity. }
    exists w1, w2. split; [exact H1 | exact H2].
  - destruct (Hname "net-a" Sample.world0 "vpc-a" d eq_refl Hd eq_refl)
      as (id' & d' & w1 & w2 & Hd' & _ & H1 & H2 & _).
    unfold Sample.world0, Sample.remote0 in Hd'. cbn [remote vpcs] in Hd'.
    apply lookup_singleton_Some in Hd' as [<- <-].
    exists w1, w2. split; [exact H1 | exact H2].
  - destruct (Hsg "sg-a" Sample.world0
                (mkSecurityGroupDesc "group-a" "vpc-a" "a group" [] ∅) eq_refl)
      as (w1 & w2 & H1 & H2 & _).
    { vm_compute. reflexivity. }
    exists w1, w2. split; [exact H1 | exact H2].
  - destruct (Hrole id Sample.tuple_of_set "role-a" Sample.world0
                (mkRoleDesc "arn:aws:iam::role/role-a"
                   (mkPolicyDocument
                      [mkStatement "Allow" (Some "ec2.amazonaws.com")
                         "sts:AssumeRole"])
                   None [mkPolicyDesc "P" "arn:P"])
                (mkStatement "Allow" (Some "ec2.amazonaws.com") "sts:AssumeRole")
                [] "ec2.amazonaws.com")
      as (w1 & w2 & H1 & H2 & _).
    { vm_compute. reflexivity. }
    { reflexivity. }
    { reflexivity. }
    exists w1, w2. split; [exact H1 | exact H2].
Defined.

(** ** Destroying a network and its security group *)

Lemma existsb_false_elem {A} (f : A -> bool) (l : list A) x :
  existsb f l = false -> x ∈ l -> f x = false.
Proof.
  intros Hf Hx. destruct (f x) eqn:Hfx; [| reflexivity].
  assert (existsb f l = true) as Ht; [| congruence].
  apply existsb_exists. exists x. split; [| exact Hfx].
  apply list_elem_of_In. exact Hx.
Qed.

Lemma existsb_true_elem {A} (f : A -> bool) (l : list A) x :
  x ∈ l -> f x = true -> existsb f l = true.
Proof.
  intros Hx Hfx. apply existsb_exists. exists x. split; [| exact Hfx].
  apply list_elem_of_In. exact Hx.
Qed.

Lemma existsb_false_intro {A} (f : A -> bool) (l : list A) :
  (forall x, x ∈ l -> f x = false) -> existsb f l = false.
Proof.
  intros H. destruct (existsb f l) eqn:He; [| reflexivity].
  apply existsb_exists in He. destruct He as (x & Hx & Hfx).
  apply list_elem_of_In in Hx. rewrite (H x Hx) in Hfx. discriminate.
Qed.

(** The subnets of the list are deleted one after the other; nothing else
    of the remote and nothing of the registry changes. *)
Lemma delete_subnets_run (l : list string) : forall w,
  NoDup l ->
  (forall id, id ∈ l -> is_Some (subnets (remote w) !! id)) ->
  exists w',
    for_each l (fun subnet_id => EC2.delete_subnet subnet_id) w = (Ok tt, w') /\
    registry w' = registry w /\
    vpcs (remote w') = vpcs (remote w) /\
    security_groups (remote w') = security_groups (remote w) /\
    instances (remote w') = instances (remote w) /\
    (forall id, subnets (remote w') !! id
                = if decide (id ∈ l) then None else subnets (remote w) !! id).
Proof.
  induction l as [|x l IH]; intros w Hnd Hall.
  - exists w. simpl. unfold ret. repeat split; reflexivity.
  - apply NoDup_cons in Hnd. destruct Hnd as [Hx Hnd].
    destruct (Hall x) as [d Hd]; [left |].
    set (w1 := mkWorld (set_subnets (delete x) (remote w)) (registry w)
                 (calls w ++ [Call.delete_subnet x]) (slept w)).
    assert (Hrun : EC2.delete_subnet x w = (Ok tt, w1)).
    { unfold EC2.delete_subnet, gateway. rewrite Hd. reflexivity. }
    destruct (IH w1 Hnd) as (w' & Hrest & Hreg & Hv & Hsg & Hi & Hsub).
    { intros id Hid. simpl. rewrite lookup_delete_ne; [apply Hall; right; exact Hid |].
      intros ->. contradiction. }
    exists w'. simpl. rewrite (bind_step _ _ _ _ _ Hrun). split; [exact Hrest |].
    repeat split; try assumption.
    intros id. rewrite Hsub. simpl.
    destruct (decide (id ∈ l)) as [Hin|Hin].
    + rewrite decide_True; [reflexivity | right; exact Hin].
    + destruct (decide (id = x)) as [->|Hne].
      * rewrite decide_True; [| left]. apply lookup_delete_eq.
      * rewrite decide_False; [apply lookup_delete_ne; congruence |].
        intros Hc. apply elem_of_cons in Hc. destruct Hc; contradiction.
Qed.

(** A security group of the network keeps it in use. *)
Lemma vpc_in_use_security_group r vpc_id sgid d :
  security_groups r !! sgid = Some d ->
  sg_VpcId d = vpc_id ->
  EC2.vpc_in_use r vpc_id = true.
Proof.
  intros Hd Hv. unfold EC2.vpc_in_use.
  rewrite (existsb_true_elem _ (map_to_list (security_groups r)) (sgid, d)).
  - rewrite orb_true_r. reflexivity.
  - apply elem_of_map_to_list. exact Hd.
  - simpl. rewrite Hv. apply String.eqb_refl.
Qed.

(** The instances of the reservations that use the group, when none does. *)
Lemma no_dependent_instances (P : string * InstanceDesc -> Prop)
  `{!forall i, Decision (P i)} (l : list (string * InstanceDesc)) : forall acc,
  (forall i, i ∈ l -> ~ P i) ->
  foldl (fun deps r => (deps ++ (fst <$> filter P r))%list) acc
    ((fun kv => [kv]) <$> l) = acc.
Proof.
  induction l as [|i l IH]; intros acc Hl; [reflexivity |].
  simpl. rewrite filter_cons_False; [| apply Hl; left].
  rewrite filter_nil. simpl. rewrite app_nil_r. apply IH.
  intros j Hj. apply Hl. right. exact Hj.
Qed.

Lemma filter_none {A} (P : A -> Prop) `{!forall x, Decision (P x)} (l : list A) :
  (forall x, x ∈ l -> ~ P x) -> filter P l = [].
Proof.
  induction l as [|x l IH]; intros Hl; [reflexivity |].
  rewrite filter_cons_False; [| apply Hl; left].
  apply IH. intros y Hy. apply Hl. right. exact Hy.
Qed.

(** Destroying a security group that exists and that neither an instance
    nor a compute environment uses. *)
Lemma SecurityGroup_clobber_unused sg w d :
  security_groups (remote w) !! SecurityGroup.security_group_id sg = Some d ->
  EC2.security_group_in_use (remote w) (SecurityGroup.security_group_id sg) = false ->
  exists w1,
    SecurityGroup.clobber sg w = (Ok tt, w1) /\
    remote w1
    = set_security_groups (delete (SecurityGroup.security_group_id sg)) (remote w) /\
    registry w1
    = delete ("security-groups", SecurityGroup.security_group_id sg) (registry w).
Proof.
  intros Hd Huse. unfold EC2.security_group_in_use in Huse.
  apply orb_false_elim in Huse. destruct Huse as [Hinst Hce].
  unfold SecurityGroup.clobber.
  erewrite bind_step; [| reflexivity].
  rewrite no_dependent_instances.
  2:{ intros i Hi. apply list_elem_of_filter in Hi. destruct Hi as [_ Hi].
      unfold SecurityGroup.has_security_group.
      rewrite (existsb_false_elem _ _ _ Hinst Hi). discriminate. }
  erewrite bind_step; [| reflexivity].
  erewrite bind_step; [| reflexivity].
  rewrite filter_none.
  2:{ intros ce Hin Hce'. apply (existsb_false_elem _ _ _ Hce) in Hin.
      apply bool_decide_eq_false in Hin. contradiction. }
  simpl for_each.
  erewrite bind_step; [| reflexivity].
  erewrite bind_step.
  2:{ apply catch_step. unfold EC2.delete_security_group, gateway. simpl.
      rewrite Hd. unfold EC2.security_group_in_use. simpl.
      rewrite Hinst, Hce. reflexivity. }
  eexists. split; [reflexivity |]. split; reflexivity.
Qed.

(** C5: destroying a Network that still has a SecurityGroup attached (the
    Network and the subnets it lists exist, so that the remote delete of
    the Network is reached and answers with a dependency violation) fails
    with the not-deletable error, whose list of dependents contains the
    identifier of that SecurityGroup, and leaves the registry as it was;
    when the SecurityGroup is the only dependent of the Network and is
    itself unused, destroying the SecurityGroup first and the Network next
    succeeds, and neither is left on the remote. *)
Theorem network_with_security_group_is_not_deletable :
  (forall v w sgid d,
     is_Some (vpcs (remote w) !! Vpc.vpc_id v) ->
     NoDup (Vpc.subnet_ids v) ->
     (forall id, id ∈ Vpc.subnet_ids v -> is_Some (subnets (remote w) !! id)) ->
     security_groups (remote w) !! sgid = Some d ->
     sg_VpcId d = Vpc.vpc_id v ->
     exists ids w',
       Vpc.clobber v w = (Raise (CannotDeleteResourceException ids), w') /\
       sgid ∈ ids /\
       registry w' = registry w /\
       is_Some (vpcs (remote w') !! Vpc.vpc_id v)) /\
  (forall v sg w d,
     is_Some (vpcs (remote w) !! Vpc.vpc_id v) ->
     NoDup (Vpc.subnet_ids v) ->
     (forall id, id ∈ Vpc.subnet_ids v -> is_Some (subnets (remote w) !! id)) ->
     (forall id sd, subnets (remote w) !! id = Some sd ->
                    subnet_VpcId sd = Vpc.vpc_id v -> id ∈ Vpc.subnet_ids v) ->
     security_groups (remote w) !! SecurityGroup.security_group_id sg = Some d ->
     sg_VpcId d = Vpc.vpc_id v ->
     (forall id d', security_groups (remote w) !! id = Some d' ->
                    sg_VpcId d' = Vpc.vpc_id v ->
                    id = SecurityGroup.security_group_id sg) ->
     (forall id i, instances (remote w) !! id = Some i ->
                   inst_VpcId i <> Vpc.vpc_id v) ->
     EC2.security_group_in_use (remote w) (SecurityGroup.security_group_id sg)
     = false ->
     exists w1 w2,
       SecurityGroup.clobber sg w = (Ok tt, w1) /\
       Vpc.clobber v w1 = (Ok tt, w2) /\
       security_groups (remote w2) !! SecurityGroup.security_group_id sg = None /\
       vpcs (remote w2) !! Vpc.vpc_id v = None).
Proof.
  split.
  - intros v w sgid d [vd Hvpc] Hnd Hsub Hsg Hattached.
    destruct (delete_subnets_run _ w Hnd Hsub)
      as (w1 & Hrun & Hreg & Hv & Hs & _ & _).
    set (w2 := mkWorld (remote w1) (registry w1)
                 (calls w1 ++ [Call.delete_vpc (Vpc.vpc_id v)]) (slept w1)).
    assert (Hdel : EC2.delete_vpc (Vpc.vpc_id v) w1
                   = (Raise (ClientError "DependencyViolation"), w2)).
    { unfold EC2.delete_vpc, gateway. rewrite Hv, Hvpc.
      rewrite (vpc_in_use_security_group _ _ sgid d); [reflexivity | | exact Hattached].
      rewrite Hs. exact Hsg. }
    unfold Vpc.clobber. erewrite catch_fail.
    2:{ rewrite (bind_step _ _ _ _ _ Hrun). apply bind_fail. exact Hdel. }
    simpl. erewrite bind_step; [| reflexivity].
    eexists _, _. split; [reflexivity |]. simpl. split; [| split].
    + apply list_elem_of_fmap. exists (sgid, d). split; [reflexivity |].
      apply list_elem_of_filter. split; [exact Hattached |].
      apply elem_of_map_to_list. rewrite Hs. exact Hsg.
    + exact Hreg.
    + rewrite Hv, Hvpc. eauto.
  - intros v sg w d [vd Hvpc] Hnd Hsub Hall Hsg Hattached Honly Hinst Huse.
    destruct (SecurityGroup_clobber_unused sg w d Hsg Huse) as (w1 & Hrun1 & Hrem & _).
    exists w1.
    destruct (delete_subnets_run _ w1 Hnd) as (w2 & Hrun & _ & Hv & Hs & Hi & Hleft).
    { rewrite Hrem. exact Hsub. }
    assert (Huse2 : EC2.vpc_in_use (remote w2) (Vpc.vpc_id v) = false).
    { unfold EC2.vpc_in_use. rewrite !existsb_false_intro; [reflexivity | | |].
      - intros [id i] Hin. apply elem_of_map_to_list in Hin. simpl.
        rewrite Hi, Hrem in Hin. simpl in Hin.
        apply String.eqb_neq. eapply Hinst. exact Hin.
      - intros [id d'] Hin. apply elem_of_map_to_list in Hin. simpl.
        rewrite Hs, Hrem in Hin. simpl in Hin.
        apply String.eqb_neq. intros Hd'.
        destruct (decide (id = SecurityGroup.security_group_id sg)) as [->|Hne].
        + rewrite lookup_delete_eq in Hin. discriminate.
        + rewrite lookup_delete_ne in Hin by congruence.
          apply Hne. eapply Honly; eassumption.
      - intros [id sd] Hin. apply elem_of_map_to_list in Hin. simpl.
        rewrite Hleft in Hin. apply String.eqb_neq. intros Hsd.
        destruct (decide (id ∈ Vpc.subnet_ids v)) as [_|Hout]; [discriminate |].
        apply Hout. rewrite Hrem in Hin. simpl in Hin. eapply Hall; eassumption. }
    eexists. split; [exact Hrun1 |].
    unfold Vpc.clobber. erewrite catch_step.
    2:{ rewrite (bind_step _ _ _ _ _ Hrun). erewrite bind_step.
        2:{ unfold EC2.delete_vpc, gateway. rewrite Hv, Hrem. simpl.
            rewrite Hvpc. rewrite Huse2. reflexivity. }
        reflexivity. }
    split; [reflexivity |]. simpl. rewrite Hs, Hrem. simpl.
    split; apply lookup_delete_eq.
Qed.

Lemma network_with_security_group_is_not_deletable_witness :
  (exists ids w',
     Vpc.clobber Sample.vpc_a Sample.world0
     = (Raise (CannotDeleteResourceException ids), w') /\
     "sg-a" ∈ ids /\
     registry w' = registry Sample.world0 /\
     is_Some (vpcs (remote w') !! "vpc-a")) /\
  (exists w1 w2,
     SecurityGroup.clobber Sample.sg_a Sample.world0 = (Ok tt, w1) /\
     Vpc.clobber Sample.vpc_a w1 = (Ok tt, w2) /\
     security_groups (remote w2) !! "sg-a" = None /\
     vpcs (remote w2) !! "vpc-a" = None).
Proof.
  destruct network_with_security_group_is_not_deletable as [Hfails Hsucceeds].
  assert (Hvpc : is_Some (vpcs (remote Sample.world0) !! Vpc.vpc_id Sample.vpc_a))
    by (eexists; vm_compute; reflexivity).
  assert (Hnd : NoDup (Vpc.subnet_ids Sample.vpc_a))
    by (apply NoDup_singleton).
  assert (Hsub : forall id, id ∈ Vpc.subnet_ids Sample.vpc_a ->
                            is_Some (subnets (remote Sample.world0) !! id)).
  { intros id Hid. apply list_elem_of_singleton in Hid. subst id.
    eexists. vm_compute. reflexivity. }
  set (d := mkSecurityGroupDesc "group-a" "vpc-a" "a group" [] ∅).
  assert (Hsg : security_groups (remote Sample.world0) !! "sg-a" = Some d)
    by (vm_compute; reflexivity).
  split.
  - exact (Hfails Sample.vpc_a Sample.world0 "sg-a" d Hvpc Hnd Hsub Hsg eq_refl).
  - apply (Hsucceeds Sample.vpc_a Sample.sg_a Sample.world0 d Hvpc Hnd Hsub).
    + intros id sd Hin _. cbn [Sample.world0 Sample.remote0 remote subnets] in Hin.
      unfold Sample.world0, Sample.remote0 in Hin. cbn [remote subnets] in Hin.
      apply lookup_singleton_Some in Hin. destruct Hin as [<- _].
      left.
    + exact Hsg.
    + reflexivity.
    + intros id d' Hin _.
      unfold Sample.world0, Sample.remote0 in Hin. cbn [remote security_groups] in Hin.
      apply lookup_singleton_Some in Hin. destruct Hin as [<- _].
      reflexivity.
    + intros id i Hin. simpl in Hin. rewrite lookup_empty in Hin. discriminate.
    + vm_compute. reflexivity.
Defined.

(** ** The arithmetic of [ipaddress] *)

Section Blocks.
Import ipaddress.
Local Open Scope Z_scope.

Lemma hostmask_ones (self : IPv4Network) :
  0 <= prefixlen self <= 32 ->
  hostmask self = 2 ^ (32 - prefixlen self) - 1.
Proof.
  intros Hp. unfold hostmask, netmask.
  rewrite (Z.lxor_comm _ALL_ONES), Z.lxor_assoc, Z.lxor_nilpotent, Z.lxor_0_r.
  destruct self as [a p]. simpl in *.
  assert (Hn : p = Z.of_nat (Z.to_nat p)) by lia.
  assert (Hle : (Z.to_nat p <= 32)%nat) by lia.
  revert Hn Hle. generalize (Z.to_nat p). intros n -> Hle.
  do 33 (destruct n as [|n]; [vm_compute; reflexivity |]).
  lia.
Qed.

Lemma broadcast_address_sum (self : IPv4Network) :
  well_formed self ->
  broadcast_address self = network_address self + 2 ^ (32 - prefixlen self) - 1.
Proof.
  intros (Hp & Ha & Hmod). unfold broadcast_address.
  rewrite (hostmask_ones _ Hp).
  pose proof (Z.add_lor_land (network_address self) (2 ^ (32 - prefixlen self) - 1))
    as Hadd.
  assert (Hland : Z.land (network_address self) (2 ^ (32 - prefixlen self) - 1) = 0).
  { replace (2 ^ (32 - prefixlen self) - 1) with (Z.ones (32 - prefixlen self))
      by (rewrite Z.ones_equiv; apply Z.sub_1_r).
    rewrite Z.land_ones by lia. exact Hmod. }
  rewrite Hland in Hadd. lia.
Qed.

Lemma num_addresses_pow2 (self : IPv4Network) :
  well_formed self -> num_addresses self = 2 ^ (32 - prefixlen self).
Proof.
  intros Hwf. unfold num_addresses. rewrite (broadcast_address_sum _ Hwf). lia.
Qed.

Lemma range_upwards start stop step :
  0 < step ->
  range start stop step
  = Ok (map (fun i : nat => start + Z.of_nat i * step)
          (seq 0 (Z.to_nat ((stop - start + step - 1) / step)))).
Proof.
  intros Hs. unfold range.
  destruct (Z.eqb_spec step 0) as [->|_]; [lia |].
  destruct (Z.ltb_spec 0 step) as [_|]; [reflexivity | lia].
Qed.

(** [subnets] enumerates the whole partition, from the network address
    upwards. *)
Lemma subnets_partition (self : IPv4Network) (k : Z) :
  well_formed self -> 0 <= k -> prefixlen self + k <= 32 ->
  subnets self k
  = Ok (map (partition_block self k) (seq 0 (Z.to_nat (2 ^ k)))).
Proof.
  intros Hwf Hk Hpk. pose proof Hwf as (Hp & Ha & Hmod). unfold subnets, _max_prefixlen.
  destruct (Z.eqb_spec (prefixlen self) 32) as [H32|Hne].
  - assert (k = 0) as -> by lia. destruct self as [a p]. simpl in *. subst p.
    unfold partition_block. simpl. do 3 f_equal. lia.
  - destruct (Z.ltb_spec k 0) as [|_]; [lia |].
    destruct (Z.ltb_spec 32 (prefixlen self + k)) as [|_]; [lia |].
    rewrite (broadcast_address_sum _ Hwf), (hostmask_ones _ Hp).
    set (s := 2 ^ (32 - prefixlen self - k)).
    assert (Hs : 0 < s) by (apply Z.pow_pos_nonneg; lia).
    assert (Hsplit : 2 ^ (32 - prefixlen self) = 2 ^ k * s).
    { unfold s. rewrite <- Z.pow_add_r by lia. f_equal. lia. }
    assert (Hstep : Z.shiftr (2 ^ (32 - prefixlen self) - 1 + 1) k = s).
    { rewrite Z.shiftr_div_pow2 by lia. rewrite Z.sub_add, Hsplit.
      rewrite Z.mul_comm. apply Z.div_mul. apply Z.pow_nonzero; lia. }
    rewrite Hstep, (range_upwards _ _ _ Hs).
    replace ((network_address self + 2 ^ (32 - prefixlen self) - 1 + 1
              - network_address self + s - 1) / s) with (2 ^ k).
    2:{ rewrite Hsplit.
        replace (network_address self + 2 ^ k * s - 1 + 1 - network_address self
                 + s - 1) with (2 ^ k * s + (s - 1)) by lia.
        rewrite Z.div_add_l by lia. rewrite Z.div_small by lia. lia. }
    rewrite map_map. reflexivity.
Qed.

(** What [ceil(log2(n))] is worth, for a positive [n] that the block can
    cover. *)
Lemma ceil_log2_bounds (self : IPv4Network) (n : nat) :
  well_formed self -> (1 <= n)%nat -> Z.of_nat n <= num_addresses self ->
  0 <= Z.log2_up (Z.of_nat n)
  /\ prefixlen self + Z.log2_up (Z.of_nat n) <= 32
  /\ Z.of_nat n <= 2 ^ Z.log2_up (Z.of_nat n).
Proof.
  intros Hwf Hn Hle. rewrite (num_addresses_pow2 _ Hwf) in Hle.
  split; [apply Z.log2_up_nonneg |]. split.
  - apply Z.log2_up_le_pow2 in Hle; lia.
  - apply Z.log2_log2_up_spec. lia.
Qed.

(** The blocks of the partition are networks in their own right. *)
Lemma partition_block_well_formed (self : IPv4Network) (k : Z) (i : nat) :
  well_formed self -> 0 <= k -> prefixlen self + k <= 32 -> Z.of_nat i < 2 ^ k ->
  well_formed (partition_block self k i).
Proof.
  intros (Hp & Ha & Hmod) Hk Hpk Hi. unfold well_formed, partition_block. simpl.
  replace (32 - (prefixlen self + k)) with (32 - prefixlen self - k) by lia.
  set (s := 2 ^ (32 - prefixlen self - k)).
  assert (Hs : 0 < s) by (apply Z.pow_pos_nonneg; lia).
  assert (Hsplit : 2 ^ (32 - prefixlen self) = 2 ^ k * s).
  { unfold s. rewrite <- Z.pow_add_r by lia. f_equal. lia. }
  assert (Hwhole : 2 ^ 32 = 2 ^ prefixlen self * 2 ^ (32 - prefixlen self)).
  { rewrite <- Z.pow_add_r by lia. f_equal. lia. }
  assert (Hk2 : 0 < 2 ^ k) by (apply Z.pow_pos_nonneg; lia).
  assert (Hp2 : 0 < 2 ^ prefixlen self) by (apply Z.pow_pos_nonneg; lia).
  apply Z.mod_divide in Hmod; [| lia]. destruct Hmod as [q Hq].
  rewrite Hsplit in Hq, Hwhole.
  split; [lia |]. split.
  - split; [nia |].
    assert (q < 2 ^ prefixlen self) by nia.
    assert (Z.of_nat i + 1 <= 2 ^ k) by lia.
    assert (q + 1 <= 2 ^ prefixlen self) by lia.
    nia.
  - rewrite Hq. replace (q * (2 ^ k * s) + Z.of_nat i * s)
      with ((q * 2 ^ k + Z.of_nat i) * s) by ring.
    apply Z.mod_mul. lia.
Qed.

Lemma partition_block_addresses (self : IPv4Network) (k : Z) (i : nat) x :
  well_formed self -> 0 <= k -> prefixlen self + k <= 32 -> Z.of_nat i < 2 ^ k ->
  contains_address (partition_block self k i) x
  <-> network_address self + Z.of_nat i * 2 ^ (32 - prefixlen self - k) <= x
      < network_address self + (Z.of_nat i + 1) * 2 ^ (32 - prefixlen self - k).
Proof.
  intros Hwf Hk Hpk Hi. unfold contains_address.
  rewrite (broadcast_address_sum _ (partition_block_well_formed _ _ _ Hwf Hk Hpk Hi)).
  simpl. replace (32 - (prefixlen self + k)) with (32 - prefixlen self - k) by lia.
  lia.
Qed.

Lemma partition_blocks_disjoint (self : IPv4Network) (k : Z) (i j : nat) :
  well_formed self -> 0 <= k -> prefixlen self + k <= 32 ->
  Z.of_nat i < 2 ^ k -> Z.of_nat j < 2 ^ k -> i <> j ->
  ~ overlaps (partition_block self k i) (partition_block self k j).
Proof.
  intros Hwf Hk Hpk Hi Hj Hne (x & Hxi & Hxj).
  apply partition_block_addresses in Hxi; try assumption.
  apply partition_block_addresses in Hxj; try assumption.
  assert (Hs : 0 < 2 ^ (32 - prefixlen self - k))
    by (apply Z.pow_pos_nonneg; destruct Hwf; lia).
  destruct (Nat.lt_total i j) as [Hlt|[->|Hlt]]; [| contradiction |].
  - assert (Z.of_nat i + 1 <= Z.of_nat j) by lia. nia.
  - assert (Z.of_nat j + 1 <= Z.of_nat i) by lia. nia.
Qed.

Lemma partition_block_nested (self : IPv4Network) (k : Z) (i : nat) :
  well_formed self -> 0 <= k -> prefixlen self + k <= 32 -> Z.of_nat i < 2 ^ k ->
  subnet_of (partition_block self k i) self.
Proof.
  intros Hwf Hk Hpk Hi x Hx.
  apply partition_block_addresses in Hx; try assumption.
  unfold contains_address. rewrite (broadcast_address_sum _ Hwf).
  destruct Hwf as (Hp & _ & _).
  assert (Hs : 0 < 2 ^ (32 - prefixlen self - k)) by (apply Z.pow_pos_nonneg; lia).
  assert (Hsplit : 2 ^ (32 - prefixlen self)
                   = 2 ^ k * 2 ^ (32 - prefixlen self - k)).
  { rewrite <- Z.pow_add_r by lia. f_equal. lia. }
  assert (Z.of_nat i + 1 <= 2 ^ k) by lia.
  rewrite Hsplit. nia.
Qed.

End Blocks.

(** ** The blocks the constructor hands to [_add_subnets] *)

Lemma digit_of_bounds c d : ipaddress.digit_of c = Some d -> (0 <= d <= 9)%Z.
Proof.
  unfold ipaddress.digit_of. intros H.
  destruct (_ && _) eqn:Hb; [| discriminate]. injection H as <-.
  apply andb_prop in Hb. destruct Hb as [H1 H2]. lia.
Qed.

Lemma decimal_from_nonneg s : forall acc n,
  (0 <= acc)%Z -> ipaddress.decimal_from acc s = Some n -> (0 <= n)%Z.
Proof.
  induction s as [|c s IH]; intros acc n Hacc H; simpl in H.
  - injection H as <-. exact Hacc.
  - destruct (ipaddress.digit_of c) as [d|] eqn:Hd; [| discriminate].
    apply digit_of_bounds in Hd. eapply IH; [| exact H]. lia.
Qed.

Lemma decimal_nonneg s n : ipaddress.decimal s = Some n -> (0 <= n)%Z.
Proof.
  unfold ipaddress.decimal. destruct s; [discriminate |].
  apply decimal_from_nonneg. lia.
Qed.

Lemma parse_octet_bounds s n :
  ipaddress._parse_octet s = Some n -> (0 <= n <= 255)%Z.
Proof.
  unfold ipaddress._parse_octet.
  destruct (ipaddress.decimal s) as [m|] eqn:Hm; [| discriminate].
  destruct (Nat.ltb 3 _); [discriminate |].
  destruct (ipaddress.leading_zero s); [discriminate |].
  destruct (Z.ltb_spec 255 m) as [|Hle]; [discriminate |]. intros [= <-].
  apply decimal_nonneg in Hm. lia.
Qed.

Lemma ip_int_from_string_bounds s a :
  ipaddress._ip_int_from_string s = Some a -> (0 <= a < 2 ^ 32)%Z.
Proof.
  unfold ipaddress._ip_int_from_string.
  destruct (ipaddress.split_on _ _ s) as [|a1 [|a2 [|a3 [|a4 [|]]]]]; try discriminate.
  destruct (ipaddress._parse_octet a1) as [n1|] eqn:H1; [| discriminate].
  destruct (ipaddress._parse_octet a2) as [n2|] eqn:H2; [| discriminate].
  destruct (ipaddress._parse_octet a3) as [n3|] eqn:H3; [| discriminate].
  destruct (ipaddress._parse_octet a4) as [n4|] eqn:H4; [| discriminate].
  intros [= <-].
  apply parse_octet_bounds in H1, H2, H3, H4.
  change (2 ^ 32)%Z with 4294967296%Z. lia.
Qed.

Lemma bit_length_nonneg n : (0 <= ipaddress.bit_length n)%Z.
Proof.
  unfold ipaddress.bit_length. destruct (Z.eqb_spec n 0); [lia |].
  pose proof (Z.log2_nonneg (Z.abs n)). lia.
Qed.

Lemma prefix_from_ip_int_bounds ip_int p :
  ipaddress._prefix_from_ip_int ip_int = Some p -> (0 <= p <= 32)%Z.
Proof.
  unfold ipaddress._prefix_from_ip_int, ipaddress._count_righthand_zero_bits,
    ipaddress._max_prefixlen.
  destruct (Z.eqb_spec ip_int 0) as [_|_].
  - destruct (_ =? _)%Z; [| discriminate]. intros [= <-]. lia.
  - pose proof (bit_length_nonneg (Z.land (Z.lnot ip_int) (ip_int - 1))).
    destruct (_ =? _)%Z; [| discriminate]. intros [= <-]. lia.
Qed.

Lemma make_netmask_bounds arg p :
  ipaddress._make_netmask arg = Some p -> (0 <= p <= 32)%Z.
Proof.
  unfold ipaddress._make_netmask, ipaddress._prefix_from_prefix_string,
    ipaddress._prefix_from_ip_string, ipaddress._max_prefixlen.
  destruct (ipaddress.decimal arg) as [n|] eqn:Hn.
  - destruct (Nat.ltb _ _).
    + destruct (ipaddress._ip_int_from_string arg) as [i|]; [| discriminate].
      destruct (ipaddress._prefix_from_ip_int i) as [q|] eqn:Hq.
      * intros [= <-]. eapply prefix_from_ip_int_bounds. exact Hq.
      * apply prefix_from_ip_int_bounds.
    + destruct (Z.leb_spec n 32) as [Hle|_].
      * intros [= <-]. apply decimal_nonneg in Hn. lia.
      * destruct (ipaddress._ip_int_from_string arg) as [i|]; [| discriminate].
        destruct (ipaddress._prefix_from_ip_int i) as [q|] eqn:Hq.
        -- intros [= <-]. eapply prefix_from_ip_int_bounds. exact Hq.
        -- apply prefix_from_ip_int_bounds.
  - destruct (ipaddress._ip_int_from_string arg) as [i|]; [| discriminate].
    destruct (ipaddress._prefix_from_ip_int i) as [q|] eqn:Hq.
    + intros [= <-]. eapply prefix_from_ip_int_bounds. exact Hq.
    + apply prefix_from_ip_int_bounds.
Qed.

(** An address that its netmask leaves as it is has no host bit set. *)
Lemma no_host_bits packed p :
  (0 <= p <= 32)%Z ->
  Z.land packed (ipaddress._ip_int_from_prefix p) = packed ->
  (packed mod 2 ^ (32 - p) = 0)%Z.
Proof.
  intros Hp Hland.
  rewrite <- Z.land_ones by lia. rewrite <- Hland, <- Z.land_assoc.
  assert (Hmask : Z.land (ipaddress._ip_int_from_prefix p) (Z.ones (32 - p)) = 0%Z).
  { assert (Hn : p = Z.of_nat (Z.to_nat p)) by lia.
    assert (Hle : Z.to_nat p <= 32) by lia.
    revert Hn Hle. generalize (Z.to_nat p). intros n -> Hle.
    do 33 (destruct n as [|n]; [vm_compute; reflexivity |]).
    lia. }
  rewrite Hmask. apply Z.land_0_r.
Qed.

(** A network read from text is well formed. *)
Lemma IPv4Network_of_text_well_formed s net :
  ipaddress.IPv4Network_of_text s = Ok net -> ipaddress.well_formed net.
Proof.
  unfold ipaddress.IPv4Network_of_text.
  destruct (ipaddress.split_on _ _ s) as [|a [|m [|]]]; try discriminate.
  - destruct (ipaddress._ip_int_from_string a) as [addr|] eqn:Ha; [| discriminate].
    intros [= <-]. apply ip_int_from_string_bounds in Ha.
    unfold ipaddress.well_formed, ipaddress._max_prefixlen. simpl.
    split; [lia |]. split; [exact Ha |]. apply Z.mod_1_r.
  - destruct (ipaddress._ip_int_from_string a) as [addr|] eqn:Ha; [| discriminate].
    destruct (ipaddress._make_netmask m) as [p|] eqn:Hp; [| discriminate].
    destruct (Z.eqb_spec (Z.land addr (ipaddress._ip_int_from_prefix p)) addr)
      as [Hland|]; [| discriminate].
    intros [= <-]. apply ip_int_from_string_bounds in Ha.
    apply make_netmask_bounds in Hp.
    unfold ipaddress.well_formed. simpl. split; [exact Hp |]. split; [exact Ha |].
    apply no_host_bits; assumption.
Qed.

Lemma default_cidr_well_formed : ipaddress.well_formed Vpc.default_cidr.
Proof. vm_compute. intuition discriminate. Qed.

(** What the reading of a block accepts: after the slash a prefix length,
    a netmask or a hostmask; an address alone is a block of one address.
    What it refuses: an octet written with a leading zero, an octet above
    255, a mask that is not a run of ones followed by zeros (or the
    reverse), a prefix length above 32 or with a sign, a second slash, and
    an address with host bits set. *)
Lemma IPv4Network_of_text_examples :
  ipaddress.IPv4Network_of_text "10.0.0.0/16" = Ok (mkNet 167772160 16) /\
  ipaddress.IPv4Network_of_text "10.0.0.0/255.255.0.0" = Ok (mkNet 167772160 16) /\
  ipaddress.IPv4Network_of_text "10.0.0.0/0.0.255.255" = Ok (mkNet 167772160 16) /\
  ipaddress.IPv4Network_of_text "10.0.0.1" = Ok (mkNet 167772161 32) /\
  ipaddress.IPv4Network_of_text "0.0.0.0/0" = Ok (mkNet 0 0) /\
  is_ok (ipaddress.IPv4Network_of_text "010.0.0.0/8") = false /\
  is_ok (ipaddress.IPv4Network_of_text "10.0.0.256/32") = false /\
  is_ok (ipaddress.IPv4Network_of_text "10.0.0.0/255.0.255.0") = false /\
  is_ok (ipaddress.IPv4Network_of_text "10.0.0.0/33") = false /\
  is_ok (ipaddress.IPv4Network_of_text "10.0.0.0/+8") = false /\
  is_ok (ipaddress.IPv4Network_of_text "10.0.0.0/8/8") = false /\
  is_ok (ipaddress.IPv4Network_of_text "10.0.0.0/") = false /\
  ipaddress.IPv4Network_of_text "10.0.0.1/16" = Raise (ValueError "has host bits set").
Proof. vm_compute. repeat split. Qed.

(** ** The subnets of a new network *)

(** The list of subnet blocks, when the block covers the zones. *)
Lemma subnet_ipv4_cidrs_run (cidr : IPv4Network) (n : nat) :
  ipaddress.well_formed cidr -> 1 <= n ->
  (Z.of_nat n <= ipaddress.num_addresses cidr)%Z ->
  Vpc.subnet_ipv4_cidrs cidr n
  = Ok (map (ipaddress.partition_block cidr (Z.log2_up (Z.of_nat n))) (seq 0 n)).
Proof.
  intros Hwf Hn Hle.
  destruct (ceil_log2_bounds cidr n Hwf Hn Hle) as (Hk & Hpk & Hcover).
  unfold Vpc.subnet_ipv4_cidrs.
  destruct (Z.ltb_spec (ipaddress.num_addresses cidr) (Z.of_nat n)) as [|_]; [lia |].
  unfold Vpc.ceil_log2. destruct n as [|n']; [lia |].
  rewrite (subnets_partition _ _ Hwf Hk Hpk).
  rewrite firstn_map, take_seq. do 3 f_equal. lia.
Qed.

(** The guard on the number of addresses. *)
Lemma subnet_ipv4_cidrs_short (cidr : IPv4Network) (n : nat) :
  (ipaddress.num_addresses cidr < Z.of_nat n)%Z ->
  Vpc.subnet_ipv4_cidrs cidr n
  = Raise (ValueError
      "IPv4 CIDR block does not have enough addresses for each availability zone").
Proof.
  intros Hlt. unfold Vpc.subnet_ipv4_cidrs.
  destruct (Z.ltb_spec (ipaddress.num_addresses cidr) (Z.of_nat n)); [reflexivity | lia].
Qed.

Lemma created_subnets_app l1 l2 :
  created_subnets (l1 ++ l2) = (created_subnets l1 ++ created_subnets l2)%list.
Proof. unfold created_subnets. apply omap_app. Qed.

(** The subnets are created one per pair, in order; those created stay. *)
Lemma create_subnets_run (pairs : list (string * IPv4Network)) vpc_id :
  forall acc w,
    is_Some (vpcs (remote w) !! vpc_id) ->
    (forall id, id ∈ acc -> is_Some (subnets (remote w) !! id)) ->
    exists ids w',
      Vpc.create_subnets pairs vpc_id acc w = (Ok ids, w') /\
      length ids = length acc + length pairs /\
      calls w'
      = (calls w ++ map (fun zb => Call.create_subnet zb.1 zb.2 vpc_id) pairs)%list /\
      registry w' = registry w /\
      (forall id, id ∈ ids -> is_Some (subnets (remote w') !! id)).
Proof.
  induction pairs as [|[zone block] pairs IH]; intros acc w Hvpc Hacc.
  - exists acc, w. simpl. unfold ret. rewrite app_nil_r.
    repeat split; try reflexivity; [lia | exact Hacc].
  - destruct Hvpc as [vd Hvpc]. simpl.
    set (id := fresh_id "subnet-" (remote w)).
    set (w1 := mkWorld
                 (bump_next_id
                    (set_subnets (insert id (mkSubnetDesc vpc_id block zone ∅))
                       (remote w)))
                 (registry w) (calls w ++ [Call.create_subnet zone block vpc_id])
                 (slept w)).
    assert (Hrun : EC2.create_subnet zone block vpc_id w = (Ok id, w1)).
    { unfold EC2.create_subnet, gateway. rewrite Hvpc. reflexivity. }
    rewrite (bind_step _ _ _ _ _ Hrun).
    destruct (IH (acc ++ [id])%list w1) as (ids & w' & Hrest & Hlen & Hlog & Hreg & Hin).
    + simpl. rewrite Hvpc. eauto.
    + intros x Hx. simpl. apply elem_of_app in Hx. destruct Hx as [Hx|Hx].
      * apply lookup_insert_is_Some'. right. apply Hacc, Hx.
      * apply list_elem_of_singleton in Hx. subst x.
        apply lookup_insert_is_Some'. left. reflexivity.
    + exists ids, w'. split; [exact Hrest |].
      rewrite Hlen, Hlog, Hreg, length_app. simpl.
      rewrite <- app_assoc. repeat split; try assumption; try reflexivity. lia.
Qed.

Lemma created_subnets_create (pairs : list (string * IPv4Network)) vpc_id :
  created_subnets (map (fun zb => Call.create_subnet zb.1 zb.2 vpc_id) pairs)
  = map (fun zb => (zb.1, zb.2, vpc_id)) pairs.
Proof.
  induction pairs as [|zb pairs IH]; [reflexivity |].
  simpl. unfold created_subnets in *. simpl. rewrite IH. reflexivity.
Qed.

Lemma forallb_elem_of {A} (f : A -> bool) (l : list A) :
  (forall x, x ∈ l -> f x = true) -> forallb f l = true.
Proof.
  intros H. apply forallb_forall. intros x Hx. apply H, list_elem_of_In, Hx.
Qed.

(** A block that covers the zones: [_add_subnets] returns, having asked
    for one subnet per zone, each on its block of the partition. *)
Lemma Vpc_add_subnets_run name (cidr : IPv4Network) vpc_id w :
  ipaddress.well_formed cidr ->
  is_Some (vpcs (remote w) !! vpc_id) ->
  1 <= length (availability_zones (remote w)) ->
  (Z.of_nat (length (availability_zones (remote w)))
   <= ipaddress.num_addresses cidr)%Z ->
  exists ids w',
    Vpc._add_subnets name cidr vpc_id w = (Ok ids, w') /\
    length ids = length (availability_zones (remote w)) /\
    created_subnets (calls w')
    = (created_subnets (calls w)
       ++ map (fun zb => (zb.1, zb.2, vpc_id))
            (zip (availability_zones (remote w))
               (map (ipaddress.partition_block cidr
                       (Z.log2_up (Z.of_nat (length (availability_zones (remote w))))))
                  (seq 0 (length (availability_zones (remote w)))))))%list /\
    registry w' = registry w.
Proof.
  intros Hwf Hvpc Hn Hle. unfold Vpc._add_subnets.
  erewrite bind_step; [| reflexivity].
  rewrite (subnet_ipv4_cidrs_run _ _ Hwf Hn Hle).
  erewrite bind_step; [| reflexivity].
  set (zones := availability_zones (remote w)) in *.
  set (blocks := map _ (seq 0 (length zones))).
  set (w0 := mkWorld _ _ _ _).
  destruct (create_subnets_run (zip zones blocks) vpc_id [] w0 Hvpc)
    as (ids & w1 & Hrun & Hlen & Hlog & Hreg & Hin).
  { intros id Hid. inversion Hid. }
  rewrite (bind_step _ _ _ _ _ Hrun).
  erewrite bind_step.
  2:{ apply call_first_attempt; [| reflexivity].
      unfold EC2.wait_subnet_available, gateway.
      rewrite forallb_elem_of; [reflexivity |].
      intros id Hid. apply bool_decide_eq_true, Hin, Hid. }
  erewrite bind_step.
  2:{ unfold EC2.create_tags, gateway. cbn [remote].
      rewrite forallb_elem_of; [reflexivity |].
      intros id Hid. unfold EC2.taggable.
      rewrite (bool_decide_eq_true_2 _ (Hin id Hid)).
      rewrite orb_true_r. reflexivity. }
  eexists _, _. split; [reflexivity |]. cbn [calls registry].
  split; [| split].
  - rewrite Hlen. simpl. rewrite length_zip_with. unfold blocks.
    rewrite length_map, length_seq. lia.
  - rewrite !created_subnets_app, Hlog, created_subnets_app, created_subnets_create.
    unfold w0. cbn [calls]. rewrite created_subnets_app.
    simpl. rewrite !app_nil_r. reflexivity.
  - exact Hreg.
Qed.

(** A block too small for the zones: [_add_subnets] raises before it asks
    for any subnet, and the remote is as it was. *)
Lemma Vpc_add_subnets_short name (cidr : IPv4Network) vpc_id w :
  (ipaddress.num_addresses cidr
   < Z.of_nat (length (availability_zones (remote w))))%Z ->
  exists msg w',
    Vpc._add_subnets name cidr vpc_id w = (Raise (ValueError msg), w') /\
    created_subnets (calls w') = created_subnets (calls w) /\
    remote w' = remote w.
Proof.
  intros Hlt. unfold Vpc._add_subnets.
  erewrite bind_step; [| reflexivity].
  rewrite (subnet_ipv4_cidrs_short _ _ Hlt).
  eexists _, _. split; [reflexivity |]. cbn [calls remote].
  rewrite created_subnets_app. simpl. rewrite app_nil_r. split; reflexivity.
Qed.

Lemma lookup_map_seq {A} (f : nat -> A) (n : nat) : forall s i a,
  map f (seq s n) !! i = Some a -> i < n /\ a = f (s + i).
Proof.
  induction n as [|n IH]; intros s i a H; [discriminate |].
  destruct i as [|i]; simpl in H.
  - injection H as <-. split; [lia | f_equal; lia].
  - apply IH in H. destruct H as [Hlt ->]. split; [lia | f_equal; lia].
Qed.

(** Without an availability zone there is nothing to carve: [log2(0)] is
    a math domain error. *)
Lemma Vpc_add_subnets_no_zone name (cidr : IPv4Network) vpc_id w :
  ipaddress.well_formed cidr ->
  availability_zones (remote w) = [] ->
  exists w',
    Vpc._add_subnets name cidr vpc_id w
    = (Raise (ValueError "math domain error"), w').
Proof.
  intros Hwf Hz. unfold Vpc._add_subnets.
  erewrite bind_step; [| reflexivity]. rewrite Hz.
  unfold Vpc.subnet_ipv4_cidrs. rewrite (num_addresses_pow2 _ Hwf).
  destruct (Z.ltb_spec (2 ^ (32 - ipaddress.prefixlen cidr)) (Z.of_nat (length (@nil string))))
    as [Hlt|_].
  - simpl in Hlt. destruct Hwf as (Hp & _).
    assert (0 < 2 ^ (32 - ipaddress.prefixlen cidr))%Z by (apply Z.pow_pos_nonneg; lia).
    lia.
  - simpl. eexists. reflexivity.
Qed.

(** C2: creating the subnets of a new Network whose address block covers
    the [n >= 1] availability zones of the region returns [n] subnet
    identifiers, having asked the remote for exactly [n] subnets, one per
    zone in order: the first [n] blocks of the partition of the address
    block into blocks with [ceil(log2(n))] more prefix bits; these blocks
    are pairwise without a common address and each lies within the address
    block.  When the address block has fewer addresses than there are
    zones, the creation fails with [ValueError] before any subnet is asked
    for. *)
Theorem new_network_subnets_partition_the_block :
  forall name (cidr : IPv4Network) vpc_id w,
    ipaddress.well_formed cidr ->
    is_Some (vpcs (remote w) !! vpc_id) ->
    let zones := availability_zones (remote w) in
    let blocks :=
      map (ipaddress.partition_block cidr (Z.log2_up (Z.of_nat (length zones))))
        (seq 0 (length zones)) in
    (1 <= length zones ->
     (Z.of_nat (length zones) <= ipaddress.num_addresses cidr)%Z ->
     exists ids w',
       Vpc._add_subnets name cidr vpc_id w = (Ok ids, w') /\
       length ids = length zones /\
       created_subnets (calls w')
       = (created_subnets (calls w)
          ++ map (fun zb => (zb.1, zb.2, vpc_id)) (zip zones blocks))%list /\
       length blocks = length zones /\
       (forall i j a b,
          blocks !! i = Some a -> blocks !! j = Some b -> i <> j ->
          ~ ipaddress.overlaps a b) /\
       (forall a, a ∈ blocks -> ipaddress.subnet_of a cidr)) /\
    ((ipaddress.num_addresses cidr < Z.of_nat (length zones))%Z ->
     exists msg w',
       Vpc._add_subnets name cidr vpc_id w = (Raise (ValueError msg), w') /\
       created_subnets (calls w') = created_subnets (calls w) /\
       remote w' = remote w).
Proof.
  intros name cidr vpc_id w Hwf Hvpc zones blocks. split.
  - intros Hn Hle.
    destruct (Vpc_add_subnets_run name cidr vpc_id w Hwf Hvpc Hn Hle)
      as (ids & w' & Hrun & Hlen & Hlog & _).
    destruct (ceil_log2_bounds cidr _ Hwf Hn Hle) as (Hk & Hpk & Hcover).
    fold zones in Hk, Hpk, Hcover.
    exists ids, w'. split; [exact Hrun |]. split; [exact Hlen |].
    split; [exact Hlog |]. split; [| split].
    + unfold blocks. rewrite length_map, length_seq. reflexivity.
    + intros i j a b Ha Hb Hne.
      apply lookup_map_seq in Ha, Hb. destruct Ha as [Hi ->], Hb as [Hj ->].
      simpl. apply partition_blocks_disjoint; try assumption; lia.
    + intros a Ha. apply list_elem_of_lookup in Ha. destruct Ha as [i Ha].
      apply lookup_map_seq in Ha. destruct Ha as [Hi ->].
      simpl. apply partition_block_nested; try assumption; lia.
  - intros Hlt. apply Vpc_add_subnets_short. exact Hlt.
Qed.

Lemma new_network_subnets_partition_the_block_witness :
  (exists ids w',
     Vpc._add_subnets "net-b" (mkNet 167772160 16) "vpc-a" Sample.world0
     = (Ok ids, w') /\
     length ids = 3 /\
     created_subnets (calls w')
     = [("zone-1", mkNet 167772160 18, "vpc-a");
        ("zone-2", mkNet 167788544 18, "vpc-a");
        ("zone-3", mkNet 167804928 18, "vpc-a")]) /\
  (exists msg w',
     Vpc._add_subnets "net-b" (mkNet 167772160 31) "vpc-a" Sample.world0
     = (Raise (ValueError msg), w') /\
     created_subnets (calls w') = []).
Proof.
  assert (Hvpc : is_Some (vpcs (remote Sample.world0) !! "vpc-a"))
    by (eexists; vm_compute; reflexivity).
  split.
  - assert (Hwf : ipaddress.well_formed (mkNet 167772160 16))
      by (vm_compute; intuition discriminate).
    destruct (new_network_subnets_partition_the_block "net-b" _ "vpc-a"
                Sample.world0 Hwf Hvpc) as [Hcovers _].
    destruct Hcovers as (ids & w' & Hrun & Hlen & Hlog & _).
    + simpl. lia.
    + vm_compute. discriminate.
    + exists ids, w'. split; [exact Hrun |]. split; [exact Hlen |].
      rewrite Hlog. vm_compute. reflexivity.
  - assert (Hwf : ipaddress.well_formed (mkNet 167772160 31))
      by (vm_compute; intuition discriminate).
    destruct (new_network_subnets_partition_the_block "net-b" _ "vpc-a"
                Sample.world0 Hwf Hvpc) as [_ Hshort].
    destruct Hshort as (msg & w' & Hrun & Hlog & _).
    + vm_compute. reflexivity.
    + exists msg, w'. split; [exact Hrun |]. rewrite Hlog. reflexivity.
Defined.

(** * Further properties of the constructors and of [clobber] *)

(** ** A resource that is identified but does not exist *)

(** X1: a Vpc or a SecurityGroup constructed from the identifier of a
    resource the remote does not have, and an IamRole constructed from the
    name of a role the remote does not have with no description, service
    or policies, fail with [ResourceDoesNotExistException] carrying that
    identifier; the remote and the registry are as before, and only the
    lookup has been issued.  For the role the flag [add_instance_profile]
    makes no difference. *)
Theorem unknown_resource_is_reported :
  (forall id name ipv4_cidr instance_tenancy w,
     truthy (Some id) = true ->
     truthy name || truthy ipv4_cidr || truthy instance_tenancy = false ->
     vpcs (remote w) !! id = None ->
     Vpc.__init__ (Some id) name ipv4_cidr instance_tenancy w
     = (Raise (ResourceDoesNotExistException id),
        mkWorld (remote w) (registry w) (calls w ++ [Call.describe_vpcs id])
          (slept w))) /\
  (forall id name description w,
     truthy (Some id) = true ->
     truthy name || truthy description = false ->
     security_groups (remote w) !! id = None ->
     SecurityGroup.__init__ (Some id) name SecurityGroup.VpcNone description w
     = (Raise (ResourceDoesNotExistException id),
        mkWorld (remote w) (registry w)
          (calls w ++ [Call.describe_security_groups_ids id]) (slept w))) /\
  (forall _get_section_name tuple_of_set name description service add_instance_profile w,
     truthy description || truthy service = false ->
     roles (remote w) !! name = None ->
     exists w',
       IamRole.__init__ _get_section_name tuple_of_set name description service
         (IamRole.PoliciesSeq []) add_instance_profile w
       = (Raise (ResourceDoesNotExistException name), w') /\
       remote w' = remote w /\ registry w' = registry w).
Proof.
  split; [| split].
  - intros id name ipv4_cidr instance_tenancy w Hid Hrest Hnone.
    apply orb_false_elim in Hrest. destruct Hrest as [Hrest Hten].
    apply orb_false_elim in Hrest. destruct Hrest as [Hname Hcidr].
    unfold Vpc.__init__. rewrite Hid, Hname, Hcidr, Hten. cbn [negb orb andb].
    unfold Vpc._exists_already. rewrite Hid.
    unfold bind, catch. rewrite describe_vpcs_run. simpl the. rewrite Hnone.
    reflexivity.
  - intros id name description w Hid Hrest Hnone.
    apply orb_false_elim in Hrest. destruct Hrest as [Hname Hdesc].
    unfold SecurityGroup.__init__. rewrite Hid, Hname, Hdesc.
    cbn [negb orb andb SecurityGroup.vpc_truthy SecurityGroup.isinstance_Vpc].
    unfold SecurityGroup._exists_already. rewrite Hid.
    unfold bind, catch, EC2.describe_security_groups_ids, gateway. simpl the.
    rewrite Hnone. destruct (String.prefix "sg-" id); reflexivity.
  - intros gsn tos name description service flag w Hrest Hnone.
    apply orb_false_elim in Hrest. destruct Hrest as [Hdesc Hsvc].
    unfold IamRole.__init__.
    rewrite (bind_step _ _ _ _ _ (IamRole_exists_already_absent name w Hnone)).
    rewrite Hdesc, Hsvc. simpl. eexists. split; [reflexivity |]. split; reflexivity.
Qed.

Lemma unknown_resource_is_reported_witness :
  fst (Vpc.__init__ (Some "vpc-z") None None None Sample.world0)
  = Raise (ResourceDoesNotExistException "vpc-z") /\
  fst (SecurityGroup.__init__ (Some "nonsense") None SecurityGroup.VpcNone None
         Sample.world0)
  = Raise (ResourceDoesNotExistException "nonsense") /\
  exists w',
    IamRole.__init__ id Sample.tuple_of_set "role-z" None None (IamRole.PoliciesSeq [])
      (IamRole.FlagBool true) Sample.world0
    = (Raise (ResourceDoesNotExistException "role-z"), w') /\
    remote w' = remote Sample.world0 /\ registry w' = registry Sample.world0.
Proof.
  destruct unknown_resource_is_reported as (Hvpc & Hsg & Hrole).
  split; [| split].
  - rewrite (Hvpc "vpc-z" None None None Sample.world0); reflexivity.
  - rewrite (Hsg "nonsense" None None Sample.world0); reflexivity.
  - apply (Hrole id Sample.tuple_of_set "role-z" None None
      (IamRole.FlagBool true) Sample.world0);
      reflexivity.
Defined.

(** ** Adopting a network *)

(** X2: a network that carries a [Name] tag no other network carries is
    adopted alike from its identifier and from its name: both
    constructions return the same instance (the name of the tag, the block
    and tenancy of the remote record, the subnets the remote lists for it),
    write the same registry entry and leave the remote as it was. *)
Theorem Vpc_adopted_alike_by_id_and_by_name :
  forall id d n w,
    truthy (Some id) = true -> truthy (Some n) = true ->
    vpcs (remote w) !! id = Some d ->
    vpc_Tags d !! "Name" = Some n ->
    (forall id' d', vpcs (remote w) !! id' = Some d' ->
                    vpc_Tags d' !! "Name" = Some n -> id' = id) ->
    let v := Vpc.mk n false true (vpc_CidrBlock d) (vpc_InstanceTenancy d) id
               (subnets_of w id) in
    exists w1 w2,
      Vpc.__init__ (Some id) None None None w = (Ok v, w1) /\
      Vpc.__init__ None (Some n) None None w = (Ok v, w2) /\
      remote w1 = remote w /\ remote w2 = remote w /\
      registry w1 = <[("vpc", id) := n]> (registry w) /\
      registry w2 = <[("vpc", id) := n]> (registry w).
Proof.
  intros id d n w Hid Hname Hd Hn Huniq v.
  eexists _, _. split; [| split].
  - unfold Vpc.__init__. rewrite Hid. cbn [truthy negb orb andb].
    rewrite (bind_step _ _ _ _ _ (Vpc_exists_already_by_id id None d n w Hid Hd Hn)).
    reflexivity.
  - unfold Vpc.__init__. rewrite Hname. cbn [truthy negb orb andb].
    rewrite (bind_step _ _ _ _ _ (Vpc_exists_already_by_name id d n w Hname Hd Hn Huniq)).
    reflexivity.
  - repeat split; reflexivity.
Qed.

Lemma Vpc_adopted_alike_by_id_and_by_name_witness :
  exists w1 w2,
    Vpc.__init__ (Some "vpc-a") None None None Sample.world0 = (Ok Sample.vpc_a, w1) /\
    Vpc.__init__ None (Some "net-a") None None Sample.world0 = (Ok Sample.vpc_a, w2) /\
    remote w1 = remote Sample.world0 /\ remote w2 = remote Sample.world0 /\
    registry w1 = <[("vpc", "vpc-a") := "net-a"]> (registry Sample.world0) /\
    registry w2 = <[("vpc", "vpc-a") := "net-a"]> (registry Sample.world0).
Proof.
  apply (Vpc_adopted_alike_by_id_and_by_name "vpc-a"
           (mkVpcDesc (mkNet 167772160 16) "default" {[ "Name" := "net-a" ]})
           "net-a" Sample.world0); try reflexivity.
  intros id' d' Hin _. unfold Sample.world0, Sample.remote0 in Hin.
  cbn [remote vpcs] in Hin. apply lookup_singleton_Some in Hin. destruct Hin as [<- _].
  reflexivity.
Defined.

(** X3: adopting, from its identifier, a network that has no [Name] tag
    names the instance [cloudknot-acquired-pre-existing-vpc] and writes the
    tags [owner = cloudknot] and [Name] of that value onto the remote
    network; the block and tenancy of the remote record, the other
    networks and the subnets are left as they were, and the registry
    entry carries the new name. *)
Theorem Vpc_adoption_names_an_unnamed_network :
  forall id d w,
    truthy (Some id) = true ->
    vpcs (remote w) !! id = Some d ->
    vpc_Tags d !! "Name" = None ->
    let name := "cloudknot-acquired-pre-existing-vpc" in
    exists w',
      Vpc.__init__ (Some id) None None None w
      = (Ok (Vpc.mk name false true (vpc_CidrBlock d) (vpc_InstanceTenancy d) id
               (subnets_of w id)), w') /\
      vpcs (remote w')
      = <[id := mkVpcDesc (vpc_CidrBlock d) (vpc_InstanceTenancy d)
                  (<["Name" := name]> (<["owner" := "cloudknot"]> (vpc_Tags d)))]>
          (vpcs (remote w)) /\
      subnets (remote w') = subnets (remote w) /\
      registry w' = <[("vpc", id) := name]> (registry w).
Proof.
  intros id d w Hid Hd Hn name.
  unfold Vpc.__init__. rewrite Hid. cbn [truthy negb orb andb].
  unfold Vpc._exists_already. rewrite Hid.
  erewrite bind_step.
  2:{ erewrite bind_step.
      2:{ apply catch_step. erewrite bind_step; [reflexivity |].
          rewrite describe_vpcs_run. simpl the. rewrite Hd. reflexivity. }
      cbv beta iota. rewrite Tags_entry_default. cbn [fst snd].
      rewrite (name_tag_missing _ _ Hn).
      erewrite bind_step.
      2:{ erewrite bind_step; [reflexivity |].
          apply create_tags_vpc_run with (d := d). exact Hd. }
      rewrite (bind_step _ _ _ _ _ (describe_subnets_run _ _)). reflexivity. }
  cbn [truthy orb]. eexists. split; [reflexivity |].
  cbn [remote registry set_vpcs vpcs subnets]. split; [| split]; try reflexivity.
  apply map_eq. intros k. destruct (decide (k = id)) as [->|Hne].
  - rewrite lookup_alter_eq, lookup_insert_eq, Hd. reflexivity.
  - rewrite lookup_alter_ne, lookup_insert_ne by congruence. reflexivity.
Qed.

Lemma Vpc_adoption_names_an_unnamed_network_witness :
  exists w',
    Vpc.__init__ (Some "vpc-u") None None None Cases.untagged
    = (Ok (Vpc.mk "cloudknot-acquired-pre-existing-vpc" false true
             (mkNet 167772160 24) "dedicated" "vpc-u" []), w') /\
    vpcs (remote w') !! "vpc-u"
    = Some (mkVpcDesc (mkNet 167772160 24) "dedicated"
              (<["Name" := "cloudknot-acquired-pre-existing-vpc"]>
                 (<["owner" := "cloudknot"]> ∅))).
Proof.
  destruct (Vpc_adoption_names_an_unnamed_network "vpc-u"
              (mkVpcDesc (mkNet 167772160 24) "dedicated" ∅) Cases.untagged)
    as (w' & Hrun & Hvpcs & _); try reflexivity.
  exists w'. split; [exact Hrun |]. rewrite Hvpcs. apply lookup_insert_eq.
Defined.

(** X4: a name that a network already carries, given together with a
    block or a tenancy, is refused with [ResourceExistsException] carrying
    the identifier of that network, whatever the block and the tenancy are
    (they are not examined); the remote and the registry are as before. *)
Theorem Vpc_name_in_use_is_refused :
  forall id d n ipv4_cidr instance_tenancy w,
    truthy (Some n) = true ->
    truthy ipv4_cidr || truthy instance_tenancy = true ->
    vpcs (remote w) !! id = Some d ->
    vpc_Tags d !! "Name" = Some n ->
    (forall id' d', vpcs (remote w) !! id' = Some d' ->
                    vpc_Tags d' !! "Name" = Some n -> id' = id) ->
    exists w',
      Vpc.__init__ None (Some n) ipv4_cidr instance_tenancy w
      = (Raise (ResourceExistsException id), w') /\
      remote w' = remote w /\ registry w' = registry w.
Proof.
  intros id d n ipv4_cidr instance_tenancy w Hname Hgiven Hd Hn Huniq.
  unfold Vpc.__init__. rewrite Hname. cbn [truthy negb orb andb].
  rewrite (bind_step _ _ _ _ _ (Vpc_exists_already_by_name id d n w Hname Hd Hn Huniq)).
  rewrite Hgiven. eexists. split; [reflexivity |]. split; reflexivity.
Qed.

Lemma Vpc_name_in_use_is_refused_witness :
  exists w',
    Vpc.__init__ None (Some "net-a") (Some "not a block") None Sample.world0
    = (Raise (ResourceExistsException "vpc-a"), w') /\
    remote w' = remote Sample.world0 /\ registry w' = registry Sample.world0.
Proof.
  apply (Vpc_name_in_use_is_refused "vpc-a"
           (mkVpcDesc (mkNet 167772160 16) "default" {[ "Name" := "net-a" ]})
           "net-a" (Some "not a block") None Sample.world0); try reflexivity.
  intros id' d' Hin _. unfold Sample.world0, Sample.remote0 in Hin.
  cbn [remote vpcs] in Hin. apply lookup_singleton_Some in Hin. destruct Hin as [<- _].
  reflexivity.
Defined.

(** ** Creating a network *)

Lemma Vpc_exists_already_no_such_name n w :
  truthy (Some n) = true ->
  (forall id d, vpcs (remote w) !! id = Some d -> vpc_Tags d !! "Name" <> Some n) ->
  Vpc._exists_already None (Some n) w
  = (Ok Vpc.NotExists,
     mkWorld (remote w) (registry w)
       (calls w ++ [Call.describe_tags "vpc" "Name" n]) (slept w)).
Proof.
  intros Hname Hnone. unfold Vpc._exists_already. cbn [truthy].
  erewrite bind_step.
  2:{ erewrite bind_step.
      2:{ unfold EC2.describe_tags, gateway. simpl the. rewrite filter_none.
          - reflexivity.
          - intros [id d] Hin. apply elem_of_map_to_list in Hin.
            exact (Hnone id d Hin). }
      reflexivity. }
  reflexivity.
Qed.

Lemma Vpc_create_run name cidr tenancy w :
  Vpc._create name cidr tenancy w
  = (Ok (fresh_id "vpc-" (remote w)), created_vpc name cidr tenancy w).
Proof.
  unfold Vpc._create.
  erewrite bind_step; [| reflexivity].
  erewrite bind_step.
  2:{ unfold EC2.wait_vpc_exists, gateway. cbn [remote vpcs set_vpcs bump_next_id].
      rewrite lookup_insert_eq. reflexivity. }
  erewrite bind_step.
  2:{ unfold EC2.wait_vpc_available, gateway. cbn [remote vpcs set_vpcs bump_next_id].
      rewrite lookup_insert_eq. reflexivity. }
  erewrite bind_step.
  2:{ eapply create_tags_vpc_run. cbn [remote vpcs set_vpcs bump_next_id].
      apply lookup_insert_eq. }
  erewrite bind_step; [| reflexivity].
  unfold ret, created_vpc. cbn [remote registry calls slept].
  rewrite <- !app_assoc. reflexivity.
Qed.

Lemma created_vpc_exists name cidr tenancy w :
  is_Some (vpcs (remote (created_vpc name cidr tenancy w))
             !! fresh_id "vpc-" (remote w)).
Proof.
  unfold created_vpc. cbn [remote vpcs set_vpcs bump_next_id].
  rewrite lookup_alter_eq, lookup_insert_eq. eauto.
Qed.

(** [_add_subnets] with a block that cannot cover the zones, or with no
    zone at all. *)
Lemma Vpc_add_subnets_fails name (cidr : IPv4Network) vpc_id w :
  ipaddress.well_formed cidr ->
  (ipaddress.num_addresses cidr
   < Z.of_nat (length (availability_zones (remote w))))%Z
  \/ availability_zones (remote w) = [] ->
  exists msg,
    Vpc._add_subnets name cidr vpc_id w
    = (Raise (ValueError msg),
       mkWorld (remote w) (registry w)
         (calls w ++ [Call.describe_availability_zones]) (slept w)).
Proof.
  intros Hwf Hcase. unfold Vpc._add_subnets.
  erewrite bind_step; [| reflexivity].
  destruct (Z.ltb_spec (ipaddress.num_addresses cidr)
              (Z.of_nat (length (availability_zones (remote w))))) as [Hlt|Hge].
  - rewrite (subnet_ipv4_cidrs_short _ _ Hlt). eexists. reflexivity.
  - destruct Hcase as [Hlt|Hz]; [lia |].
    rewrite Hz in *. unfold Vpc.subnet_ipv4_cidrs.
    destruct (Z.ltb_spec (ipaddress.num_addresses cidr) (Z.of_nat (length (@nil string))));
      [lia |].
    eexists. reflexivity.
Qed.

Lemma IPv4Network_of_text_raises s e :
  ipaddress.IPv4Network_of_text s = Raise e -> exists msg, e = ValueError msg.
Proof.
  unfold ipaddress.IPv4Network_of_text. intros H.
  repeat case_match; simplify_eq; eauto.
Qed.

(** X5: a name no network carries, with no block given (then the block is
    10.0.0.0/16) or a block that reads as a network, with no tenancy given
    (then [default]) or one of [default] and [dedicated], in a region
    whose zones the block covers: the constructor returns a new instance
    that is not pre-existing, has that name, block and tenancy and one
    subnet identifier per zone, and the registry gains the entry of the
    new network under its name. *)
Theorem Vpc_creation_succeeds :
  forall n ipv4_cidr instance_tenancy c t w,
    truthy (Some n) = true ->
    (forall id d, vpcs (remote w) !! id = Some d -> vpc_Tags d !! "Name" <> Some n) ->
    (truthy ipv4_cidr = false /\ c = Vpc.default_cidr) \/
    (truthy ipv4_cidr = true /\ ipaddress.IPv4Network_of_text (the ipv4_cidr) = Ok c) ->
    (truthy instance_tenancy = false /\ t = "default") \/
    (truthy instance_tenancy = true /\ the instance_tenancy = t
     /\ (t = "default" \/ t = "dedicated")) ->
    1 <= length (availability_zones (remote w)) ->
    (Z.of_nat (length (availability_zones (remote w)))
     <= ipaddress.num_addresses c)%Z ->
    exists ids w',
      Vpc.__init__ None (Some n) ipv4_cidr instance_tenancy w
      = (Ok (Vpc.mk n false false c t (fresh_id "vpc-" (remote w)) ids), w') /\
      length ids = length (availability_zones (remote w)) /\
      registry w' = <[("vpc", fresh_id "vpc-" (remote w)) := n]> (registry w).
Proof.
  intros n ipv4_cidr instance_tenancy c t w Hname Hnone Hc Ht Hz Hcover.
  assert (Hwf : ipaddress.well_formed c).
  { destruct Hc as [[_ ->]|[_ Hparse]].
    - apply default_cidr_well_formed.
    - eapply IPv4Network_of_text_well_formed. exact Hparse. }
  unfold Vpc.__init__. rewrite Hname. cbn [truthy negb orb andb].
  rewrite (bind_step _ _ _ _ _ (Vpc_exists_already_no_such_name n w Hname Hnone)).
  cbv beta iota.
  erewrite bind_step with (a := c).
  2:{ destruct Hc as [[-> ->]|[-> Hparse]]; [reflexivity |].
      apply catch_step. unfold lift. rewrite Hparse. reflexivity. }
  erewrite bind_step with (a := t).
  2:{ destruct Ht as [[-> ->]|(-> & <- & [Hd|Hd])]; [reflexivity | |];
        rewrite Hd; reflexivity. }
  rewrite (bind_step _ _ _ _ _ (Vpc_create_run _ _ _ _)).
  cbn [remote]. simpl the.
  set (w0 := mkWorld _ _ _ _).
  destruct (Vpc_add_subnets_run n c (fresh_id "vpc-" (remote w0))
              (created_vpc n c t w0) Hwf)
    as (ids & w' & Hrun & Hlen & _ & Hreg).
  - apply created_vpc_exists.
  - exact Hz.
  - exact Hcover.
  - rewrite (bind_step _ _ _ _ _ Hrun). exists ids, w'.
    split; [reflexivity |]. split; [exact Hlen |]. rewrite Hreg. reflexivity.
Qed.

Lemma Vpc_creation_succeeds_witness :
  (exists ids w',
     Vpc.__init__ None (Some "net-b") None (Some "dedicated") Sample.world0
     = (Ok (Vpc.mk "net-b" false false (mkNet 167772160 16) "dedicated" "vpc-0" ids),
        w') /\
     length ids = 3 /\
     registry w' = <[("vpc", "vpc-0") := "net-b"]> (registry Sample.world0)) /\
  (exists ids w',
     Vpc.__init__ None (Some "net-b") (Some "10.0.0.0/255.255.0.0") None
       Sample.world0
     = (Ok (Vpc.mk "net-b" false false (mkNet 167772160 16) "default" "vpc-0" ids),
        w') /\
     length ids = 3 /\
     registry w' = <[("vpc", "vpc-0") := "net-b"]> (registry Sample.world0)).
Proof.
  assert (Hnone : forall id d,
            vpcs (remote Sample.world0) !! id = Some d ->
            vpc_Tags d !! "Name" <> Some "net-b").
  { intros id d Hin. unfold Sample.world0, Sample.remote0 in Hin.
    cbn [remote vpcs] in Hin. apply lookup_singleton_Some in Hin.
    destruct Hin as [_ <-]. vm_compute. discriminate. }
  split.
  - apply (Vpc_creation_succeeds "net-b" None (Some "dedicated") Vpc.default_cidr
             "dedicated" Sample.world0).
    + reflexivity.
    + exact Hnone.
    + left. split; reflexivity.
    + right. split; [reflexivity |]. split; [reflexivity |]. right. reflexivity.
    + simpl. lia.
    + vm_compute. discriminate.
  - apply (Vpc_creation_succeeds "net-b" (Some "10.0.0.0/255.255.0.0") None
             (mkNet 167772160 16) "default" Sample.world0).
    + reflexivity.
    + exact Hnone.
    + right. split; vm_compute; reflexivity.
    + left. split; reflexivity.
    + simpl. lia.
    + vm_compute. discriminate.
Defined.

(** X6: when the block has fewer addresses than the region has zones, or
    the region has no zone, the constructor fails with [ValueError] only
    after the network has been created: the new network is on the remote
    and in the registry under its name, and no subnet has been asked
    for. *)
Theorem Vpc_creation_without_room_leaves_the_network :
  forall n ipv4_cidr instance_tenancy c t w,
    truthy (Some n) = true ->
    (forall id d, vpcs (remote w) !! id = Some d -> vpc_Tags d !! "Name" <> Some n) ->
    (truthy ipv4_cidr = false /\ c = Vpc.default_cidr) \/
    (truthy ipv4_cidr = true /\ ipaddress.IPv4Network_of_text (the ipv4_cidr) = Ok c) ->
    (truthy instance_tenancy = false /\ t = "default") \/
    (truthy instance_tenancy = true /\ the instance_tenancy = t
     /\ (t = "default" \/ t = "dedicated")) ->
    (ipaddress.num_addresses c
     < Z.of_nat (length (availability_zones (remote w))))%Z
    \/ availability_zones (remote w) = [] ->
    exists msg w',
      Vpc.__init__ None (Some n) ipv4_cidr instance_tenancy w
      = (Raise (ValueError msg), w') /\
      is_Some (vpcs (remote w') !! fresh_id "vpc-" (remote w)) /\
      registry w' = <[("vpc", fresh_id "vpc-" (remote w)) := n]> (registry w) /\
      created_subnets (calls w') = created_subnets (calls w).
Proof.
  intros n ipv4_cidr instance_tenancy c t w Hname Hnone Hc Ht Hroom.
  assert (Hwf : ipaddress.well_formed c).
  { destruct Hc as [[_ ->]|[_ Hparse]].
    - apply default_cidr_well_formed.
    - eapply IPv4Network_of_text_well_formed. exact Hparse. }
  unfold Vpc.__init__. rewrite Hname. cbn [truthy negb orb andb].
  rewrite (bind_step _ _ _ _ _ (Vpc_exists_already_no_such_name n w Hname Hnone)).
  cbv beta iota.
  erewrite bind_step with (a := c).
  2:{ destruct Hc as [[-> ->]|[-> Hparse]]; [reflexivity |].
      apply catch_step. unfold lift. rewrite Hparse. reflexivity. }
  erewrite bind_step with (a := t).
  2:{ destruct Ht as [[-> ->]|(-> & <- & [Hd|Hd])]; [reflexivity | |];
        rewrite Hd; reflexivity. }
  rewrite (bind_step _ _ _ _ _ (Vpc_create_run _ _ _ _)).
  cbn [remote]. simpl the.
  set (w0 := mkWorld _ _ _ _).
  destruct (Vpc_add_subnets_fails n c (fresh_id "vpc-" (remote w0))
              (created_vpc n c t w0) Hwf) as [msg Hrun].
  { exact Hroom. }
  rewrite (bind_fail _ _ _ _ _ Hrun). eexists _, _. split; [reflexivity |].
  cbn [remote registry calls]. split; [| split].
  - exact (created_vpc_exists n c t w0).
  - reflexivity.
  - unfold created_vpc, w0. cbn [calls].
    rewrite !created_subnets_app. simpl. rewrite !app_nil_r. reflexivity.
Qed.

Lemma Vpc_creation_without_room_leaves_the_network_witness :
  exists msg w',
    Vpc.__init__ None (Some "net-b") (Some "10.0.0.0/31") None Sample.world0
    = (Raise (ValueError msg), w') /\
    is_Some (vpcs (remote w') !! "vpc-0") /\
    registry w' = <[("vpc", "vpc-0") := "net-b"]> (registry Sample.world0) /\
    created_subnets (calls w') = [].
Proof.
  apply (Vpc_creation_without_room_leaves_the_network "net-b" (Some "10.0.0.0/31")
           None (mkNet 167772160 31) "default" Sample.world0).
  - reflexivity.
  - intros id d Hin. unfold Sample.world0, Sample.remote0 in Hin.
    cbn [remote vpcs] in Hin. apply lookup_singleton_Some in Hin.
    destruct Hin as [_ <-]. vm_compute. discriminate.
  - right. split; vm_compute; reflexivity.
  - left. split; reflexivity.
  - left. vm_compute. reflexivity.
Defined.

(** The block argument, read or defaulted, as the constructor finds it. *)
Lemma Vpc_block_argument (ipv4_cidr : option string) w0 :
  let read :=
    if truthy ipv4_cidr then
      catch (lift (ipaddress.IPv4Network_of_text (the ipv4_cidr)))
        (fun e =>
           match e with
           | ValueError _ =>
               raise (ValueError
                 "If provided, ipv4_cidr must be a valid IPv4 network range.")
           | _ => raise e
           end)
    else ret Vpc.default_cidr in
  (exists c, read w0 = (Ok c, w0)
             /\ (truthy ipv4_cidr = true ->
                 ipaddress.IPv4Network_of_text (the ipv4_cidr) = Ok c))
  \/ (exists msg, read w0 = (Raise (ValueError msg), w0)).
Proof.
  cbv zeta. destruct (truthy ipv4_cidr).
  - destruct (ipaddress.IPv4Network_of_text (the ipv4_cidr)) as [c|e] eqn:Hparse.
    + left. exists c. split; [reflexivity | auto].
    + right. apply IPv4Network_of_text_raises in Hparse as Hmsg.
      destruct Hmsg as [msg ->]. eexists. reflexivity.
  - left. exists Vpc.default_cidr. split; [reflexivity | discriminate].
Qed.

(** X7: for a name no network carries, a block that does not read as a
    network or a tenancy other than [default] and [dedicated] is refused
    with [ValueError] after the lookup by name and before anything is
    created: the remote and the registry are as before. *)
Theorem Vpc_creation_parameters_are_validated_first :
  forall n ipv4_cidr instance_tenancy w,
    truthy (Some n) = true ->
    (forall id d, vpcs (remote w) !! id = Some d -> vpc_Tags d !! "Name" <> Some n) ->
    (truthy ipv4_cidr = true /\
     forall c, ipaddress.IPv4Network_of_text (the ipv4_cidr) <> Ok c) \/
    (truthy instance_tenancy = true /\ the instance_tenancy <> "default"
     /\ the instance_tenancy <> "dedicated") ->
    exists msg,
      Vpc.__init__ None (Some n) ipv4_cidr instance_tenancy w
      = (Raise (ValueError msg),
         mkWorld (remote w) (registry w)
           (calls w ++ [Call.describe_tags "vpc" "Name" n]) (slept w)).
Proof.
  intros n ipv4_cidr instance_tenancy w Hname Hnone Hbad.
  unfold Vpc.__init__. rewrite Hname. cbn [truthy negb orb andb].
  rewrite (bind_step _ _ _ _ _ (Vpc_exists_already_no_such_name n w Hname Hnone)).
  cbv beta iota.
  set (w0 := mkWorld _ _ _ _).
  destruct (Vpc_block_argument ipv4_cidr w0) as [(c & Hrun & Hparse)|[msg Hrun]].
  - rewrite (bind_step _ _ _ _ _ Hrun).
    destruct Hbad as [[Htr Hno]|(Htr & Hn1 & Hn2)].
    + exfalso. exact (Hno c (Hparse Htr)).
    + rewrite Htr. apply String.eqb_neq in Hn1, Hn2. rewrite Hn1, Hn2.
      eexists. reflexivity.
  - rewrite (bind_fail _ _ _ _ _ Hrun). eexists. reflexivity.
Qed.

Lemma Vpc_creation_parameters_are_validated_first_witness :
  (exists msg,
     fst (Vpc.__init__ None (Some "net-b") (Some "10.0.0.1/16") None Sample.world0)
     = Raise (ValueError msg)) /\
  (exists msg,
     fst (Vpc.__init__ None (Some "net-b") (Some "010.0.0.0/8") None Sample.world0)
     = Raise (ValueError msg)) /\
  (exists msg,
     fst (Vpc.__init__ None (Some "net-b") None (Some "shared") Sample.world0)
     = Raise (ValueError msg)).
Proof.
  assert (Hnone : forall id d,
            vpcs (remote Sample.world0) !! id = Some d ->
            vpc_Tags d !! "Name" <> Some "net-b").
  { intros id d Hin. unfold Sample.world0, Sample.remote0 in Hin.
    cbn [remote vpcs] in Hin. apply lookup_singleton_Some in Hin.
    destruct Hin as [_ <-]. vm_compute. discriminate. }
  split; [| split].
  - destruct (Vpc_creation_parameters_are_validated_first "net-b"
                (Some "10.0.0.1/16") None Sample.world0 eq_refl Hnone) as [msg Hrun].
    + left. split; [reflexivity |]. intros c. vm_compute. discriminate.
    + exists msg. rewrite Hrun. reflexivity.
  - destruct (Vpc_creation_parameters_are_validated_first "net-b"
                (Some "010.0.0.0/8") None Sample.world0 eq_refl Hnone) as [msg Hrun].
    + left. split; [reflexivity |]. intros c. vm_compute. discriminate.
    + exists msg. rewrite Hrun. reflexivity.
  - destruct (Vpc_creation_parameters_are_validated_first "net-b"
                None (Some "shared") Sample.world0 eq_refl Hnone) as [msg Hrun].
    + right. split; [reflexivity |]. split; vm_compute; discriminate.
    + exists msg. rewrite Hrun. reflexivity.
Defined.

(** ** Destroying a network *)

(** What a completed loop over [delete_subnet] has done. *)
Lemma delete_subnets_Ok (l : list string) : forall w w',
  for_each l (fun subnet_id => EC2.delete_subnet subnet_id) w = (Ok tt, w') ->
  NoDup l /\
  (forall id, id ∈ l -> is_Some (subnets (remote w) !! id)) /\
  registry w' = registry w /\
  vpcs (remote w') = vpcs (remote w) /\
  security_groups (remote w') = security_groups (remote w) /\
  instances (remote w') = instances (remote w) /\
  (forall id, subnets (remote w') !! id
              = if decide (id ∈ l) then None else subnets (remote w) !! id).
Proof.
  induction l as [|x l IH]; intros w w' H.
  - simpl in H. unfold ret in H. simplify_eq.
    repeat split; try reflexivity; [constructor | intros id Hid; inversion Hid].
  - simpl in H. inv_bind H. unfold EC2.delete_subnet, gateway in Hrun.
    destruct (subnets (remote w) !! x) as [d|] eqn:Hx; [| discriminate].
    simplify_eq. apply IH in H.
    destruct H as (Hnd & Hall & Hreg & Hv & Hsg & Hi & Hsub).
    cbn [remote registry subnets vpcs security_groups instances set_subnets] in *.
    assert (Hxl : x ∉ l).
    { intros Hin. destruct (Hall x Hin) as [d' Hd'].
      rewrite lookup_delete_eq in Hd'. discriminate. }
    split; [constructor; assumption |].
    split.
    { intros id Hid. apply elem_of_cons in Hid as [->|Hid]; [eauto |].
      destruct (Hall id Hid) as [d' Hd'].
      destruct (decide (id = x)) as [->|Hne]; [eauto |].
      rewrite lookup_delete_ne in Hd' by congruence. eauto. }
    repeat split; try assumption.
    intros id. rewrite Hsub.
    destruct (decide (id ∈ l)) as [Hin|Hin].
    + rewrite decide_True; [reflexivity | right; exact Hin].
    + destruct (decide (id = x)) as [->|Hne].
      * rewrite decide_True; [| left]. apply lookup_delete_eq.
      * rewrite decide_False; [apply lookup_delete_ne; congruence |].
        intros Hc. apply elem_of_cons in Hc. destruct Hc; contradiction.
Qed.

(** X8: when [Vpc.clobber] returns, the network is gone from the remote,
    the subnets it listed are gone and no other subnet is touched, the
    security groups are as before and none of them belonged to the
    network, and the registry has lost the entry of the network and no
    other. *)
Theorem Vpc_clobber_removes_the_network :
  forall v w w',
    Vpc.clobber v w = (Ok tt, w') ->
    vpcs (remote w') = delete (Vpc.vpc_id v) (vpcs (remote w)) /\
    (forall id, subnets (remote w') !! id
                = if decide (id ∈ Vpc.subnet_ids v) then None
                  else subnets (remote w) !! id) /\
    security_groups (remote w') = security_groups (remote w) /\
    (forall sgid d, security_groups (remote w) !! sgid = Some d ->
                    sg_VpcId d <> Vpc.vpc_id v) /\
    registry w' = delete ("vpc", Vpc.vpc_id v) (registry w).
Proof.
  intros v w w' H. apply Vpc_clobber_Ok in H.
  destruct H as (w1 & w2 & Hsubnets & Hvpc & Hreg).
  apply delete_subnets_Ok in Hsubnets.
  destruct Hsubnets as (_ & _ & Hreg1 & Hv1 & Hsg1 & _ & Hsub1).
  unfold EC2.delete_vpc, gateway in Hvpc.
  destruct (vpcs (remote w1) !! Vpc.vpc_id v) as [d|]; [| discriminate].
  destruct (EC2.vpc_in_use (remote w1) (Vpc.vpc_id v)) eqn:Huse; [discriminate |].
  simplify_eq. unfold config.remove_resource in Hreg. simplify_eq.
  cbn [remote registry vpcs subnets security_groups set_vpcs].
  rewrite Hv1, Hsg1, Hreg1. repeat split; try reflexivity; [exact Hsub1 |].
  intros sgid d' Hd' Hattached.
  rewrite (vpc_in_use_security_group _ _ sgid d') in Huse;
    [discriminate | rewrite Hsg1; exact Hd' | exact Hattached].
Qed.

Lemma Vpc_clobber_removes_the_network_witness :
  exists w',
    Vpc.clobber Sample.vpc_a Sample.world1 = (Ok tt, w') /\
    vpcs (remote w') !! "vpc-a" = None /\
    subnets (remote w') !! "subnet-a" = None.
Proof.
  assert (Hrun : Vpc.clobber Sample.vpc_a Sample.world1
                 = (Ok tt, snd (Vpc.clobber Sample.vpc_a Sample.world1)))
    by (vm_compute; reflexivity).
  destruct (Vpc_clobber_removes_the_network _ _ _ Hrun) as (Hv & Hs & _).
  eexists. split; [exact Hrun |]. split.
  - rewrite Hv. apply lookup_delete_eq.
  - rewrite Hs. reflexivity.
Defined.

(** The calls a loop over [delete_subnet] logs, however it ends: one
    [delete_subnet] for each subnet it came to. *)
Lemma delete_subnets_log (l : list string) : forall w r w1,
  for_each l (fun subnet_id => EC2.delete_subnet subnet_id) w = (r, w1) ->
  exists k, calls w1 = (calls w ++ (Call.delete_subnet <$> take k l))%list.
Proof.
  induction l as [|x l IH]; intros w r w1 H.
  - exists 0. simpl in H. injection H as _ <-. simpl. rewrite app_nil_r. reflexivity.
  - simpl in H. unfold bind in H.
    destruct (EC2.delete_subnet x w) as [[u|e] w0] eqn:Hx.
    + apply IH in H as [k Hk]. exists (S k). rewrite Hk.
      unfold EC2.delete_subnet, gateway in Hx.
      destruct (subnets (remote w) !! x); injection Hx as _ <-; simpl;
        rewrite <- app_assoc; reflexivity.
    + injection H as _ <-. exists 1.
      unfold EC2.delete_subnet, gateway in Hx.
      destruct (subnets (remote w) !! x); injection Hx as _ <-; reflexivity.
Qed.

(** How [Vpc.clobber] comes to the not-deletable error when its call log
    shows the delete of the network: every listed subnet was deleted, and
    the delete of the network was refused. *)
Lemma Vpc_clobber_refused v w ids w' :
  Vpc.clobber v w = (Raise (CannotDeleteResourceException ids), w') ->
  Call.delete_vpc (Vpc.vpc_id v) ∈ drop (length (calls w)) (calls w') ->
  exists w1,
    for_each (Vpc.subnet_ids v) (fun subnet_id => EC2.delete_subnet subnet_id) w
    = (Ok tt, w1) /\
    is_Some (vpcs (remote w1) !! Vpc.vpc_id v) /\
    EC2.vpc_in_use (remote w1) (Vpc.vpc_id v) = true /\
    remote w' = remote w1 /\ registry w' = registry w1 /\
    ids = fst <$> filter (fun kv : string * SecurityGroupDesc =>
                            sg_VpcId kv.2 = Vpc.vpc_id v)
                    (map_to_list (security_groups (remote w1))).
Proof.
  unfold Vpc.clobber, catch.
  match goal with
  | |- context [match ?body w with _ => _ end] =>
      destruct (body w) as [[u0|e] w0] eqn:Hbody
  end; [discriminate |].
  apply bind_Raise in Hbody as [Hbody | (u & w1 & Hsubnets & Hbody)].
  - intros H Hlog. exfalso.
    apply delete_subnets_log in Hbody as [k Hk].
    assert (Hw' : exists tail,
              calls w'
              = (calls w ++ (Call.delete_subnet <$> take k (Vpc.subnet_ids v))
                 ++ tail)%list
              /\ Call.delete_vpc (Vpc.vpc_id v) ∉ tail).
    { destruct e; try discriminate.
      - destruct (String.eqb code "DependencyViolation"); [| discriminate].
        unfold bind, EC2.describe_security_groups_vpc, gateway, raise in H.
        simpl in H. injection H as _ <-.
        exists [Call.describe_security_groups_vpc (Vpc.vpc_id v)]. split.
        + simpl. rewrite Hk, <- app_assoc. reflexivity.
        + intros Hin. apply list_elem_of_singleton in Hin. discriminate.
      - injection H as _ <-. exists []. split.
        + rewrite Hk, app_nil_r. reflexivity.
        + intros Hin. inversion Hin. }
    destruct Hw' as (tail & Hw' & Htail).
    rewrite Hw', drop_app_length in Hlog.
    apply elem_of_app in Hlog as [Hlog|Hlog]; [| contradiction].
    apply list_elem_of_fmap in Hlog as (x & Hx & _). discriminate.
  - intros H _. destruct u.
    apply bind_Raise in Hbody as [Hbody | (u & w2 & _ & Hbody)];
      [| discriminate].
    unfold EC2.delete_vpc, gateway in Hbody.
    destruct (vpcs (remote w1) !! Vpc.vpc_id v) as [d|] eqn:Hd.
    + destruct (EC2.vpc_in_use (remote w1) (Vpc.vpc_id v)) eqn:Huse;
        [| discriminate].
      simplify_eq. simpl in H. unfold bind, EC2.describe_security_groups_vpc,
        gateway, raise in H. simpl in H. simplify_eq.
      exists w1. repeat split; eauto.
    + simplify_eq; simpl in H; discriminate.
Qed.

(** X9: when [Vpc.clobber] has failed with the not-deletable error and its
    call log shows that it came to the delete of the network (so every
    delete of a listed subnet was answered without an error), the subnets
    the instance lists are gone from the remote while the network and its
    registry entry are still there, and the error lists exactly the
    security groups of the network; if the instance lists a subnet,
    calling [clobber] on it again fails with the remote's not-found error
    for a subnet, whatever has been done to the security groups in
    between. *)
Theorem Vpc_clobber_refused_cannot_be_repeated :
  forall v w ids w',
    Vpc.clobber v w = (Raise (CannotDeleteResourceException ids), w') ->
    Call.delete_vpc (Vpc.vpc_id v) ∈ drop (length (calls w)) (calls w') ->
    (forall id, id ∈ Vpc.subnet_ids v -> subnets (remote w') !! id = None) /\
    is_Some (vpcs (remote w') !! Vpc.vpc_id v) /\
    registry w' = registry w /\
    (forall sgid, sgid ∈ ids <->
       exists d, security_groups (remote w) !! sgid = Some d
                 /\ sg_VpcId d = Vpc.vpc_id v) /\
    (Vpc.subnet_ids v <> [] ->
     forall w'', subnets (remote w'') = subnets (remote w') ->
       exists w''',
         Vpc.clobber v w''
         = (Raise (ClientError "InvalidSubnetID.NotFound"), w''')).
Proof.
  intros v w ids w' H Hlog. apply Vpc_clobber_refused in H; [| exact Hlog].
  destruct H as (w1 & Hsubnets & Hvpc & _ & Hrem & Hreg & ->).
  apply delete_subnets_Ok in Hsubnets.
  destruct Hsubnets as (_ & _ & Hreg1 & _ & Hsg1 & _ & Hsub1).
  assert (Hgone : forall id, id ∈ Vpc.subnet_ids v -> subnets (remote w') !! id = None).
  { intros id Hid. rewrite Hrem, Hsub1. rewrite decide_True by exact Hid. reflexivity. }
  split; [exact Hgone |]. split; [rewrite Hrem; exact Hvpc |].
  split; [congruence |]. split.
  - intros sgid. rewrite list_elem_of_fmap. split.
    + intros ([k d] & -> & Hin). apply list_elem_of_filter in Hin as [Hattached Hin].
      apply elem_of_map_to_list in Hin. rewrite Hsg1 in Hin. exists d. auto.
    + intros (d & Hd & Hattached). exists (sgid, d). split; [reflexivity |].
      apply list_elem_of_filter. split; [exact Hattached |].
      apply elem_of_map_to_list. rewrite Hsg1. exact Hd.
  - intros Hlisted w'' Hsame.
    destruct (Vpc.subnet_ids v) as [|x l] eqn:Hl; [contradiction |].
    unfold Vpc.clobber. rewrite Hl. simpl for_each.
    erewrite catch_fail.
    2:{ apply bind_fail. apply bind_fail.
        unfold EC2.delete_subnet, gateway. rewrite Hsame, Hgone by left.
        reflexivity. }
    simpl. eexists. reflexivity.
Qed.

Lemma Vpc_clobber_refused_cannot_be_repeated_witness :
  exists ids w',
    Vpc.clobber Sample.vpc_a Sample.world0
    = (Raise (CannotDeleteResourceException ids), w') /\
    calls w'
    = [Call.delete_subnet "subnet-a"; Call.delete_vpc "vpc-a";
       Call.describe_security_groups_vpc "vpc-a"] /\
    subnets (remote w') !! "subnet-a" = None /\
    exists w''',
      Vpc.clobber Sample.vpc_a w'
      = (Raise (ClientError "InvalidSubnetID.NotFound"), w''').
Proof.
  assert (Hrun : Vpc.clobber Sample.vpc_a Sample.world0
                 = (Raise (CannotDeleteResourceException ["sg-a"]),
                    snd (Vpc.clobber Sample.vpc_a Sample.world0)))
    by (vm_compute; reflexivity).
  assert (Hlog : calls (snd (Vpc.clobber Sample.vpc_a Sample.world0))
                 = [Call.delete_subnet "subnet-a"; Call.delete_vpc "vpc-a";
                    Call.describe_security_groups_vpc "vpc-a"])
    by (vm_compute; reflexivity).
  destruct (Vpc_clobber_refused_cannot_be_repeated _ _ _ _ Hrun)
    as (Hgone & _ & _ & _ & Hagain).
  { rewrite Hlog. simpl. right. left. }
  eexists _, _. split; [exact Hrun |]. split; [exact Hlog |]. split.
  - apply Hgone. left.
  - apply Hagain; [discriminate | reflexivity].
Defined.

(** ** Creating a security group *)

Lemma SecurityGroup_exists_already_by_name n vpc_id id d w :
  security_groups (remote w) !! id = Some d ->
  sg_GroupName d = n -> sg_VpcId d = vpc_id ->
  (forall id' d', security_groups (remote w) !! id' = Some d' ->
                  sg_GroupName d' = n /\ sg_VpcId d' = vpc_id -> id' = id) ->
  SecurityGroup._exists_already None (Some n) (Some vpc_id) w
  = (Ok (SecurityGroup.Exists n vpc_id (sg_Description d) id),
     mkWorld (remote w) (registry w)
       (calls w ++ [Call.describe_security_groups_name n vpc_id]) (slept w)).
Proof.
  intros Hd Hn Hv Huniq. unfold SecurityGroup._exists_already. cbn [truthy].
  erewrite bind_step.
  2:{ erewrite bind_step; [reflexivity |].
      unfold EC2.describe_security_groups_name, gateway. simpl the.
      rewrite (filter_map_to_list_unique _ _ id d Hd (conj Hn Hv) Huniq).
      reflexivity. }
  cbn [fst snd]. rewrite Hn, Hv. reflexivity.
Qed.

Lemma SecurityGroup_exists_already_no_such_name n vpc_id w :
  (forall id d, security_groups (remote w) !! id = Some d ->
                ~ (sg_GroupName d = n /\ sg_VpcId d = vpc_id)) ->
  SecurityGroup._exists_already None (Some n) (Some vpc_id) w
  = (Ok SecurityGroup.NotExists,
     mkWorld (remote w) (registry w)
       (calls w ++ [Call.describe_security_groups_name n vpc_id]) (slept w)).
Proof.
  intros Hnone. unfold SecurityGroup._exists_already. cbn [truthy].
  erewrite bind_step.
  2:{ erewrite bind_step; [reflexivity |].
      unfold EC2.describe_security_groups_name, gateway. simpl the.
      rewrite filter_none; [reflexivity |].
      intros [id d] Hin. apply elem_of_map_to_list in Hin. exact (Hnone id d Hin). }
  reflexivity.
Qed.

(** X10: constructing a SecurityGroup from a name and a Vpc, when the
    network exists and has no group of that name, creates the group on the
    remote and then fails with [AttributeError]: the exception class
    handed to the retry loop is looked up as [ClientErro].  The group is
    left on the remote without ingress rule or tag, the registry is as
    before, and the same construction tried again fails with
    [ResourceExistsException] carrying the identifier of that group. *)
Theorem SecurityGroup_creation_leaves_the_group_and_fails :
  forall n v description w,
    truthy (Some n) = true ->
    is_Some (vpcs (remote w) !! Vpc.vpc_id v) ->
    (forall id d, security_groups (remote w) !! id = Some d ->
                  ~ (sg_GroupName d = n /\ sg_VpcId d = Vpc.vpc_id v)) ->
    let text :=
      if truthy description then the description
      else "This security group was automatically generated by cloudknot." in
    let group_id := fresh_id "sg-" (remote w) in
    exists w',
      SecurityGroup.__init__ None (Some n) (SecurityGroup.VpcInstance v) description w
      = (Raise (AttributeError "ClientErro"), w') /\
      security_groups (remote w')
      = <[group_id := mkSecurityGroupDesc n (Vpc.vpc_id v) text [] ∅]>
          (security_groups (remote w)) /\
      registry w' = registry w /\
      exists w'',
        SecurityGroup.__init__ None (Some n) (SecurityGroup.VpcInstance v)
          description w'
        = (Raise (ResourceExistsException group_id), w'').
Proof.
  intros n v description w Hname [vd Hvpc] Hnone text group_id.
  set (d := mkSecurityGroupDesc n (Vpc.vpc_id v) text [] ∅).
  set (w' := mkWorld
               (bump_next_id (set_security_groups (insert group_id d) (remote w)))
               (registry w)
               (calls w ++ [Call.describe_security_groups_name n (Vpc.vpc_id v);
                            Call.create_security_group n text (Vpc.vpc_id v)])
               (slept w)).
  exists w'. split; [| split; [reflexivity | split; [reflexivity |]]].
  - unfold SecurityGroup.__init__. rewrite Hname.
    cbn [truthy negb orb andb SecurityGroup.vpc_truthy SecurityGroup.isinstance_Vpc].
    rewrite (bind_step _ _ _ _ _
               (SecurityGroup_exists_already_no_such_name n _ w Hnone)).
    cbv beta iota. fold text.
    apply bind_fail. unfold SecurityGroup._create.
    erewrite bind_step.
    2:{ unfold EC2.create_security_group, gateway. cbn [remote]. rewrite Hvpc.
        rewrite existsb_false_intro; [reflexivity |].
        intros [id sd] Hin. apply elem_of_map_to_list in Hin. simpl.
        apply andb_false_iff.
        destruct (String.eqb_spec (sg_GroupName sd) n) as [Hn|]; [| auto].
        destruct (String.eqb_spec (sg_VpcId sd) (Vpc.vpc_id v)) as [Hv|]; [| auto].
        exfalso. exact (Hnone id sd Hin (conj Hn Hv)). }
    apply bind_fail. unfold lift, w'.
    change (botocore.exceptions "ClientErro")
      with (@Raise (exn -> bool) (AttributeError "ClientErro")).
    cbn [remote registry calls slept]. rewrite <- app_assoc. reflexivity.
  - unfold SecurityGroup.__init__. rewrite Hname.
    cbn [truthy negb orb andb SecurityGroup.vpc_truthy SecurityGroup.isinstance_Vpc].
    erewrite bind_step.
    2:{ apply (SecurityGroup_exists_already_by_name n (Vpc.vpc_id v) group_id d);
          try reflexivity.
        - unfold w'. cbn [remote security_groups set_security_groups bump_next_id].
          apply lookup_insert_eq.
        - intros id' d' Hin Hsame. unfold w' in Hin.
          cbn [remote security_groups set_security_groups bump_next_id] in Hin.
          destruct (decide (id' = group_id)) as [->|Hne]; [reflexivity |].
          rewrite lookup_insert_ne in Hin by congruence.
          exfalso. exact (Hnone id' d' Hin Hsame). }
    cbn [orb]. eexists. reflexivity.
Qed.

Lemma SecurityGroup_creation_leaves_the_group_and_fails_witness :
  exists w',
    SecurityGroup.__init__ None (Some "group-b") (SecurityGroup.VpcInstance Sample.vpc_a)
      None Sample.world0
    = (Raise (AttributeError "ClientErro"), w') /\
    is_Some (security_groups (remote w') !! "sg-0") /\
    registry w' = registry Sample.world0 /\
    exists w'',
      SecurityGroup.__init__ None (Some "group-b")
        (SecurityGroup.VpcInstance Sample.vpc_a) None w'
      = (Raise (ResourceExistsException "sg-0"), w'').
Proof.
  destruct (SecurityGroup_creation_leaves_the_group_and_fails "group-b" Sample.vpc_a
              None Sample.world0) as (w' & Hrun & Hsg & Hreg & Hagain).
  - reflexivity.
  - eexists. vm_compute. reflexivity.
  - intros id d Hin. unfold Sample.world0, Sample.remote0 in Hin.
    cbn [remote security_groups] in Hin. apply lookup_singleton_Some in Hin.
    destruct Hin as [_ <-]. simpl. intros [Hn _]. discriminate.
  - exists w'. split; [exact Hrun |]. split; [| split; [exact Hreg | exact Hagain]].
    rewrite Hsg. rewrite lookup_insert_eq. eauto.
Defined.

(** ** Validation errors *)

(** The answer of a gateway call never is a [ValueError]. *)
Ltac gateway_no_ValueError :=
  intros ? ? ?; unfold IAM.NoSuchEntity; cbv beta;
  repeat case_match; intros [= <- ?]; exact I.

(** Proves [raises_in not_ValueError m] along the structure of [m]. *)
Ltac no_ValueError :=
  repeat (intros;
    match goal with
    | |- raises_in _ (ret _) => apply raises_in_ret
    | |- raises_in _ (raise _) =>
        apply raises_in_raise; subst; first [exact I | assumption]
    | |- raises_in _ (lift _) =>
        apply raises_in_lift; intros ? ?; subst; first [exact I | assumption]
    | |- raises_in _ (bind _ _) => apply raises_in_bind
    | |- raises_in _ (catch _ _) => apply raises_in_catch
    | |- raises_in _ (gateway _ _) => apply raises_in_gateway; gateway_no_ValueError
    | |- raises_in _ (sleep _) => apply raises_in_sleep
    | |- raises_in _ (config.add_resource _ _ _) => apply raises_in_add_resource
    | |- raises_in _ (config.remove_resource _ _) => apply raises_in_remove_resource
    | |- raises_in _ (tenacity.call _ _) =>
        apply raises_in_call; [intros ? ?; exact I | exact I | exact I |]
    | |- raises_in _ (for_each _ _) => apply raises_in_for_each
    | |- raises_in _ (fun w => _ (length (policy_pages (remote w))) _ _ w) =>
        apply (raises_in_with_world _ (fun w => length (policy_pages (remote w))))
    | |- raises_in _ (if ?b then _ else _) => destruct b
    | |- raises_in _ (match ?x with _ => _ end) => destruct x eqn:?
    | |- raises_in _ ?m => let h := head_of m in progress unfold h
    end).

Lemma SecurityGroup_exists_already_no_ValueError security_group_id name vpc_id :
  raises_in not_ValueError
    (SecurityGroup._exists_already security_group_id name vpc_id).
Proof. no_ValueError. Qed.

Lemma SecurityGroup_create_no_ValueError name description vpc :
  raises_in not_ValueError (SecurityGroup._create name description vpc).
Proof.
  unfold SecurityGroup._create. apply raises_in_bind; [no_ValueError |].
  intros group_id. apply raises_in_bind.
  - apply raises_in_lift. intros e [= <-]. exact I.
  - intros cls. no_ValueError.
Qed.

(** X11: whenever the constructor of SecurityGroup fails with
    [ValueError], nothing at all has happened: no call has been issued, and
    the remote, the registry and the call log are as before. *)
Theorem SecurityGroup_ValueError_comes_first :
  forall security_group_id name vpc description w msg w',
    SecurityGroup.__init__ security_group_id name vpc description w
    = (Raise (ValueError msg), w') ->
    w' = w.
Proof.
  intros sgid name vpc description w msg w' H.
  unfold SecurityGroup.__init__ in H.
  destruct (negb _); [injection H as _ <-; reflexivity |].
  destruct (truthy sgid && _); [injection H as _ <-; reflexivity |].
  destruct (SecurityGroup.vpc_truthy vpc && _); [injection H as _ <-; reflexivity |].
  exfalso.
  apply bind_Raise in H as [H | (r & w1 & _ & H)].
  - apply SecurityGroup_exists_already_no_ValueError in H. exact H.
  - destruct r as [r_name r_vpc_id r_description r_id|].
    + destruct (truthy name || _); [discriminate |].
      apply bind_Raise in H as [H | (u & w2 & _ & H)]; discriminate.
    + destruct (truthy sgid); [discriminate |].
      destruct vpc as [|v|]; try discriminate.
      apply bind_Raise in H as [H | (u & w2 & _ & H)]; [| discriminate].
      apply SecurityGroup_create_no_ValueError in H. exact H.
Qed.

Lemma SecurityGroup_ValueError_comes_first_witness :
  SecurityGroup.__init__ (Some "sg-a") (Some "group-a") SecurityGroup.VpcNone None
    Sample.world0
  = (Raise (ValueError
       "You must specify either a security group id for an existing security group or input parameters for a new security group. You cannot do both."),
     Sample.world0).
Proof.
  assert (H : exists w',
            SecurityGroup.__init__ (Some "sg-a") (Some "group-a")
              SecurityGroup.VpcNone None Sample.world0
            = (Raise (ValueError
                 "You must specify either a security group id for an existing security group or input parameters for a new security group. You cannot do both."),
               w')) by (eexists; reflexivity).
  destruct H as [w' H].
  rewrite <- (SecurityGroup_ValueError_comes_first _ _ _ _ _ _ _ H) at 2. exact H.
Defined.

(** ** Destroying a security group *)

Lemma dependents_of_reservations (P : string * InstanceDesc -> Prop)
  `{!forall i, Decision (P i)} (l : list (string * InstanceDesc)) : forall acc,
  foldl (fun deps r => (deps ++ (fst <$> filter P r))%list) acc
    ((fun kv => [kv]) <$> l)
  = (acc ++ (fst <$> filter P l))%list.
Proof.
  induction l as [|x l IH]; intros acc; simpl.
  - rewrite app_nil_r. reflexivity.
  - rewrite IH. change (x :: l) with ([x] ++ l)%list.
    rewrite (filter_app P [x] l), fmap_app, app_assoc. reflexivity.
Qed.

Lemma lookup_foldr_delete_list {A} (m : gmap string A) (l : list string) k :
  foldr delete m l !! k = if decide (k ∈ l) then None else m !! k.
Proof.
  induction l as [|x l IH]; cbn [foldr].
  - destruct (decide (k ∈ [])) as [H|_]; [inversion H | reflexivity].
  - destruct (decide (k = x)) as [->|Hne].
    + rewrite lookup_delete_eq, decide_True; [reflexivity | left].
    + rewrite lookup_delete_ne by congruence. rewrite IH.
      destruct (decide (k ∈ l)) as [Hin|Hin].
      * rewrite decide_True; [reflexivity | right; exact Hin].
      * rewrite decide_False; [reflexivity |].
        intros Hc. apply elem_of_cons in Hc. destruct Hc; contradiction.
Qed.

Lemma elem_of_dependent_instances w vpc_id sg_id id :
  id ∈ dependent_instances w vpc_id sg_id <->
  exists i, instances (remote w) !! id = Some i /\ inst_VpcId i = vpc_id
            /\ sg_id ∈ inst_SecurityGroups i.
Proof.
  unfold dependent_instances. rewrite list_elem_of_fmap. split.
  - intros ([k i] & -> & Hin). apply list_elem_of_filter in Hin as [Huses Hin].
    apply list_elem_of_filter in Hin as [Hvpc Hin].
    apply elem_of_map_to_list in Hin. unfold SecurityGroup.has_security_group in Huses.
    apply bool_decide_eq_true in Huses. exists i. auto.
  - intros (i & Hi & Hvpc & Huses). exists (id, i). split; [reflexivity |].
    apply list_elem_of_filter. split.
    + unfold SecurityGroup.has_security_group. apply bool_decide_eq_true. exact Huses.
    + apply list_elem_of_filter. split; [exact Hvpc |].
      apply elem_of_map_to_list. exact Hi.
Qed.

(** X12: [SecurityGroup.clobber], for a group that exists, that no
    compute environment uses and whose users are all instances of the
    group's network, terminates exactly the instances of that network that
    use the group (in one call, and in no call when there is none), deletes
    the group and removes its registry entry; the other instances and
    groups are left as they were. *)
Theorem SecurityGroup_clobber_terminates_the_dependents :
  forall sg w d,
    let sg_id := SecurityGroup.security_group_id sg in
    let deps := dependent_instances w (SecurityGroup.vpc_id sg) sg_id in
    security_groups (remote w) !! sg_id = Some d ->
    (forall id i, instances (remote w) !! id = Some i ->
                  sg_id ∈ inst_SecurityGroups i ->
                  inst_VpcId i = SecurityGroup.vpc_id sg) ->
    (forall ce, ce ∈ compute_environments (remote w) ->
                sg_id ∉ securityGroupIds ce) ->
    exists w',
      SecurityGroup.clobber sg w = (Ok tt, w') /\
      instances (remote w') = foldr delete (instances (remote w)) deps /\
      security_groups (remote w') = delete sg_id (security_groups (remote w)) /\
      registry w' = delete ("security-groups", sg_id) (registry w) /\
      calls w'
      = (calls w
         ++ [Call.describe_instances (SecurityGroup.vpc_id sg)]
         ++ match deps with
            | [] => []
            | _ => [Call.terminate_instances deps]
            end
         ++ [Call.describe_compute_environments None;
             Call.delete_security_group sg_id])%list.
Proof.
  intros sg w d sg_id deps Hd Hin_vpc Hce.
  unfold SecurityGroup.clobber.
  erewrite bind_step; [| reflexivity].
  rewrite dependents_of_reservations. rewrite app_nil_l.
  fold sg_id. change (fst <$> filter _ (filter _ _)) with deps.
  set (w0 := mkWorld (remote w) (registry w)
               (calls w ++ [Call.describe_instances (SecurityGroup.vpc_id sg)])
               (slept w)).
  set (log := match deps with
              | [] => []
              | _ => [Call.terminate_instances deps]
              end).
  set (w1 := mkWorld (set_instances (fun m => foldr delete m deps) (remote w))
               (registry w) (calls w0 ++ log) (slept w)).
  assert (Hterm : (match deps with
                   | [] => ret tt
                   | _ => EC2.terminate_instances deps
                   end) w0 = (Ok tt, w1)).
  { assert (Hall : forallb (fun id => bool_decide (is_Some (instances (remote w0) !! id)))
                     deps = true).
    { apply forallb_elem_of. intros id Hid. apply bool_decide_eq_true.
      apply elem_of_dependent_instances in Hid as (i & Hi & _). eauto. }
    unfold w1, log. destruct deps as [|x l] eqn:Hdeps.
    - unfold ret, w0. simpl. rewrite app_nil_r. destruct (remote w); reflexivity.
    - unfold EC2.terminate_instances, gateway. rewrite Hall. reflexivity. }
  rewrite (bind_step _ _ _ _ _ Hterm).
  erewrite bind_step; [| reflexivity].
  rewrite filter_none.
  2:{ intros ce Hin. apply Hce. exact Hin. }
  simpl for_each.
  erewrite bind_step; [| reflexivity].
  erewrite bind_step.
  2:{ apply catch_step. unfold EC2.delete_security_group, gateway, w1.
      cbn [remote security_groups set_instances]. fold sg_id. rewrite Hd.
      unfold EC2.security_group_in_use.
      cbn [instances compute_environments set_instances].
      rewrite !existsb_false_intro; [reflexivity | |].
      - intros ce Hin. apply bool_decide_eq_false. apply Hce. exact Hin.
      - intros [id i] Hin. apply elem_of_map_to_list in Hin.
        rewrite lookup_foldr_delete_list in Hin.
        destruct (decide (id ∈ deps)) as [|Hout]; [discriminate |].
        apply bool_decide_eq_false. intros Huses. apply Hout.
        apply elem_of_dependent_instances. exists i. eauto. }
  eexists. split; [reflexivity |]. unfold w1, w0.
  cbn [remote registry calls instances security_groups set_instances
       set_security_groups].
  repeat split. rewrite <- !app_assoc. reflexivity.
Qed.

Lemma SecurityGroup_clobber_terminates_the_dependents_witness :
  exists w',
    SecurityGroup.clobber Sample.sg_a Cases.with_instances = (Ok tt, w') /\
    instances (remote w') !! "i-1" = None /\
    instances (remote w') !! "i-2" = Some (mkInstanceDesc "vpc-a" []) /\
    security_groups (remote w') !! "sg-a" = None /\
    Call.terminate_instances ["i-1"] ∈ calls w'.
Proof.
  destruct (SecurityGroup_clobber_terminates_the_dependents Sample.sg_a
              Cases.with_instances
              (mkSecurityGroupDesc "group-a" "vpc-a" "a group" [] ∅))
    as (w' & Hrun & Hinst & Hsg & _ & Hlog).
  - reflexivity.
  - intros id i Hin Huses. unfold Cases.with_instances in Hin.
    cbn [remote instances] in Hin.
    apply lookup_insert_Some in Hin as [[_ <-]|[_ Hin]]; [reflexivity |].
    apply lookup_singleton_Some in Hin as [_ <-]. reflexivity.
  - intros ce Hin. inversion Hin.
  - exists w'. split; [exact Hrun |]. rewrite Hinst, Hsg, Hlog.
    split; [vm_compute; reflexivity |]. split; [vm_compute; reflexivity |].
    split; [vm_compute; reflexivity |].
    vm_compute. right. left.
Defined.

(** X13: when the remote refuses the delete of the group with a
    dependency violation, [SecurityGroup.clobber] sleeps thirty seconds
    and asks once more; a second refusal is passed on as it is, and the
    group and its registry entry are left.  Here the group is used by
    something [clobber] does not look for: no instance of the group's
    network and no compute environment. *)
Theorem SecurityGroup_clobber_asks_twice :
  forall sg w d,
    let sg_id := SecurityGroup.security_group_id sg in
    security_groups (remote w) !! sg_id = Some d ->
    dependent_instances w (SecurityGroup.vpc_id sg) sg_id = [] ->
    (forall ce, ce ∈ compute_environments (remote w) ->
                sg_id ∉ securityGroupIds ce) ->
    EC2.security_group_in_use (remote w) sg_id = true ->
    SecurityGroup.clobber sg w
    = (Raise (ClientError "DependencyViolation"),
       mkWorld (remote w) (registry w)
         (calls w ++ [Call.describe_instances (SecurityGroup.vpc_id sg);
                      Call.describe_compute_environments None;
                      Call.delete_security_group sg_id;
                      Call.delete_security_group sg_id])
         (slept w + 30)).
Proof.
  intros sg w d sg_id Hd Hdeps Hce Huse.
  unfold SecurityGroup.clobber.
  erewrite bind_step; [| reflexivity].
  rewrite dependents_of_reservations. rewrite app_nil_l.
  fold sg_id. unfold dependent_instances in Hdeps. rewrite Hdeps.
  erewrite bind_step; [| reflexivity].
  erewrite bind_step; [| reflexivity].
  rewrite filter_none.
  2:{ intros ce Hin. apply Hce. exact Hin. }
  simpl for_each.
  erewrite bind_step; [| reflexivity].
  apply bind_fail.
  assert (Hrefused : forall w1, remote w1 = remote w ->
            EC2.delete_security_group sg_id w1
            = (Raise (ClientError "DependencyViolation"),
               mkWorld (remote w1) (registry w1)
                 (calls w1 ++ [Call.delete_security_group sg_id]) (slept w1))).
  { intros w1 Hrem. unfold EC2.delete_security_group, gateway.
    rewrite Hrem, Hd, Huse. reflexivity. }
  erewrite catch_fail; [| apply Hrefused; reflexivity].
  cbn [String.eqb Ascii.eqb Bool.eqb andb].
  erewrite bind_step; [| reflexivity].
  rewrite Hrefused by reflexivity.
  cbn [remote registry calls slept]. rewrite <- !app_assoc. reflexivity.
Qed.

Lemma SecurityGroup_clobber_asks_twice_witness :
  SecurityGroup.clobber Sample.sg_a Cases.with_foreign_user
  = (Raise (ClientError "DependencyViolation"),
     mkWorld (remote Cases.with_foreign_user) (registry Cases.with_foreign_user)
       [Call.describe_instances "vpc-a"; Call.describe_compute_environments None;
        Call.delete_security_group "sg-a"; Call.delete_security_group "sg-a"]
       30).
Proof.
  apply (SecurityGroup_clobber_asks_twice Sample.sg_a Cases.with_foreign_user
           (mkSecurityGroupDesc "group-a" "vpc-a" "a group" [] ∅)).
  - reflexivity.
  - vm_compute. reflexivity.
  - intros ce Hin. inversion Hin.
  - vm_compute. reflexivity.
Defined.

(** ** The policy catalog *)

Lemma list_policies_run marker w :
  IAM.list_policies marker w
  = (Ok (page_of (policy_pages (remote w)) (default 0 marker)),
     mkWorld (remote w) (registry w) (calls w ++ [Call.list_policies marker])
       (slept w)).
Proof. reflexivity. Qed.

Lemma next_pages_step i n :
  S i < n -> next_pages (S i) n = Call.list_policies (Some (S i)) :: next_pages (S (S i)) n.
Proof.
  intros Hlt. unfold next_pages.
  replace (n - S i) with (S (n - S (S i))) by lia. reflexivity.
Qed.

Lemma next_pages_done i n : n <= i -> next_pages i n = [].
Proof. intros Hle. unfold next_pages. replace (n - i) with 0 by lia. reflexivity. Qed.

(** The loop [while response['IsTruncated']], from the page of index [i]
    on. *)
Lemma more_policies_run (fuel : nat) : forall i acc w,
  length (policy_pages (remote w)) - S i <= fuel ->
  IamRole.more_policies fuel (page_of (policy_pages (remote w)) i) acc w
  = (Ok (acc ++ (PolicyName <$> concat (drop (S i) (policy_pages (remote w)))))%list,
     mkWorld (remote w) (registry w)
       (calls w ++ next_pages (S i) (length (policy_pages (remote w))))%list
       (slept w)).
Proof.
  induction fuel as [|fuel IH]; intros i acc w Hfuel.
  - destruct (Nat.ltb_spec (S i) (length (policy_pages (remote w)))) as [Hlt|Hge];
      [lia |].
    simpl. unfold page_of. cbn [IAM.IsTruncated].
    destruct (Nat.ltb_spec (S i) (length (policy_pages (remote w)))); [lia |].
    rewrite drop_ge by lia. rewrite next_pages_done by lia.
    simpl. rewrite !app_nil_r. destruct w; reflexivity.
  - cbn [IamRole.more_policies]. unfold page_of at 1. cbn [IAM.IsTruncated].
    destruct (Nat.ltb_spec (S i) (length (policy_pages (remote w)))) as [Hlt|Hge].
    + erewrite bind_step.
      2:{ unfold IamRole.Marker_of, page_of. cbn [IAM.Marker].
          destruct (Nat.ltb_spec (S i) (length (policy_pages (remote w)))); [| lia].
          reflexivity. }
      rewrite (bind_step _ _ _ _ _ (list_policies_run _ _)).
      change (default 0 (Some (S i))) with (S i).
      set (w1 := mkWorld _ _ _ _).
      change (policy_pages (remote w)) with (policy_pages (remote w1)).
      rewrite IH by (unfold w1; cbn [remote]; lia).
      unfold w1. cbn [remote registry calls slept].
      destruct (lookup_lt_is_Some_2 (policy_pages (remote w)) (S i) Hlt) as [page Hpage].
      rewrite (drop_S _ _ _ Hpage). cbn [concat]. rewrite fmap_app.
      unfold page_of. cbn [IAM.Policies]. rewrite Hpage. cbn [default].
      rewrite (next_pages_step i) by exact Hlt.
      rewrite <- !app_assoc. reflexivity.
    + unfold ret. rewrite drop_ge by lia. rewrite next_pages_done by lia.
      simpl. rewrite !app_nil_r. destruct w; reflexivity.
Qed.

(** X14: the constructor's listing of the policy catalog follows the
    markers through every page: it returns the policy names of all pages in
    page order, after one [list_policies] call per page (one call when
    there is no page), and changes neither the remote nor the registry. *)
Theorem all_aws_policies_lists_every_page :
  forall w,
    IamRole.all_aws_policies w
    = (Ok (PolicyName <$> concat (policy_pages (remote w))),
       mkWorld (remote w) (registry w)
         (calls w ++ Call.list_policies None
                     :: next_pages 1 (length (policy_pages (remote w))))%list
         (slept w)).
Proof.
  intros w. unfold IamRole.all_aws_policies.
  rewrite (bind_step _ _ _ _ _ (list_policies_run _ _)).
  change (default 0 None) with 0. cbn [remote].
  set (w1 := mkWorld _ _ _ _).
  change (policy_pages (remote w)) with (policy_pages (remote w1)).
  rewrite more_policies_run by (unfold w1; cbn [remote]; lia).
  unfold w1. cbn [remote registry calls slept].
  rewrite <- app_assoc. cbn [app]. f_equal. f_equal.
  unfold page_of. cbn [IAM.Policies].
  destruct (policy_pages (remote w)) as [|page rest]; [reflexivity |].
  cbn [lookup list_lookup default drop concat]. rewrite drop_0, fmap_app. reflexivity.
Qed.

(** The loop [while not len(policy_filter)], from the page of index [i]
    on. *)
Lemma policy_filter_from_run policy (fuel : nat) : forall i w,
  i < length (policy_pages (remote w)) ->
  length (policy_pages (remote w)) - i <= fuel ->
  exists w',
    IamRole.policy_filter_from fuel policy (page_of (policy_pages (remote w)) i) w
    = (match head (filter (fun p => PolicyName p = policy)
                     (concat (drop i (policy_pages (remote w))))) with
       | Some p => Ok p
       | None => Raise (KeyError "Marker")
       end, w') /\
    remote w' = remote w /\ registry w' = registry w.
Proof.
  induction fuel as [|fuel IH]; intros i w Hi Hfuel; [lia |].
  destruct (lookup_lt_is_Some_2 (policy_pages (remote w)) i Hi) as [page Hpage].
  rewrite (drop_S _ _ _ Hpage). cbn [concat]. rewrite filter_app.
  cbn [IamRole.policy_filter_from]. unfold page_of at 1. cbn [IAM.Policies].
  rewrite Hpage. change (default [] (Some page)) with page.
  destruct (filter (fun p => PolicyName p = policy) page) as [|p l] eqn:Hfilter.
  - cbn [app]. cbv beta iota.
    destruct (Nat.ltb_spec (S i) (length (policy_pages (remote w)))) as [Hlt|Hge].
    + set (w1 := mkWorld (remote w) (registry w)
                   (calls w ++ [Call.list_policies (Some (S i))]) (slept w)).
      destruct (IH (S i) w1) as (w' & Hrun & Hrem & Hreg);
        [exact Hlt | unfold w1; cbn [remote]; lia |].
      exists w'. split; [| split; [exact Hrem | exact Hreg]].
      erewrite bind_step.
      2:{ unfold IamRole.Marker_of, page_of. cbn [IAM.Marker].
          destruct (Nat.ltb_spec (S i) (length (policy_pages (remote w)))); [| lia].
          reflexivity. }
      rewrite (bind_step _ _ _ _ _ (list_policies_run _ _)).
      change (default 0 (Some (S i))) with (S i). exact Hrun.
    + rewrite drop_ge by lia. cbn [concat filter head].
      exists w. split; [| split; reflexivity].
      erewrite bind_fail; [reflexivity |].
      unfold IamRole.Marker_of, page_of. cbn [IAM.Marker].
      destruct (Nat.ltb_spec (S i) (length (policy_pages (remote w)))); [lia |].
      reflexivity.
  - cbn [app head]. cbv beta iota. exists w. repeat split.
Qed.

(** X15: the lookup of a policy's ARN, as [_create] and [clobber] do it,
    walks the pages of a non-empty catalog in order: it returns the ARN of
    the first policy of that name, and for a name on no page it fails with
    [KeyError] for the key [Marker], which the last page does not have.
    The remote and the registry are not changed. *)
Theorem policy_arn_of_walks_the_pages :
  forall policy w,
    policy_pages (remote w) <> [] ->
    exists w',
      IamRole.policy_arn_of policy w
      = (match head (filter (fun p => PolicyName p = policy)
                       (concat (policy_pages (remote w)))) with
         | Some p => Ok (PolicyArn p)
         | None => Raise (KeyError "Marker")
         end, w') /\
      remote w' = remote w /\ registry w' = registry w.
Proof.
  intros policy w Hpages. unfold IamRole.policy_arn_of.
  rewrite (bind_step _ _ _ _ _ (list_policies_run _ _)).
  change (default 0 None) with 0.
  set (w1 := mkWorld _ _ _ _).
  assert (Hlen : 0 < length (policy_pages (remote w))).
  { destruct (policy_pages (remote w)); [contradiction | simpl; lia]. }
  destruct (policy_filter_from_run policy (length (policy_pages (remote w1))) 0 w1)
    as (w' & Hrun & Hrem & Hreg).
  - exact Hlen.
  - lia.
  - rewrite drop_0 in Hrun. unfold bind.
    change (policy_pages (remote w)) with (policy_pages (remote w1)).
    rewrite Hrun. exists w'.
    split; [| split; [exact Hrem | exact Hreg]].
    destruct (head _); reflexivity.
Qed.

Lemma policy_arn_of_walks_the_pages_witness :
  (exists w', IamRole.policy_arn_of "Q" Sample.world0 = (Ok "arn:Q", w')) /\
  (exists w', IamRole.policy_arn_of "R" Sample.world0
              = (Raise (KeyError "Marker"), w')).
Proof.
  assert (Hpages : policy_pages (remote Sample.world0) <> []) by discriminate.
  split.
  - destruct (policy_arn_of_walks_the_pages "Q" Sample.world0 Hpages)
      as (w' & Hrun & _).
    exists w'. exact Hrun.
  - destruct (policy_arn_of_walks_the_pages "R" Sample.world0 Hpages)
      as (w' & Hrun & _).
    exists w'. exact Hrun.
Defined.

(** ** Validation errors of the role constructor *)

Lemma policy_filter_from_no_ValueError fuel policy response :
  raises_in not_ValueError (IamRole.policy_filter_from fuel policy response).
Proof.
  revert response. induction fuel as [|fuel IH]; intros response; simpl.
  - destruct (filter _ _); no_ValueError.
  - destruct (filter _ _); [| no_ValueError].
    apply raises_in_bind; [no_ValueError |]. intros marker.
    apply raises_in_bind; [no_ValueError |]. intros response'. apply IH.
Qed.

Lemma policy_arn_of_no_ValueError policy :
  raises_in not_ValueError (IamRole.policy_arn_of policy).
Proof.
  unfold IamRole.policy_arn_of.
  apply raises_in_bind; [no_ValueError |]. intros response.
  apply raises_in_bind; [| no_ValueError].
  apply (raises_in_with_world _ (fun w => length (policy_pages (remote w)))
           (fun n => IamRole.policy_filter_from n policy response)).
  intros n. apply policy_filter_from_no_ValueError.
Qed.

Lemma IamRole_create_no_ValueError gsn name description doc policies flag :
  raises_in not_ValueError (IamRole._create gsn name description doc policies flag).
Proof.
  unfold IamRole._create.
  apply raises_in_bind; [no_ValueError |]. intros role_arn.
  apply raises_in_bind.
  { apply raises_in_for_each. intros policy.
    apply raises_in_bind; [apply policy_arn_of_no_ValueError | no_ValueError]. }
  intros _. no_ValueError.
Qed.

Lemma IamRole_exists_already_reads name w :
  remote (snd (IamRole._exists_already name w)) = remote w /\
  registry (snd (IamRole._exists_already name w)) = registry w.
Proof.
  split.
  - apply (IamRole_exists_already_keeps_remote name w).
  - apply (IamRole_exists_already_keeps_registry name w).
Qed.

Lemma all_aws_policies_reads w :
  exists l w',
    IamRole.all_aws_policies w = (Ok l, w') /\
    remote w' = remote w /\ registry w' = registry w.
Proof.
  unfold IamRole.all_aws_policies.
  rewrite (bind_step _ _ _ _ _ (list_policies_run _ _)).
  change (default 0 None) with 0.
  set (w1 := mkWorld _ _ _ _).
  change (policy_pages (remote w)) with (policy_pages (remote w1)).
  rewrite more_policies_run by (unfold w1; cbn [remote]; lia).
  eexists _, _. split; [reflexivity |]. split; reflexivity.
Qed.

(** X16: whenever the constructor of IamRole fails with [ValueError] (a
    service that is not allowed, policies that are not strings, policies
    that the catalog test refuses, a flag that is not a boolean), nothing
    has been created: the remote and the registry are as before. *)
Theorem IamRole_ValueError_creates_nothing :
  forall _get_section_name tuple_of_set name description service policies
      add_instance_profile
         w msg w',
    IamRole.__init__ _get_section_name tuple_of_set name description service policies
      add_instance_profile w
    = (Raise (ValueError msg), w') ->
    remote w' = remote w /\ registry w' = registry w.
Proof.
  intros gsn tos name description service policies flag w msg w' H.
  unfold IamRole.__init__ in H.
  destruct (IamRole_exists_already_reads name w) as [Hrem0 Hreg0].
  apply bind_Raise in H as [H | (role & w0 & Hlookup & H)].
  { rewrite H in Hrem0, Hreg0. auto. }
  rewrite Hlookup in Hrem0, Hreg0. cbn [snd] in Hrem0, Hreg0.
  destruct role as [r_description r_doc r_policies r_arn|].
  - exfalso. destruct (truthy description || _ || _ || _); [discriminate |].
    apply bind_Raise in H as [H | (s & w1 & _ & H)].
    { destruct (Statement_ r_doc); discriminate. }
    apply bind_Raise in H as [H | (svc & w2 & _ & H)].
    { destruct (Principal_Service s); discriminate. }
    apply bind_Raise in H as [H | (u & w3 & _ & H)]; discriminate.
  - destruct (negb _); [discriminate |].
    apply bind_Raise in H as [H | (svc & w1 & Hsvc & H)].
    { destruct (bool_decide _); [discriminate |]. injection H as _ <-. auto. }
    assert (w1 = w0) as ->.
    { destruct (bool_decide _); [| discriminate]. injection Hsvc as _ <-. reflexivity. }
    apply bind_Raise in H as [H | (input & w2 & Hinput & H)].
    { destruct policies as [s|items|b].
      - discriminate.
      - destruct (forallb _ items); [discriminate |]. injection H as _ <-. auto.
      - injection H as _ <-. auto. }
    assert (w2 = w0) as ->.
    { destruct policies as [s|items|b].
      - injection Hinput as _ <-. reflexivity.
      - destruct (forallb _ items); [| discriminate].
        injection Hinput as _ <-. reflexivity.
      - discriminate. }
    destruct (all_aws_policies_reads w0) as (l & w3 & Hall & Hrem3 & Hreg3).
    rewrite (bind_step _ _ _ _ _ Hall) in H.
    destruct (negb _).
    { injection H as _ <-. split; congruence. }
    destruct flag as [b|b].
    + exfalso. apply bind_Raise in H as [H | (arn & w4 & _ & H)]; [| discriminate].
      apply IamRole_create_no_ValueError in H. exact H.
    + injection H as _ <-. split; congruence.
Qed.

Lemma IamRole_ValueError_creates_nothing_witness :
  exists msg w',
    IamRole.__init__ id Sample.tuple_of_set "role-b" None (Some "s3")
        (IamRole.PoliciesSeq [])
      (IamRole.FlagBool false) Sample.world0
    = (Raise (ValueError msg), w') /\
    remote w' = remote Sample.world0 /\ registry w' = registry Sample.world0.
Proof.
  assert (H : IamRole.__init__ id Sample.tuple_of_set "role-b" None (Some "s3")
      (IamRole.PoliciesSeq [])
                (IamRole.FlagBool false) Sample.world0
              = (Raise (ValueError "service must be in the allowed services"),
                 snd (IamRole.__init__ id Sample.tuple_of_set "role-b" None (Some "s3")
                        (IamRole.PoliciesSeq []) (IamRole.FlagBool false)
                        Sample.world0)))
    by (vm_compute; reflexivity).
  eexists _, _. split; [exact H |].
  exact (IamRole_ValueError_creates_nothing _ _ _ _ _ _ _ _ _ _ H).
Defined.

(** ** Adopting a role *)

(** X17: a role the remote has, named with no other argument, is adopted
    with what the remote records: the description (the empty string when
    the role has none), the service of the first statement of its policy
    document, the names of its attached policies and its ARN; the registry
    gains the entry of the role under the section of roles, and the remote
    is not changed.  A policy document without a statement makes the
    constructor fail with [IndexError], a first statement without a
    service principal with [KeyError]; the registry is then as before. *)
Theorem IamRole_adoption_copies_the_remote_record :
  forall _get_section_name tuple_of_set name w d,
    roles (remote w) !! name = Some d ->
    let run :=
      IamRole.__init__ _get_section_name tuple_of_set name None None
          (IamRole.PoliciesSeq [])
        (IamRole.FlagBool false) w in
    let looked_up :=
      mkWorld (remote w) (registry w)
        (calls w ++ [Call.get_role name; Call.list_attached_role_policies name])
        (slept w) in
    match Statement_ (role_AssumeRolePolicyDocument d) with
    | [] => run = (Raise IndexError, looked_up)
    | s :: _ =>
        match Principal_Service s with
        | None => run = (Raise (KeyError "Service"), looked_up)
        | Some service =>
            run
            = (Ok (IamRole.mk name false true
                     (default EmptyString (role_Description d)) service
                     (PolicyName <$> role_AttachedPolicies d)
                     (role_AssumeRolePolicyDocument d) (role_Arn d)
                     (_get_section_name "roles")),
               mkWorld (remote w)
                 (<[(_get_section_name "roles", name) := role_Arn d]> (registry w))
                 (calls looked_up) (slept w))
        end
    end.
Proof.
  intros gsn tos name w d Hd run looked_up. unfold run, IamRole.__init__.
  rewrite (bind_step _ _ _ _ _ (IamRole_exists_already_found name w d Hd)).
  cbn [truthy IamRole.policies_truthy IamRole.flag_truthy orb].
  destruct (Statement_ (role_AssumeRolePolicyDocument d)) as [|s rest];
    [reflexivity |].
  rewrite (bind_step _ _ _ _ _ (eq_refl : ret s _ = (Ok s, _))).
  destruct (Principal_Service s) as [service|]; reflexivity.
Qed.

Lemma IamRole_adoption_copies_the_remote_record_witness :
  exists w',
    IamRole.__init__ id Sample.tuple_of_set "role-a" None None (IamRole.PoliciesSeq [])
      (IamRole.FlagBool false) Sample.world0
    = (Ok Sample.role_a, w') /\
    registry w' !! ("roles", "role-a") = Some "arn:aws:iam::role/role-a".
Proof.
  pose proof (IamRole_adoption_copies_the_remote_record id Sample.tuple_of_set
                "role-a" Sample.world0
                (mkRoleDesc "arn:aws:iam::role/role-a"
                   (mkPolicyDocument
                      [mkStatement "Allow" (Some "ec2.amazonaws.com") "sts:AssumeRole"])
                   None [mkPolicyDesc "P" "arn:P"]) eq_refl) as H.
  cbv zeta in H. cbn [Statement_ role_AssumeRolePolicyDocument Principal_Service] in H.
  eexists. split; [exact H |]. cbn [registry]. apply lookup_insert_eq.
Defined.

(** ** Destroying a role *)

(** X18: [clobber] on a batch service role that a compute environment
    still uses, with a status other than [DELETING] and [DELETED], fails
    with the not-deletable error listing every such compute environment,
    after the one call that lists the compute environments: nothing is
    detached or deleted, the registry entry stays and the instance is not
    marked clobbered. *)
Theorem IamRole_clobber_refuses_a_role_in_use :
  forall self w ce,
    IamRole.clobbered self = false ->
    IamRole.service self = "batch.amazonaws.com" ->
    ce ∈ compute_environments (remote w) ->
    serviceRole ce = IamRole.arn self ->
    status ce <> "DELETING" -> status ce <> "DELETED" ->
    exists arns,
      IamRole.clobber self w
      = (Raise (CannotDeleteResourceException arns),
         mkWorld (remote w) (registry w)
           (calls w ++ [Call.describe_compute_environments None]) (slept w)) /\
      (forall arn, arn ∈ arns <->
         exists c, c ∈ compute_environments (remote w)
                   /\ serviceRole c = IamRole.arn self
                   /\ status c <> "DELETING" /\ status c <> "DELETED"
                   /\ computeEnvironmentArn c = arn).
Proof.
  intros self w ce Hc Hbatch Hin Hrole Hs1 Hs2.
  unfold IamRole.clobber. rewrite Hc, Hbatch. cbn [String.eqb Ascii.eqb Bool.eqb andb].
  unfold IamRole.check_profile.
  rewrite (bind_step _ _ _ _ _ (eq_refl : ret tt w = (Ok tt, w))).
  set (conflicting :=
         filter (fun c => status c ∉ ["DELETING"; "DELETED"])
           (filter (fun c => serviceRole c = IamRole.arn self)
              (compute_environments (remote w)))).
  assert (Hmem : forall c, c ∈ conflicting <->
            c ∈ compute_environments (remote w) /\ serviceRole c = IamRole.arn self
            /\ status c <> "DELETING" /\ status c <> "DELETED").
  { intros c. unfold conflicting. rewrite !list_elem_of_filter.
    rewrite !not_elem_of_cons. pose proof (not_elem_of_nil (status c)). intuition. }
  assert (Hce : ce ∈ conflicting) by (apply Hmem; auto).
  exists (computeEnvironmentArn <$> conflicting). split.
  - apply bind_fail. erewrite bind_step; [| reflexivity].
    fold conflicting. clear Hmem.
    destruct conflicting as [|c l]; [inversion Hce | reflexivity].
  - intros arn. rewrite list_elem_of_fmap. split.
    + intros (c & -> & Hc'). apply Hmem in Hc'. exists c. intuition.
    + intros (c & H1 & H2 & H3 & H4 & <-). exists c. split; [reflexivity |].
      apply Hmem. auto.
Qed.

Lemma IamRole_clobber_refuses_a_role_in_use_witness :
  exists arns w',
    IamRole.clobber Sample.role_batch Cases.with_compute_environment
    = (Raise (CannotDeleteResourceException arns), w') /\
    "arn:ce-a" ∈ arns /\
    remote w' = remote Cases.with_compute_environment.
Proof.
  destruct (IamRole_clobber_refuses_a_role_in_use Sample.role_batch
              Cases.with_compute_environment
              (mkComputeEnvironment "ce-a" "arn:ce-a" "arn:aws:iam::role/role-batch"
                 "VALID" []))
    as (arns & Hrun & Harns); try reflexivity; try discriminate.
  - left.
  - exists arns. eexists. split; [exact Hrun |]. split; [| reflexivity].
    apply Harns. eexists. split; [left |].
    repeat split; try reflexivity; discriminate.
Defined.

(** X19: when [clobber] returns for a role that was not clobbered, the
    role is gone from the remote, the registry has lost the entry of the
    role under the section the instance stores, and the instance returned
    is the same one marked clobbered. *)
Theorem IamRole_clobber_removes_the_role :
  forall self w self' w',
    IamRole.clobbered self = false ->
    IamRole.clobber self w = (Ok self', w') ->
    self' = IamRole.set_clobbered self /\
    roles (remote w') !! IamRole.name self = None /\
    registry w' !! (IamRole.section_name self, IamRole.name self) = None.
Proof.
  intros self w self' w' Hc H. unfold IamRole.clobber in H. rewrite Hc in H.
  do 7 inv_bind H. unfold ret in H. simplify_eq.
  match goal with
  | Hr : config.remove_resource _ _ _ = _ |- _ =>
      unfold config.remove_resource in Hr; simplify_eq
  end.
  match goal with
  | Hd : IAM.delete_role _ _ = _ |- _ =>
      unfold IAM.delete_role, gateway, IAM.NoSuchEntity in Hd;
      repeat case_match; simplify_eq
  end.
  all: cbn [remote registry slept roles set_roles].
  all: split; [reflexivity |]; split; apply lookup_delete_eq.
Qed.

Lemma IamRole_clobber_removes_the_role_witness :
  exists w',
    IamRole.clobber Sample.role_a Sample.world0
    = (Ok (IamRole.set_clobbered Sample.role_a), w') /\
    roles (remote w') !! "role-a" = None.
Proof.
  assert (H : IamRole.clobber Sample.role_a Sample.world0
              = (Ok (IamRole.set_clobbered Sample.role_a),
                 snd (IamRole.clobber Sample.role_a Sample.world0)))
    by (vm_compute; reflexivity).
  eexists. split; [exact H |].
  apply (IamRole_clobber_removes_the_role Sample.role_a Sample.world0 _ _ eq_refl H).
Defined.

(** ** Creating a role *)

Lemma head_filter_is_Some {A} (P : A -> Prop) `{!forall x, Decision (P x)}
  (l : list A) x :
  x ∈ l -> P x -> exists y, head (filter P l) = Some y /\ y ∈ l /\ P y.
Proof.
  intros Hin HP.
  assert (Hx : x ∈ filter P l) by (apply list_elem_of_filter; auto).
  destruct (filter P l) as [|y l'] eqn:Hf; [inversion Hx |].
  exists y. split; [reflexivity |].
  assert (Hy : y ∈ filter P l) by (rewrite Hf; left).
  apply list_elem_of_filter in Hy. tauto.
Qed.

(** The policies of the loop in [_create] are attached one after the
    other; the role stays as it is but for its attached policies. *)
Lemma attach_policies_run name (policies : list string) : forall w d,
  roles (remote w) !! name = Some d ->
  (forall policy, policy ∈ policies ->
                  policy ∈ PolicyName <$> concat (policy_pages (remote w))) ->
  exists w' d',
    for_each policies (fun policy =>
      policy_arn <- IamRole.policy_arn_of policy ;;
      let retry := IamRole.attach_retry in
      tenacity.call retry (IAM.attach_role_policy policy_arn name)) w
    = (Ok tt, w') /\
    registry w' = registry w /\
    roles (remote w') = <[name := d']> (roles (remote w)) /\
    instance_profiles (remote w') = instance_profiles (remote w) /\
    role_Arn d' = role_Arn d /\
    role_AssumeRolePolicyDocument d' = role_AssumeRolePolicyDocument d /\
    role_Description d' = role_Description d /\
    length (role_AttachedPolicies d')
    = length (role_AttachedPolicies d) + length policies.
Proof.
  induction policies as [|policy policies IH]; intros w d Hd Hknown.
  - exists w, d. split; [reflexivity |]. repeat split; try reflexivity.
    + symmetry. apply insert_id. exact Hd.
    + simpl. lia.
  - cbn [for_each].
    assert (Hpolicy : policy ∈ PolicyName <$> concat (policy_pages (remote w)))
      by (apply Hknown; left).
    apply list_elem_of_fmap in Hpolicy as (p0 & Hname & Hp0).
    destruct (head_filter_is_Some (fun p => PolicyName p = policy) _ p0 Hp0
                (eq_sym Hname)) as (p & Hhead & Hp & _).
    assert (Hpages : policy_pages (remote w) <> []).
    { intros Hnil. rewrite Hnil in Hp0. inversion Hp0. }
    assert (Harn : exists w1,
              IamRole.policy_arn_of policy w = (Ok (PolicyArn p), w1)
              /\ remote w1 = remote w /\ registry w1 = registry w).
    { unfold IamRole.policy_arn_of.
      rewrite (bind_step _ _ _ _ _ (list_policies_run _ _)).
      change (default 0 None) with 0.
      set (w1 := mkWorld _ _ _ _).
      destruct (policy_filter_from_run policy (length (policy_pages (remote w1))) 0 w1)
        as (w2 & Hrun & Hrem & Hreg).
      - unfold w1. cbn [remote].
        destruct (policy_pages (remote w)); [contradiction | simpl; lia].
      - lia.
      - rewrite drop_0 in Hrun. change (remote w1) with (remote w) in Hrun.
        rewrite Hhead in Hrun. exists w2. unfold bind.
        change (remote w1) with (remote w).
        rewrite Hrun. split; [reflexivity |]. split; [exact Hrem | exact Hreg]. }
    destruct Harn as (w1 & Harn & Hrem1 & Hreg1).
    destruct (head_filter_is_Some (fun q => PolicyArn q = PolicyArn p) _ p Hp eq_refl)
      as (q & Hq & _ & _).
    set (d1 := mkRoleDesc (role_Arn d) (role_AssumeRolePolicyDocument d)
                 (role_Description d) (role_AttachedPolicies d ++ [q])).
    set (w2 := mkWorld (set_roles (insert name d1) (remote w1)) (registry w1)
                 (calls w1 ++ [Call.attach_role_policy (PolicyArn p) name])
                 (slept w1)).
    assert (Hattach : tenacity.call IamRole.attach_retry
                        (IAM.attach_role_policy (PolicyArn p) name) w1
                      = (Ok tt, w2)).
    { apply call_first_attempt; [| reflexivity].
      unfold IAM.attach_role_policy, gateway, IAM.find_policy, w2.
      rewrite Hrem1, Hd, Hq. reflexivity. }
    destruct (IH w2 d1) as (w' & d' & Hrun & Hreg & Hroles & Hip & Ha & Hdoc & Hdesc & Hlen).
    + unfold w2. cbn [remote roles set_roles]. apply lookup_insert_eq.
    + intros policy' Hin. unfold w2. cbn [remote policy_pages set_roles].
      rewrite Hrem1. apply Hknown. right. exact Hin.
    + exists w', d'. split.
      { erewrite bind_step with (a := tt) (w1 := w2); [exact Hrun |].
        cbv beta. rewrite (bind_step _ _ _ _ _ Harn). exact Hattach. }
      rewrite Hreg, Hroles, Hip. unfold w2.
      cbn [remote registry roles instance_profiles set_roles]. rewrite Hrem1.
      split; [exact Hreg1 |]. split; [apply insert_insert_eq |].
      split; [reflexivity |]. split; [exact Ha |]. split; [exact Hdoc |].
      split; [exact Hdesc |]. rewrite Hlen. unfold d1. cbn [role_AttachedPolicies].
      rewrite length_app. simpl. lia.
Qed.







(** X21: once [clobber] has returned for a role, the instance it returns
    is inert: [clobber] on it returns it again and [instance_profile_arn]
    raises [ResourceClobberedException] with the ARN of the role, both
    without a call to the remote and without any change of the remote,
    the registry or the call log. *)
Theorem IamRole_clobbered_instance_is_inert :
  forall self w self' w',
    IamRole.clobber self w = (Ok self', w') ->
    forall w'',
      IamRole.clobber self' w'' = (Ok self', w'') /\
      IamRole.instance_profile_arn self' w''
      = (Raise (ResourceClobberedException (IamRole.arn self)), w'').
Proof.
  intros self w self' w' H w''.
  pose proof (IamRole_clobber_sets_clobbered _ _ _ _ H) as Hc.
  assert (Harn : IamRole.arn self' = IamRole.arn self).
  { unfold IamRole.clobber in H. destruct (IamRole.clobbered self).
    - injection H as <- _. reflexivity.
    - do 7 inv_bind H. injection H as <- _. reflexivity. }
  split.
  - unfold IamRole.clobber. rewrite Hc. reflexivity.
  - unfold IamRole.instance_profile_arn. rewrite Hc, Harn. reflexivity.
Qed.

Lemma IamRole_clobbered_instance_is_inert_witness :
  let first := IamRole.clobber Sample.role_a Sample.world0 in
  exists self',
    fst first = Ok self' /\
    IamRole.clobber self' (snd first) = (Ok self', snd first) /\
    IamRole.instance_profile_arn self' (snd first)
    = (Raise (ResourceClobberedException "arn:aws:iam::role/role-a"), snd first).
Proof.
  intros first.
  assert (H : first = (Ok (IamRole.set_clobbered Sample.role_a), snd first))
    by (vm_compute; reflexivity).
  exists (IamRole.set_clobbered Sample.role_a). split; [rewrite H; reflexivity |].
  exact (IamRole_clobbered_instance_is_inert Sample.role_a Sample.world0 _ _ H
           (snd first)).
Defined.

(** ** The instance profile of a role *)

Lemma list_instance_profiles_none name w d :
  roles (remote w) !! name = Some d ->
  (forall pname p, instance_profiles (remote w) !! pname = Some p ->
                   name ∉ ip_Roles p) ->
  IAM.list_instance_profiles_for_role name w
  = (Ok [], mkWorld (remote w) (registry w)
              (calls w ++ [Call.list_instance_profiles_for_role name]) (slept w)).
Proof.
  intros Hd Hnone. unfold IAM.list_instance_profiles_for_role, gateway.
  rewrite Hd. rewrite filter_none; [reflexivity |].
  intros [pname p] Hin. apply elem_of_map_to_list in Hin. exact (Hnone pname p Hin).
Qed.

Lemma list_instance_profiles_one name w d pname p :
  roles (remote w) !! name = Some d ->
  instance_profiles (remote w) !! pname = Some p ->
  name ∈ ip_Roles p ->
  (forall pname' p', instance_profiles (remote w) !! pname' = Some p' ->
                     name ∈ ip_Roles p' -> pname' = pname) ->
  IAM.list_instance_profiles_for_role name w
  = (Ok [(pname, p)],
     mkWorld (remote w) (registry w)
       (calls w ++ [Call.list_instance_profiles_for_role name]) (slept w)).
Proof.
  intros Hd Hp Hin Huniq. unfold IAM.list_instance_profiles_for_role, gateway.
  rewrite Hd.
  rewrite (filter_map_to_list_unique _ (fun kv => name ∈ ip_Roles kv.2) pname p Hp Hin
             Huniq).
  reflexivity.
Qed.

(** X22: [instance_profile_arn] of a role that is not clobbered asks the
    remote for the instance profiles of the role: it is [None] when no
    profile lists the role, the ARN of the profile when one profile lists
    it, and the remote's not-found error when the remote has no such
    role; the remote and the registry are not changed. *)
Theorem instance_profile_arn_reads_the_remote :
  forall self w,
    IamRole.clobbered self = false ->
    let looked_up :=
      mkWorld (remote w) (registry w)
        (calls w ++ [Call.list_instance_profiles_for_role (IamRole.name self)])
        (slept w) in
    (roles (remote w) !! IamRole.name self = None ->
     IamRole.instance_profile_arn self w
     = (Raise (ClientError "NoSuchEntity"), looked_up)) /\
    (is_Some (roles (remote w) !! IamRole.name self) ->
     (forall pname p, instance_profiles (remote w) !! pname = Some p ->
                      IamRole.name self ∉ ip_Roles p) ->
     IamRole.instance_profile_arn self w = (Ok None, looked_up)) /\
    (forall pname p,
       is_Some (roles (remote w) !! IamRole.name self) ->
       instance_profiles (remote w) !! pname = Some p ->
       IamRole.name self ∈ ip_Roles p ->
       (forall pname' p', instance_profiles (remote w) !! pname' = Some p' ->
                          IamRole.name self ∈ ip_Roles p' -> pname' = pname) ->
       IamRole.instance_profile_arn self w = (Ok (Some (ip_Arn p)), looked_up)).
Proof.
  intros self w Hc looked_up. unfold IamRole.instance_profile_arn. rewrite Hc.
  unfold IamRole.check_profile.
  rewrite (bind_step _ _ _ _ _ (eq_refl : ret tt w = (Ok tt, w))).
  split; [| split].
  - intros Hnone. apply bind_fail.
    unfold IAM.list_instance_profiles_for_role, gateway. rewrite Hnone. reflexivity.
  - intros [d Hd] Hfree.
    rewrite (bind_step _ _ _ _ _ (list_instance_profiles_none _ _ _ Hd Hfree)).
    reflexivity.
  - intros pname p [d Hd] Hp Hin Huniq.
    rewrite (bind_step _ _ _ _ _
               (list_instance_profiles_one _ _ _ _ _ Hd Hp Hin Huniq)).
    reflexivity.
Qed.

Lemma instance_profile_arn_reads_the_remote_witness :
  fst (IamRole.instance_profile_arn Sample.role_a Sample.world0) = Ok None /\
  fst (IamRole.instance_profile_arn Sample.role_batch Sample.world0)
  = Raise (ClientError "NoSuchEntity").
Proof.
  destruct (instance_profile_arn_reads_the_remote Sample.role_a Sample.world0 eq_refl)
    as (_ & Hnone & _).
  destruct (instance_profile_arn_reads_the_remote Sample.role_batch Sample.world0
              eq_refl) as (Habsent & _ & _).
  split.
  - rewrite Hnone; [reflexivity | eexists; reflexivity |].
    intros pname p Hin. unfold Sample.world0, Sample.remote0 in Hin.
    cbn [remote instance_profiles] in Hin. rewrite lookup_empty in Hin. discriminate.
  - rewrite Habsent; reflexivity.
Defined.

(** X23: [_create] with the instance profile asked for, for a name the
    remote has no role for and policies of the catalog: when the remote
    has no instance profile of that name, one is created, waited for and
    given the role; when it has one that holds no role, the
    already-exists error of the creation is caught and the role is added
    to that profile.  Either way the profile of the role's name ends up
    holding exactly the role, the role is on the remote and the registry
    gains the entry of the role. *)
Theorem IamRole_create_adds_the_instance_profile :
  forall _get_section_name name description doc policies w,
    roles (remote w) !! name = None ->
    (forall policy, policy ∈ policies ->
                    policy ∈ PolicyName <$> concat (policy_pages (remote w))) ->
    match instance_profiles (remote w) !! name with
    | Some p => ip_Roles p = []
    | None => True
    end ->
    exists w' p',
      IamRole._create _get_section_name name description doc policies true w
      = (Ok (IAM.role_arn_of name), w') /\
      instance_profiles (remote w') !! name = Some p' /\
      ip_Roles p' = [name] /\
      ip_Arn p'
      = match instance_profiles (remote w) !! name with
        | Some p => ip_Arn p
        | None => "arn:aws:iam::instance-profile/" +:+ name
        end /\
      is_Some (roles (remote w') !! name) /\
      registry w'
      = <[(_get_section_name "roles", name) := IAM.role_arn_of name]> (registry w).
Proof.
  intros gsn name description doc policies w Hnone Hknown Hfree.
  set (d0 := mkRoleDesc (IAM.role_arn_of name) doc (Some description) []).
  set (w1 := mkWorld (set_roles (insert name d0) (remote w)) (registry w)
               (calls w ++ [Call.create_role name doc description]) (slept w)).
  assert (Hcreate : IAM.create_role name doc description w
                    = (Ok (IAM.role_arn_of name), w1)).
  { unfold IAM.create_role, gateway, w1. rewrite Hnone. reflexivity. }
  destruct (attach_policies_run name policies w1 d0)
    as (w2 & d & Hattach & Hreg2 & Hroles2 & Hip2 & _).
  { unfold w1. cbn [remote roles set_roles]. apply lookup_insert_eq. }
  { intros policy Hin. unfold w1. cbn [remote policy_pages set_roles].
    apply Hknown. exact Hin. }
  assert (Hrole2 : roles (remote w2) !! name = Some d)
    by (rewrite Hroles2; apply lookup_insert_eq).
  assert (Hip : instance_profiles (remote w2) = instance_profiles (remote w))
    by (rewrite Hip2; reflexivity).
  unfold IamRole._create.
  rewrite (bind_step _ _ _ _ _ Hcreate), (bind_step _ _ _ _ _ Hattach).
  destruct (instance_profiles (remote w) !! name) as [p|] eqn:Hp.
  - set (p' := mkInstanceProfileDesc (ip_Arn p) [name]).
    erewrite bind_step with (a := tt)
      (w1 := mkWorld (set_instance_profiles (insert name p') (remote w2)) (registry w2)
               ((calls w2 ++ [Call.create_instance_profile name])
                ++ [Call.add_role_to_instance_profile name name]) (slept w2)).
    2:{ erewrite catch_fail.
        2:{ apply bind_fail. unfold IAM.create_instance_profile, gateway.
            rewrite Hip, Hp. reflexivity. }
        cbn [IamRole.EntityAlreadyExistsException botocore.has_code String.eqb
             Ascii.eqb Bool.eqb andb].
        unfold IAM.add_role_to_instance_profile, gateway. cbn [remote].
        rewrite Hip, Hp, Hrole2, Hfree. reflexivity. }
    erewrite bind_step; [| reflexivity].
    eexists _, p'. split; [reflexivity |].
    cbn [remote registry instance_profiles roles set_instance_profiles].
    split; [apply lookup_insert_eq |]. split; [reflexivity |]. split; [reflexivity |].
    split; [eauto |]. rewrite Hreg2. reflexivity.
  - set (arn := "arn:aws:iam::instance-profile/" +:+ name).
    set (p' := mkInstanceProfileDesc arn [name]).
    set (w3 := mkWorld
                 (set_instance_profiles (insert name (mkInstanceProfileDesc arn []))
                    (remote w2))
                 (registry w2) (calls w2 ++ [Call.create_instance_profile name])
                 (slept w2)).
    set (w4 := mkWorld (remote w3) (registry w3)
                 (calls w3 ++ [Call.wait_instance_profile_exists name]) (slept w3)).
    erewrite bind_step with (a := tt)
      (w1 := mkWorld (set_instance_profiles (insert name p') (remote w4)) (registry w4)
               (calls w4 ++ [Call.add_role_to_instance_profile name name])
               (slept w4)).
    2:{ apply catch_step.
        erewrite bind_step with (a := tt) (w1 := w3).
        2:{ unfold IAM.create_instance_profile, gateway, w3. rewrite Hip, Hp.
            reflexivity. }
        erewrite bind_step with (a := tt) (w1 := w4).
        2:{ unfold IAM.wait_instance_profile_exists, gateway, w4, w3.
            cbn [remote instance_profiles set_instance_profiles].
            rewrite lookup_insert_eq. reflexivity. }
        unfold IAM.add_role_to_instance_profile, gateway, w4, w3.
        cbn [remote instance_profiles roles set_instance_profiles].
        rewrite lookup_insert_eq, Hrole2. reflexivity. }
    erewrite bind_step; [| reflexivity].
    eexists _, p'. split; [reflexivity |].
    unfold w4, w3.
    cbn [remote registry instance_profiles roles set_instance_profiles].
    split; [apply lookup_insert_eq |]. split; [reflexivity |]. split; [reflexivity |].
    split; [eauto |]. rewrite Hreg2. reflexivity.
Qed.

Lemma IamRole_create_adds_the_instance_profile_witness :
  exists w' p',
    IamRole._create id "role-b" "a role"
      (mkPolicyDocument
         [mkStatement "Allow" (Some "ec2.amazonaws.com") "sts:AssumeRole"])
      ["Q"] true Sample.world0
    = (Ok "arn:aws:iam::role/role-b", w') /\
    instance_profiles (remote w') !! "role-b" = Some p' /\
    ip_Roles p' = ["role-b"] /\
    ip_Arn p' = "arn:aws:iam::instance-profile/role-b".
Proof.
  destruct (IamRole_create_adds_the_instance_profile id "role-b" "a role"
              (mkPolicyDocument
                 [mkStatement "Allow" (Some "ec2.amazonaws.com") "sts:AssumeRole"])
              ["Q"] Sample.world0)
    as (w' & p' & Hrun & Hp & Hroles & Harn & _).
  - reflexivity.
  - intros policy Hin. apply list_elem_of_singleton in Hin. subst policy.
    vm_compute. right. left.
  - vm_compute. exact I.
  - exists w', p'. split; [exact Hrun |]. split; [exact Hp |].
    split; [exact Hroles |]. exact Harn.
Defined.

(** X24: [clobber] on a role that is not a batch service role, has no
    policy and is held by one instance profile, which holds nothing
    else: the role is taken out of the profile, the profile is deleted,
    then the role, and the registry entry is removed, in five calls to the
    remote. *)
Theorem IamRole_clobber_removes_the_instance_profile :
  forall self w d pname p,
    let name := IamRole.name self in
    IamRole.clobbered self = false ->
    IamRole.service self <> "batch.amazonaws.com" ->
    IamRole.policies self = [] ->
    roles (remote w) !! name = Some d ->
    role_AttachedPolicies d = [] ->
    instance_profiles (remote w) !! pname = Some p ->
    ip_Roles p = [name] ->
    truthy (Some (ip_Arn p)) = true ->
    (forall pname' p', instance_profiles (remote w) !! pname' = Some p' ->
                       name ∈ ip_Roles p' -> pname' = pname) ->
    IamRole.clobber self w
    = (Ok (IamRole.set_clobbered self),
       mkWorld
         (set_roles (delete name)
            (set_instance_profiles (delete pname)
               (set_instance_profiles
                  (insert pname (mkInstanceProfileDesc (ip_Arn p) [])) (remote w))))
         (delete (IamRole.section_name self, name) (registry w))
         (calls w ++ [Call.list_instance_profiles_for_role name;
                      Call.list_instance_profiles_for_role name;
                      Call.remove_role_from_instance_profile pname name;
                      Call.delete_instance_profile pname;
                      Call.delete_role name])
         (slept w)).
Proof.
  intros self w d pname p name Hc Hservice Hpolicies Hd Hattached Hp Hroles Harn Huniq.
  assert (Hin : name ∈ ip_Roles p) by (rewrite Hroles; left).
  unfold IamRole.clobber. rewrite Hc. unfold IamRole.check_profile.
  rewrite (bind_step _ _ _ _ _ (eq_refl : ret tt w = (Ok tt, w))).
  apply String.eqb_neq in Hservice. rewrite Hservice.
  rewrite (bind_step _ _ _ _ _ (eq_refl : ret tt w = (Ok tt, w))).
  set (w1 := mkWorld (remote w) (registry w)
               (calls w ++ [Call.list_instance_profiles_for_role name]) (slept w)).
  erewrite bind_step with (a := Some (ip_Arn p)) (w1 := w1).
  2:{ unfold IamRole.instance_profile_arn. rewrite Hc. unfold IamRole.check_profile.
      rewrite (bind_step _ _ _ _ _ (eq_refl : ret tt w = (Ok tt, w))).
      rewrite (bind_step _ _ _ _ _
                 (list_instance_profiles_one _ _ _ _ _ Hd Hp Hin Huniq)).
      reflexivity. }
  rewrite Harn.
  erewrite bind_step with (a := tt).
  2:{ erewrite bind_step.
      2:{ apply (list_instance_profiles_one name w1 d pname p); assumption. }
      cbn [fst]. erewrite bind_step.
      2:{ unfold IAM.remove_role_from_instance_profile, gateway, w1. cbn [remote].
          rewrite Hp. rewrite (bool_decide_eq_true_2 _ Hin). reflexivity. }
      unfold IAM.delete_instance_profile, gateway.
      cbn [remote instance_profiles set_instance_profiles].
      rewrite lookup_insert_eq. cbn [ip_Roles]. rewrite Hroles.
      rewrite filter_cons_False by (intros Hne; apply Hne; reflexivity).
      rewrite filter_nil. reflexivity. }
  rewrite Hpolicies. cbn [for_each].
  rewrite (bind_step _ _ _ _ _ (eq_refl : ret tt _ = (Ok tt, _))).
  erewrite bind_step with (a := tt).
  2:{ unfold IAM.delete_role, gateway.
      cbn [remote roles instance_profiles set_instance_profiles].
      fold name. rewrite Hd, Hattached.
      rewrite existsb_false_intro; [reflexivity |].
      intros [pname' p'] Hin'. apply elem_of_map_to_list in Hin'.
      apply bool_decide_eq_false. cbn [snd]. intros Hholds.
      destruct (decide (pname' = pname)) as [->|Hne].
      - rewrite lookup_delete_eq in Hin'. discriminate.
      - rewrite lookup_delete_ne, lookup_insert_ne in Hin' by congruence.
        apply Hne. eapply Huniq; eassumption. }
  erewrite bind_step; [| reflexivity].
  unfold ret, w1. cbn [remote registry calls slept]. fold name.
  rewrite <- !app_assoc. reflexivity.
Qed.

Lemma IamRole_clobber_removes_the_instance_profile_witness :
  exists w',
    IamRole.clobber Cases.role_p Cases.with_instance_profile
    = (Ok (IamRole.set_clobbered Cases.role_p), w') /\
    instance_profiles (remote w') !! "profile-p" = None /\
    roles (remote w') !! "role-p" = None.
Proof.
  eexists. split.
  - apply (IamRole_clobber_removes_the_instance_profile Cases.role_p
             Cases.with_instance_profile
             (mkRoleDesc "arn:aws:iam::role/role-p"
                (mkPolicyDocument
                   [mkStatement "Allow" (Some "ec2.amazonaws.com") "sts:AssumeRole"])
                None [])
             "profile-p"
             (mkInstanceProfileDesc "arn:aws:iam::instance-profile/profile-p"
                ["role-p"])); try reflexivity.
    + discriminate.
    + intros pname' p' Hin _. unfold Cases.with_instance_profile in Hin.
      cbn [remote instance_profiles] in Hin.
      apply lookup_singleton_Some in Hin. destruct Hin as [<- _]. reflexivity.
  - cbn [remote instance_profiles roles set_roles set_instance_profiles].
    split; apply lookup_delete_eq.
Defined.
